(** * gas-slack-notifier: the mention aggregator and the webhook poster

    A shallow embedding of [src/SlackMentionAggregator.ts] (the paginated
    variant) and of [postToSlack] from [SlackNotifier.ts], followed by the
    properties of the specification that can be stated over it.

    Conventions of the embedding.
    - A JavaScript string is a [string]: a sequence of 8-bit code units,
      UTF-8 for the literals of the source.
    - A JavaScript number that the code uses as a counter or reads from an
      integer field of the API is a [Z].
    - An object field that may be absent ([undefined]) is an [option].
    - A response body is either no JSON at all or JSON of the shape the
      search API documents: [ok] a boolean, [error] a string, [matches] an
      array of objects, [channel] an object, [id], [name] and [text]
      strings, [page_count] and [total_count] integers, every field but
      [ok] and the two counts possibly absent. JSON of another shape (a
      [null] for a match or for a field, a number where a string is
      documented) has no counterpart here, and no statement below speaks
      of it.
    - The Apps Script services ([PropertiesService], [UrlFetchApp],
      [Utilities], the clock, the collation behind [localeCompare]) are the
      fields of a [Runtime]; what the script changes ([Logger], the requests
      it sends, the project's triggers) is the [World], threaded through a
      small state-and-exception monad. *)

From Stdlib Require Import String Ascii ZArith List Bool Lia.
From Stdlib Require Import Permutation Sorted DecimalString.
From Stdlib Require OrderedTypeEx.
Import ListNotations.

Local Open Scope Z_scope.
Local Open Scope list_scope.

(** ** Strings *)

Infix "^^" := String.append (at level 60, right associativity).

(** [`${n}`] for an integer [n]. *)
Definition showZ (n : Z) : string := NilZero.string_of_int (Z.to_int n).

(** [`${xs.length}`]. *)
Definition showLength {A : Type} (xs : list A) : string :=
  showZ (Z.of_nat (length xs)).

(** [`${x}`] for a string field that may be [undefined]. *)
Definition showField (x : option string) : string :=
  match x with
  | Some s => s
  | None => "undefined"%string
  end.

(** Truthiness of a string-valued field: [undefined] and the empty string are
    falsy. *)
Definition truthy (x : option string) : bool :=
  match x with
  | Some (String _ _) => true
  | _ => false
  end.

Definition newline : string := String (ascii_of_nat 10) EmptyString.
Definition dquote : ascii := ascii_of_nat 34.
Definition backslash : ascii := ascii_of_nat 92.

Definition hexDigit (n : nat) : ascii :=
  if Nat.ltb n 10 then ascii_of_nat (48 + n) else ascii_of_nat (55 + n).

(** The characters [encodeURIComponent] leaves alone:
    [A-Z a-z 0-9 - _ . ! ~ * ' ( )]. *)
Definition uriUnreserved (c : ascii) : bool :=
  let n := nat_of_ascii c in
  (Nat.leb 65 n && Nat.leb n 90) || (Nat.leb 97 n && Nat.leb n 122)
  || (Nat.leb 48 n && Nat.leb n 57)
  || existsb (Nat.eqb n) [45; 95; 46; 33; 126; 42; 39; 40; 41]%nat.

(** [encodeURIComponent]: every code unit outside the unreserved set becomes
    [%XX]. *)
Fixpoint encodeURIComponent (s : string) : string :=
  match s with
  | EmptyString => EmptyString
  | String c rest =>
      if uriUnreserved c then String c (encodeURIComponent rest)
      else
        let n := nat_of_ascii c in
        String "%" (String (hexDigit (Nat.div n 16))
                      (String (hexDigit (Nat.modulo n 16))
                         (encodeURIComponent rest)))
  end.

(** The escaping [JSON.stringify] applies inside a string literal. *)
Fixpoint jsonEscape (s : string) : string :=
  match s with
  | EmptyString => EmptyString
  | String c rest =>
      let n := nat_of_ascii c in
      let tail := jsonEscape rest in
      if Ascii.eqb c dquote then String backslash (String dquote tail)
      else if Ascii.eqb c backslash then String backslash (String backslash tail)
      else if Nat.eqb n 8 then String backslash (String "b" tail)
      else if Nat.eqb n 9 then String backslash (String "t" tail)
      else if Nat.eqb n 10 then String backslash (String "n" tail)
      else if Nat.eqb n 12 then String backslash (String "f" tail)
      else if Nat.eqb n 13 then String backslash (String "r" tail)
      else if Nat.ltb n 32 then
        String backslash
          ("u00"%string ^^ String (ascii_of_nat (48 + Nat.div n 16))
             (String (if Nat.ltb (Nat.modulo n 16) 10
                      then ascii_of_nat (48 + Nat.modulo n 16)
                      else ascii_of_nat (87 + Nat.modulo n 16)) tail))
      else String c tail
  end.

(** [JSON.stringify({ text })]. *)
Definition JSON_stringify_text (text : string) : string :=
  ("{" ^^ String dquote "text" ^^ String dquote ":" ^^ String dquote EmptyString
   ^^ jsonEscape text ^^ String dquote "}")%string.

(** ** Data model *)

(** The [channel] object of a match; both fields are strings and may be
    absent. *)
Module Channel.
Record t : Type := make { id : option string; name : option string }.
End Channel.

(** One element of [messages.matches]: an object; [channel], an object,
    and [text], a string, may be absent. *)
Module Match.
Record t : Type :=
make { channel : option Channel.t; text : option string }.
End Match.

(** [{ id, name }], the element type of the aggregator's result. *)
Module ChannelSummary.
Record t : Type := make { id : string; name : string }.
End ChannelSummary.

Record Pagination : Type :=
  { page_count : Z; total_count : Z }.

Record Messages : Type :=
  { matches : option (list Match.t); pagination : option Pagination }.

(** The object [JSON.parse] yields for a body of the search API. *)
Record SearchJson : Type :=
  { ok : bool; error : option string; messages : option Messages }.

(** ** The environment *)

Inductive Method : Type := GET | POST.

(** The arguments of one [UrlFetchApp.fetch(url, options)] call. *)
Record Request : Type :=
  { url : string;
    method : Method;
    contentType : option string;
    authorization : option string;
    payload : option string;
    muteHttpExceptions : bool }.

(** An [HTTPResponse]. JSON is not parsed character by character here: a
    response carries, next to its text, what [JSON.parse] makes of that text,
    [None] when [JSON.parse] raises a [SyntaxError]. *)
Record HTTPResponse : Type :=
  { getResponseCode : Z;
    getContentText : string;
    parsedJson : option SearchJson }.

Inductive Schedule : Type :=
| Daily (atHour everyDays : Z)
| EveryMinutes (n : Z).

Record Trigger : Type :=
  { getUniqueId : nat;
    getHandlerFunction : string;
    getSchedule : Schedule }.

(** What the script reads from its host. [fetch] answers a request; within
    one run no request is sent twice (the page number or the method differs),
    so a function of the request covers every behaviour of the remote
    side. Every call of [fetch] returns a response, as
    [UrlFetchApp.fetch] does with [muteHttpExceptions] set whenever the
    remote side answers at all; a call that raises instead (a url that is
    none, no network) is not covered. *)
Record Runtime : Type :=
  { getProperty : string -> option string;
    fetch : Request -> HTTPResponse;
    formattedYesterday : string;
    formattedToday : string;
    localeCompare : string -> string -> Z }.

(** What the script changes. *)
Record World : Type :=
  { logged : list string;
    requested : list Request;
    projectTriggers : list Trigger }.

(** [HostError] is an exception raised by an Apps Script service. *)
Inductive Exn : Type :=
| SyntaxError
| TypeError
| HostError.

(** How a call ends: it returns, it throws, or the model's loop budget ran
    out before the loop ended. *)
Inductive Result (A : Type) : Type :=
| Returned (a : A)
| Threw (e : Exn)
| OutOfFuel.

Arguments Returned {A} a.
Arguments Threw {A} e.
Arguments OutOfFuel {A}.

Definition GAS (A : Type) : Type := World -> Result A * World.

Definition ret {A : Type} (a : A) : GAS A := fun w => (Returned a, w).

Definition throw {A : Type} (e : Exn) : GAS A := fun w => (Threw e, w).

Definition outOfFuel {A : Type} : GAS A := fun w => (OutOfFuel, w).

Definition bind {A B : Type} (m : GAS A) (k : A -> GAS B) : GAS B :=
  fun w =>
    match m w with
    | (Returned a, w') => k a w'
    | (Threw e, w') => (Threw e, w')
    | (OutOfFuel, w') => (OutOfFuel, w')
    end.

Declare Scope gas_scope.
Delimit Scope gas_scope with gas.
Notation "x <- m ;; k" := (bind m (fun x => k))
  (at level 61, m at next level, right associativity) : gas_scope.
Notation "m ;; k" := (bind m (fun _ => k))
  (at level 61, right associativity) : gas_scope.
Local Open Scope gas_scope.

(** [Logger.log(line)]. *)
Definition Logger_log (line : string) : GAS unit :=
  fun w =>
    (Returned tt,
     {| logged := logged w ++ [line];
        requested := requested w;
        projectTriggers := projectTriggers w |}).

(** [UrlFetchApp.fetch(url, options)]. *)
Definition UrlFetchApp_fetch (R : Runtime) (req : Request) : GAS HTTPResponse :=
  fun w =>
    (Returned (fetch R req),
     {| logged := logged w;
        requested := requested w ++ [req];
        projectTriggers := projectTriggers w |}).

(** [JSON.parse(response.getContentText())]. *)
Definition JSON_parse (response : HTTPResponse) : GAS SearchJson :=
  match parsedJson response with
  | Some j => ret j
  | None => throw SyntaxError
  end.

(** Reading a property of a value that may be [undefined]: a [TypeError]
    when it is. *)
Definition deref {A : Type} (x : option A) : GAS A :=
  match x with
  | Some a => ret a
  | None => throw TypeError
  end.

(** ** postToSlack (SlackNotifier.ts) *)

Definition postRequest (webhookUrl text : string) : Request :=
  {| url := webhookUrl;
     method := POST;
     contentType := Some "application/json"%string;
     authorization := None;
     payload := Some (JSON_stringify_text text);
     muteHttpExceptions := true |}.

Definition postSuccessLine : string :=
  "✅ Slack通知の送信に成功しました。"%string.

Definition postFailureLine (statusCode : Z) (body : string) : string :=
  ("❌ Slack通知の送信に失敗しました。ステータスコード: " ^^ showZ statusCode
   ^^ ", レスポンス: " ^^ body)%string.

Definition postToSlack (R : Runtime) (webhookUrl text : string) : GAS unit :=
  response <- UrlFetchApp_fetch R (postRequest webhookUrl text) ;;
  let statusCode := getResponseCode response in
  if statusCode =? 200 then Logger_log postSuccessLine
  else Logger_log (postFailureLine statusCode (getContentText response)).

(** ** searchSlackMessages *)

Definition searchUrl (query : string) (page : Z) : string :=
  ("https://slack.com/api/search.messages?query=" ^^ encodeURIComponent query
   ^^ "&count=100&page=" ^^ showZ page)%string.

Definition searchRequest (token query : string) (page : Z) : Request :=
  {| url := searchUrl query page;
     method := GET;
     contentType := None;
     authorization := Some ("Bearer " ^^ token)%string;
     payload := None;
     muteHttpExceptions := true |}.

Definition searchStartLine (query : string) : string :=
  ("[DEBUG] Starting Slack Search with query: " ^^ query)%string.

Definition apiErrorLine (err : option string) : string :=
  ("[ERROR] Slack API Error: " ^^ showField err)%string.

Definition invalidAuthLine : string :=
  "[ERROR] Token may be invalid or expired."%string.

Definition totalHitsLine (totalCount : Z) : string :=
  ("[DEBUG] Total hits on Slack: " ^^ showZ totalCount)%string.

Definition pageLine (page : Z) (found : list Match.t) : string :=
  ("[DEBUG] Page " ^^ showZ page ^^ ": Found " ^^ showLength found
   ^^ " matches.")%string.

(** [s.substring(0, units)]. A JavaScript string is a sequence of UTF-16
    code units and is held here in UTF-8: a character of one, two or three
    bytes is one code unit, a character of four bytes is two (a surrogate
    pair). [pending] counts the bytes still to copy of the character being
    taken. Where the cut falls inside a surrogate pair the result ends with
    the high surrogate alone, written as its three bytes (WTF-8). *)
Definition utf8Shape (lead : nat) : nat * nat :=
  if Nat.ltb lead 192 then (1, 1)%nat
  else if Nat.ltb lead 224 then (2, 1)%nat
  else if Nat.ltb lead 240 then (3, 1)%nat
  else if Nat.ltb lead 248 then (4, 2)%nat
  else (1, 1)%nat.

Definition byteAt (i : nat) (s : string) : nat :=
  match String.get i s with
  | Some c => nat_of_ascii c
  | None => 0%nat
  end.

(** The high surrogate of the four-byte character [lead :: rest]. *)
Definition highSurrogate (lead : nat) (rest : string) : string :=
  let cp :=
    (Z.of_nat lead mod 8) * 262144
    + (Z.of_nat (byteAt 0 rest) mod 64) * 4096
    + (Z.of_nat (byteAt 1 rest) mod 64) * 64
    + Z.of_nat (byteAt 2 rest) mod 64 in
  let hs := 55296 + (cp - 65536) / 1024 in
  String (ascii_of_nat 237)
    (String (ascii_of_nat (Z.to_nat (128 + (hs / 64) mod 64)))
       (String (ascii_of_nat (Z.to_nat (128 + hs mod 64))) EmptyString)).

Fixpoint takeUnits (units pending : nat) (s : string) : string :=
  match s with
  | EmptyString => EmptyString
  | String c rest =>
      match pending with
      | S p => String c (takeUnits units p rest)
      | O =>
          let (len, cost) := utf8Shape (nat_of_ascii c) in
          if Nat.leb cost units
          then String c (takeUnits (units - cost) (len - 1) rest)
          else if Nat.eqb units 1 then highSurrogate (nat_of_ascii c) rest
               else EmptyString
      end
  end.

Definition substringFromStart (units : nat) (s : string) : string :=
  takeUnits units 0 s.

Definition sampleLine (ch : Channel.t) (txt : string) : string :=
  ("[DEBUG] Sample Match - Channel: " ^^ showField (Channel.name ch) ^^ " ("
   ^^ showField (Channel.id ch) ^^ "), Text fragment: "
   ^^ substringFromStart 30 txt ^^ "...")%string.

Definition pageLimitLine : string :=
  "[WARN] Reached maximum page limit (5). Cutting off."%string.

Definition completedLine (allMessages : list Match.t) : string :=
  ("[DEBUG] Completed search. Total messages collected: "
   ^^ showLength allMessages)%string.

(** [resJson.error === 'invalid_auth']. *)
Definition isInvalidAuth (err : option string) : bool :=
  match err with
  | Some e => String.eqb e "invalid_auth"
  | None => false
  end.

(** The [do { ... } while (page <= pageCount)] loop. One unit of [fuel] pays
    for one pass through the body; the value returned is [allMessages] as it
    stands when the loop is left, by either [break] or the loop condition.
    [pageCount] is assigned in the body before the only place that reads it,
    so it is a local of the pass. *)
Fixpoint searchLoop (fuel : nat) (R : Runtime) (token query : string)
  (allMessages : list Match.t) (page : Z) : GAS (list Match.t) :=
  match fuel with
  | O => outOfFuel
  | S fuel' =>
      response <- UrlFetchApp_fetch R (searchRequest token query page) ;;
      resJson <- JSON_parse response ;;
      if negb (ok resJson) then
        Logger_log (apiErrorLine (error resJson)) ;;
        (if isInvalidAuth (error resJson)
         then Logger_log invalidAuthLine else ret tt) ;;
        ret allMessages
      else
        (if page =? 1 then
           msgs <- deref (messages resJson) ;;
           pg <- deref (pagination msgs) ;;
           Logger_log (totalHitsLine (total_count pg))
         else ret tt) ;;
        msgs <- deref (messages resJson) ;;
        let found := match matches msgs with Some ms => ms | None => [] end in
        Logger_log (pageLine page found) ;;
        (match found with
         | sample :: _ =>
             ch <- deref (Match.channel sample) ;;
             txt <- deref (Match.text sample) ;;
             Logger_log (sampleLine ch txt)
         | [] => ret tt
         end) ;;
        let allMessages' := allMessages ++ found in
        pg <- deref (pagination msgs) ;;
        let pageCount := page_count pg in
        let page' := page + 1 in
        if page' >? 5 then
          Logger_log pageLimitLine ;;
          ret allMessages'
        else if page' <=? pageCount then
          searchLoop fuel' R token query allMessages' page'
        else ret allMessages'
  end.

Definition searchSlackMessages (fuel : nat) (R : Runtime)
  (token query : string) : GAS (list Match.t) :=
  Logger_log (searchStartLine query) ;;
  allMessages <- searchLoop fuel R token query [] 1 ;;
  Logger_log (completedLine allMessages) ;;
  ret allMessages.

(** ** aggregateMentions *)

(** [channelMap.set(key, value)] on a [Map] kept in insertion order: an
    existing key keeps its place and takes the new value, a new key goes to
    the end. *)
Fixpoint mapSet (key value : string) (m : list (string * string))
  : list (string * string) :=
  match m with
  | [] => [(key, value)]
  | (k, v) :: rest =>
      if String.eqb k key then (k, value) :: rest
      else (k, v) :: mapSet key value rest
  end.

(** [msg.channel.name || `private-channel-${msg.channel.id}`]. *)
Definition channelName (ch : Channel.t) (chId : string) : string :=
  if truthy (Channel.name ch) then showField (Channel.name ch)
  else ("private-channel-" ^^ chId)%string.

(** The body of [messages.forEach]. *)
Definition recordChannel (channelMap : list (string * string)) (msg : Match.t)
  : list (string * string) :=
  match Match.channel msg with
  | Some ch =>
      match Channel.id ch with
      | Some chId =>
          if truthy (Some chId) then mapSet chId (channelName ch chId) channelMap
          else channelMap
      | None => channelMap
      end
  | None => channelMap
  end.

Definition buildChannelMap (messages : list Match.t) : list (string * string) :=
  fold_left recordChannel messages [].

(** [channelMap.forEach((name, id) => list.push({ id, name }))]. *)
Definition toSummary (entry : string * string) : ChannelSummary.t :=
  ChannelSummary.make (fst entry) (snd entry).

(** [Array.prototype.sort] is a stable sort. For a comparator that orders its
    arguments consistently the result is the one stable insertion gives; that
    is the model. *)
Section Sort.
Context {A : Type} (cmp : A -> A -> Z).

Fixpoint insertSorted (x : A) (l : list A) : list A :=
  match l with
  | [] => [x]
  | y :: rest =>
      if cmp x y <=? 0 then x :: y :: rest
      else y :: insertSorted x rest
  end.

Definition arraySort (l : list A) : list A :=
  fold_right insertSorted [] l.
End Sort.

(** [(a, b) => a.name.localeCompare(b.name)]. *)
Definition byName (collate : string -> string -> Z)
  (a b : ChannelSummary.t) : Z :=
  collate (ChannelSummary.name a) (ChannelSummary.name b).

Definition aggregateMentions (collate : string -> string -> Z)
  (messages : list Match.t) : list ChannelSummary.t :=
  let channelMap := buildChannelMap messages in
  let list := map toSummary channelMap in
  arraySort (byName collate) list.

(** ** reportYesterdayMentions *)

Definition SLACK_USER_TOKEN_KEY : string := "SLACK_USER_TOKEN"%string.
Definition SLACK_USER_ID_KEY : string := "SLACK_USER_ID"%string.

Definition missingSettingsLine : string :=
  "エラー: 設定（Token, UserID, Webhook）が不足しています。"%string.

Definition mentionQuery (userId dateString todayString : string) : string :=
  ("(to:me OR <@" ^^ userId ^^ "> OR " ^^ String dquote "Taichi Yoda"
   ^^ String dquote " OR " ^^ String dquote "依田太一" ^^ String dquote ") after:"
   ^^ dateString ^^ " before:" ^^ todayString)%string.

Definition queryLine (query : string) : string :=
  ("[DEBUG] Search Query Initiated: " ^^ query)%string.

Definition noMessagesLine : string :=
  "[DEBUG] No messages found for the query."%string.

Definition notFoundText (dateString : string) : string :=
  ("昨日（" ^^ dateString
   ^^ "）のメンションは検索で見つかりませんでした。詳細な設定やログを確認してください。☕")%string.

Definition bulletLine (ch : ChannelSummary.t) : string :=
  ("• #" ^^ ChannelSummary.name ch ^^ " (<https://slack.com/archives/"
   ^^ ChannelSummary.id ch ^^ "|開く>)")%string.

Definition reportText (dateString : string) (messages : list Match.t)
  (channelList : list ChannelSummary.t) : string :=
  String.concat newline
    ([("📅 *昨日（" ^^ dateString ^^ "）のメンション集計*")%string;
      ("以下のチャンネルでメンションが届いていました（合計 " ^^ showLength messages
       ^^ " 件）：" ^^ newline)%string]
     ++ map bulletLine channelList
     ++ [(newline ^^ "確認漏れがないかチェックしましょう！🚀")%string]).

Definition reportYesterdayMentions (fuel : nat) (R : Runtime) : GAS unit :=
  let userToken := getProperty R SLACK_USER_TOKEN_KEY in
  let userId := getProperty R SLACK_USER_ID_KEY in
  let webhookUrl := getProperty R "SLACK_WEBHOOK_URL_test"%string in
  if negb (truthy userToken) || negb (truthy userId) || negb (truthy webhookUrl)
  then Logger_log missingSettingsLine
  else
    let dateString := formattedYesterday R in
    let todayString := formattedToday R in
    let query := mentionQuery (showField userId) dateString todayString in
    Logger_log (queryLine query) ;;
    messages <- searchSlackMessages fuel R (showField userToken) query ;;
    match messages with
    | [] =>
        Logger_log noMessagesLine ;;
        postToSlack R (showField webhookUrl) (notFoundText dateString)
    | _ :: _ =>
        let channelList := aggregateMentions (localeCompare R) messages in
        let reportMessage := reportText dateString messages channelList in
        postToSlack R (showField webhookUrl) reportMessage
    end.

(** ** setDailyMentionTrigger *)

Definition targetHandler : string := "reportYesterdayMentions"%string.

Definition triggerInstalledLine : string :=
  "✅ 毎日朝8-9時の集計トリガーを登録しました。"%string.

(** [ScriptApp.getProjectTriggers()]: a snapshot of the installed triggers. *)
Definition ScriptApp_getProjectTriggers : GAS (list Trigger) :=
  fun w => (Returned (projectTriggers w), w).

(** [ScriptApp.deleteTrigger(t)]: the trigger with [t]'s identity leaves the
    project. *)
Definition ScriptApp_deleteTrigger (t : Trigger) : GAS unit :=
  fun w =>
    (Returned tt,
     {| logged := logged w;
        requested := requested w;
        projectTriggers :=
          filter (fun u => negb (Nat.eqb (getUniqueId u) (getUniqueId t)))
            (projectTriggers w) |}).

(** [ScriptApp.newTrigger(handler). ... .create()]: one more trigger, under an
    identity no installed trigger has. *)
Definition ScriptApp_create (handler : string) (s : Schedule) : GAS unit :=
  fun w =>
    let fresh := S (list_max (map getUniqueId (projectTriggers w))) in
    (Returned tt,
     {| logged := logged w;
        requested := requested w;
        projectTriggers :=
          projectTriggers w
          ++ [{| getUniqueId := fresh;
                 getHandlerFunction := handler;
                 getSchedule := s |}] |}).

(** [xs.forEach(f)]. *)
Fixpoint forEach {A : Type} (f : A -> GAS unit) (xs : list A) : GAS unit :=
  match xs with
  | [] => ret tt
  | x :: rest => f x ;; forEach f rest
  end.

Definition setDailyMentionTrigger : GAS unit :=
  triggers <- ScriptApp_getProjectTriggers ;;
  forEach
    (fun t =>
       if String.eqb (getHandlerFunction t) targetHandler
       then ScriptApp_deleteTrigger t
       else ret tt)
    triggers ;;
  ScriptApp_create targetHandler (Daily 8 1) ;;
  Logger_log triggerInstalledLine.

(** The world after a call, whatever its result. *)
Definition after {A : Type} (m : GAS A) (w : World) : World := snd (m w).

(** The result of a call. *)
Definition resultOf {A : Type} (m : GAS A) (w : World) : Result A := fst (m w).

(** * Sample inputs *)

Definition emptyWorld : World :=
  {| logged := []; requested := []; projectTriggers := [] |}.

(** A match in channel [i], named [n]. *)
Definition matchIn (i n : string) : Match.t :=
  Match.make (Some (Channel.make (Some i) (Some n))) (Some "hello"%string).

(** A match in channel [i] whose name is hidden. *)
Definition matchUnnamed (i : string) : Match.t :=
  Match.make (Some (Channel.make (Some i) None)) (Some "hello"%string).

(** Code-unit order, as a comparator. *)
Definition codeUnitCompare (a b : string) : Z :=
  match String.compare a b with
  | Lt => -1
  | Eq => 0
  | Gt => 1
  end.

(** * Vocabulary of the properties *)

Definition addLog (lines : list string) (w : World) : World :=
  {| logged := logged w ++ lines;
     requested := requested w;
     projectTriggers := projectTriggers w |}.

Definition addRequests (rs : list Request) (w : World) : World :=
  {| logged := logged w;
     requested := requested w ++ rs;
     projectTriggers := projectTriggers w |}.

(** [resJson.messages.matches || []], empty also where [messages] is
    absent. *)
Definition foundIn (j : SearchJson) : list Match.t :=
  match messages j with
  | Some msgs => match matches msgs with Some ms => ms | None => [] end
  | None => []
  end.

Definition paginationIn (j : SearchJson) : option Pagination :=
  match messages j with
  | Some msgs => pagination msgs
  | None => None
  end.

(** The first match, the one the client logs a sample of, has a [channel]
    and a [text]. *)
Definition sampleReadable (found : list Match.t) : bool :=
  match found with
  | sample :: _ =>
      match Match.channel sample, Match.text sample with
      | Some _, Some _ => true
      | _, _ => false
      end
  | [] => true
  end.

(** The body has the shape the client reads without a [TypeError]:
    [messages.pagination] is there, and the first match has a [channel] and
    a [text]. *)
Definition wellShaped (j : SearchJson) : bool :=
  match paginationIn j with
  | Some _ => sampleReadable (foundIn j)
  | None => false
  end.

(** The lines a successfully read page adds to the log. *)
Definition successLines (page : Z) (j : SearchJson) : list string :=
  (if page =? 1
   then match paginationIn j with
        | Some pg => [totalHitsLine (total_count pg)]
        | None => []
        end
   else [])
  ++ [pageLine page (foundIn j)]
  ++ match foundIn j with
     | sample :: _ =>
         match Match.channel sample, Match.text sample with
         | Some ch, Some txt => [sampleLine ch txt]
         | _, _ => []
         end
     | [] => []
     end.

(** The lines a page answered with [ok: false] adds to the log. *)
Definition failureLines (err : option string) : list string :=
  apiErrorLine err :: (if isInvalidAuth err then [invalidAuthLine] else []).

Section Pages.
Context (R : Runtime) (token query : string).

(** What [JSON.parse] yields for the answer to the request of [page]. *)
Definition pageJson (page : Z) : option SearchJson :=
  parsedJson (fetch R (searchRequest token query page)).

(** Page [page] is answered with [ok: true] and a well-shaped body. *)
Definition pageOk (page : Z) : bool :=
  match pageJson page with
  | Some j => ok j && wellShaped j
  | None => false
  end.

(** Page [page] is answered with JSON that the client reads without
    throwing: [ok: false], or [ok: true] and well shaped. *)
Definition pageReadable (page : Z) : bool :=
  match pageJson page with
  | Some j => negb (ok j) || wellShaped j
  | None => false
  end.

Definition pageFound (page : Z) : list Match.t :=
  match pageJson page with
  | Some j => foundIn j
  | None => []
  end.

Definition pageCountOf (page : Z) : Z :=
  match pageJson page with
  | Some j =>
      match paginationIn j with
      | Some pg => page_count pg
      | None => 0
      end
  | None => 0
  end.

Definition pageLog (page : Z) : list string :=
  match pageJson page with
  | Some j => successLines page j
  | None => []
  end.

(** The pages [s], [s+1], ..., [s+k-1]. *)
Definition pagesFrom (s k : nat) : list Z := map Z.of_nat (seq s k).

Definition requestsFor (pages : list Z) : list Request :=
  map (searchRequest token query) pages.

Definition matchesOf (pages : list Z) : list Match.t :=
  concat (map pageFound pages).

(** The world once [pages] have been requested and read successfully. *)
Definition fetched (pages : list Z) (w : World) : World :=
  addRequests (requestsFor pages) (addLog (concat (map pageLog pages)) w).
End Pages.

(** Page [page] is read successfully and reports more pages after it. *)
Definition readsOn (R : Runtime) (token query : string) (page : Z) : Prop :=
  pageOk R token query page = true
  /\ page + 1 <= pageCountOf R token query page.

(** The channel id under which the aggregator files a match, if any:
    [msg.channel && msg.channel.id]. *)
Definition channelIdOf (msg : Match.t) : option string :=
  match Match.channel msg with
  | Some ch => if truthy (Channel.id ch) then Channel.id ch else None
  | None => None
  end.

(** The entry a match writes into the channel map, if any. *)
Definition summaryOf (msg : Match.t) : option ChannelSummary.t :=
  match Match.channel msg with
  | Some ch =>
      match channelIdOf msg with
      | Some i => Some (ChannelSummary.make i (channelName ch i))
      | None => None
      end
  | None => None
  end.

(** The channel ids of the matches that have one, in input order, with
    repetitions. *)
Definition idsOf (messages : list Match.t) : list string :=
  flat_map (fun m => match channelIdOf m with Some i => [i] | None => [] end)
    messages.

(** [channelMap.get(key)]. *)
Fixpoint mapGet (key : string) (m : list (string * string)) : option string :=
  match m with
  | [] => None
  | (k, v) :: rest => if String.eqb k key then Some v else mapGet key rest
  end.

(** A match with a channel id but no resolvable channel name. *)
Definition unnamedIn (msg : Match.t) (i : string) : Prop :=
  exists ch, Match.channel msg = Some ch
             /\ channelIdOf msg = Some i
             /\ truthy (Channel.name ch) = false.

(** Ascending by name under [collate]. *)
Definition nameLe (collate : string -> string -> Z)
  (a b : ChannelSummary.t) : Prop :=
  byName collate a b <= 0.

(** A comparator that orders its arguments consistently: swapping them
    swaps the sign, and "not after" is transitive. *)
Record Consistent (collate : string -> string -> Z) : Prop :=
  { collate_swap : forall a b, Z.sgn (collate b a) = - Z.sgn (collate a b);
    collate_trans : forall a b c,
        collate a b <= 0 -> collate b c <= 0 -> collate a c <= 0 }.

(** No two matches disagree on the entry of a channel, and no two channels
    have names that [collate] cannot tell apart. *)
Definition Unambiguous (collate : string -> string -> Z)
  (messages : list Match.t) : Prop :=
  forall m m' s s',
    In m messages -> In m' messages ->
    summaryOf m = Some s -> summaryOf m' = Some s' ->
    ChannelSummary.id s = ChannelSummary.id s'
    \/ collate (ChannelSummary.name s) (ChannelSummary.name s') = 0 ->
    s = s'.

(** The three secrets are set, and none is the empty string. *)
Definition secretsPresent (R : Runtime) : bool :=
  truthy (getProperty R SLACK_USER_TOKEN_KEY)
  && truthy (getProperty R SLACK_USER_ID_KEY)
  && truthy (getProperty R "SLACK_WEBHOOK_URL_test"%string).

(** The credential, the query and the webhook of a run of the entry
    function. *)
Definition reportToken (R : Runtime) : string :=
  showField (getProperty R SLACK_USER_TOKEN_KEY).

Definition reportQuery (R : Runtime) : string :=
  mentionQuery (showField (getProperty R SLACK_USER_ID_KEY))
    (formattedYesterday R) (formattedToday R).

Definition reportWebhook (R : Runtime) : string :=
  showField (getProperty R "SLACK_WEBHOOK_URL_test"%string).

Definition isTarget (t : Trigger) : bool :=
  String.eqb (getHandlerFunction t) targetHandler.

(** The installed triggers bound to [reportYesterdayMentions]. *)
Definition targetTriggers (w : World) : list Trigger :=
  filter isTarget (projectTriggers w).

(** A trigger without its identity. *)
Definition shape (t : Trigger) : string * Schedule :=
  (getHandlerFunction t, getSchedule t).

(** [u] has the identity of a trigger of [ts] bound to
    [reportYesterdayMentions]. *)
Definition condemned (ts : list Trigger) (u : Trigger) : bool :=
  existsb (fun t => isTarget t && Nat.eqb (getUniqueId u) (getUniqueId t)) ts.

Definition setTriggers (ts : list Trigger) (w : World) : World :=
  {| logged := logged w; requested := requested w; projectTriggers := ts |}.

(** The trigger [setDailyMentionTrigger] creates once [kept] are left. *)
Definition dailyTrigger (kept : list Trigger) : Trigger :=
  {| getUniqueId := S (list_max (map getUniqueId kept));
     getHandlerFunction := targetHandler;
     getSchedule := Daily 8 1 |}.

(** The world after [n] calls of [setDailyMentionTrigger] in a row. *)
Definition installTimes (n : nat) (w : World) : World :=
  Nat.iter n (after setDailyMentionTrigger) w.

(** * Sample environments *)

Definition textResponse (code : Z) (body : string) : HTTPResponse :=
  {| getResponseCode := code; getContentText := body; parsedJson := None |}.

(** A response whose body is the JSON text of [j]; the text is left
    symbolic, the client reads it through [JSON.parse] only. *)
Definition jsonResponse (j : SearchJson) : HTTPResponse :=
  {| getResponseCode := 200;
     getContentText := "(json)"%string;
     parsedJson := Some j |}.

Definition okJson (found : list Match.t) (pageCount totalCount : Z)
  : SearchJson :=
  {| ok := true;
     error := None;
     messages :=
       Some {| matches := Some found;
               pagination :=
                 Some {| page_count := pageCount;
                         total_count := totalCount |} |} |}.

Definition errorJson (err : string) : SearchJson :=
  {| ok := false; error := Some err; messages := None |}.

(** A remote side that answers the search for [query] page by page from
    [pages], and anything else with [other]. *)
Fixpoint answer (query : string) (page : Z) (pages : list HTTPResponse)
  (other : HTTPResponse) (req : Request) : HTTPResponse :=
  match pages with
  | [] => other
  | r :: rest =>
      if String.eqb (url req) (searchUrl query page) then r
      else answer query (page + 1) rest other req
  end.

Definition sampleProps (key : string) : option string :=
  if String.eqb key SLACK_USER_TOKEN_KEY then Some "xoxp-1"%string
  else if String.eqb key SLACK_USER_ID_KEY then Some "U1"%string
  else if String.eqb key "SLACK_WEBHOOK_URL_test"
       then Some "https://hooks.slack.com/services/T/B/X"%string
  else None.

Definition noProps (key : string) : option string := None.

Definition scripted (props : string -> option string) (query : string)
  (pages : list HTTPResponse) (other : HTTPResponse) : Runtime :=
  {| getProperty := props;
     fetch := answer query 1 pages other;
     formattedYesterday := "2024-01-01"%string;
     formattedToday := "2024-01-02"%string;
     localeCompare := codeUnitCompare |}.

Definition sampleQuery : string := mentionQuery "U1" "2024-01-01" "2024-01-02".

Definition hundred : list Match.t := repeat (matchIn "C1" "general") 100.
Definition thirtySeven : list Match.t := repeat (matchIn "C2" "random") 37.
Definition twoMatches : list Match.t :=
  [matchIn "C1" "general"; matchIn "C2" "random"].

(** Three pages of 100, 100 and 37 matches, each reporting 3 pages. *)
Definition threePages : Runtime :=
  scripted sampleProps sampleQuery
    [jsonResponse (okJson hundred 3 237);
     jsonResponse (okJson hundred 3 237);
     jsonResponse (okJson thirtySeven 3 237)]
    (textResponse 200 "ok").

(** The same three pages, but page 2 reports 2 pages in all. *)
Definition threePagesShrinking : Runtime :=
  scripted sampleProps sampleQuery
    [jsonResponse (okJson hundred 3 237);
     jsonResponse (okJson hundred 2 237);
     jsonResponse (okJson thirtySeven 3 237)]
    (textResponse 200 "ok").

(** Every page: two matches, [pageCount] pages reported. *)
Definition endless (pageCount : Z) : Runtime :=
  scripted sampleProps sampleQuery
    (repeat (jsonResponse (okJson twoMatches pageCount 1000)) 12)
    (textResponse 200 "ok").

(** Page 1 is refused with [err]. *)
Definition refused (err : string) : Runtime :=
  scripted sampleProps sampleQuery
    [jsonResponse (errorJson err)] (textResponse 200 "ok").

(** Page 1 is fine, page 2 is refused with [err]. *)
Definition refusedLater (err : string) : Runtime :=
  scripted sampleProps sampleQuery
    [jsonResponse (okJson twoMatches 3 5); jsonResponse (errorJson err)]
    (textResponse 200 "ok").

(** The search endpoint answers with an HTML error page. *)
Definition gatewayError : Runtime :=
  scripted sampleProps sampleQuery
    [textResponse 502 "<html><body>502 Bad Gateway</body></html>"]
    (textResponse 200 "ok").

(** No script property is set. *)
Definition unconfigured : Runtime :=
  scripted noProps sampleQuery [] (textResponse 200 "ok").

(** The webhook refuses the post. *)
Definition webhookForbidden : Runtime :=
  scripted sampleProps sampleQuery
    [jsonResponse (okJson twoMatches 1 2)]
    (textResponse 403 "invalid_token").

(** * The runs of the search loop *)

(** The sample line of a page, when its first match has a channel. *)
Definition sampleLines (found : list Match.t) : list string :=
  match found with
  | sample :: _ =>
      match Match.channel sample, Match.text sample with
      | Some ch, Some txt => [sampleLine ch txt]
      | _, _ => []
      end
  | [] => []
  end.

(** The lines a pass logs before a [TypeError] ends it, for a page answered
    with [ok: true] that is not well shaped. *)
Definition partialLines (page : Z) (j : SearchJson) : list string :=
  match messages j with
  | None => []
  | Some msgs =>
      match pagination msgs with
      | None =>
          if page =? 1 then []
          else pageLine page (foundIn j) :: sampleLines (foundIn j)
      | Some pg =>
          (if page =? 1 then [totalHitsLine (total_count pg)] else [])
          ++ pageLine page (foundIn j) :: sampleLines (foundIn j)
      end
  end.

(** The pages [page], [page + 1], ..., [page + k - 1]. *)
Definition pageRange (page : Z) (k : nat) : list Z :=
  map (fun i => page + Z.of_nat i) (seq 0 k).

(** The ways the loop, standing at [page] with [acc] collected, comes to its
    end: the result and the world it ends with. *)
Inductive SearchRun (R : Runtime) (token query : string) :
  Z -> list Match.t -> World -> Result (list Match.t) -> World -> Prop :=
| RunNotJson (page : Z) (acc : list Match.t) (w : World) :
    pageJson R token query page = None ->
    SearchRun R token query page acc w (Threw SyntaxError)
      (addRequests [searchRequest token query page] w)
| RunRefused (page : Z) (acc : list Match.t) (w : World) (j : SearchJson) :
    pageJson R token query page = Some j ->
    ok j = false ->
    SearchRun R token query page acc w (Returned acc)
      (addLog (failureLines (error j))
         (addRequests [searchRequest token query page] w))
| RunMisshapen (page : Z) (acc : list Match.t) (w : World) (j : SearchJson) :
    pageJson R token query page = Some j ->
    ok j = true ->
    wellShaped j = false ->
    SearchRun R token query page acc w (Threw TypeError)
      (addLog (partialLines page j)
         (addRequests [searchRequest token query page] w))
| RunCapped (page : Z) (acc : list Match.t) (w : World) :
    pageOk R token query page = true ->
    5 < page + 1 ->
    SearchRun R token query page acc w
      (Returned (acc ++ pageFound R token query page))
      (addLog [pageLimitLine] (fetched R token query [page] w))
| RunExhausted (page : Z) (acc : list Match.t) (w : World) :
    pageOk R token query page = true ->
    page + 1 <= 5 ->
    pageCountOf R token query page < page + 1 ->
    SearchRun R token query page acc w
      (Returned (acc ++ pageFound R token query page))
      (fetched R token query [page] w)
| RunNext (page : Z) (acc : list Match.t) (w : World)
    (r : Result (list Match.t)) (w' : World) :
    pageOk R token query page = true ->
    page + 1 <= 5 ->
    page + 1 <= pageCountOf R token query page ->
    SearchRun R token query (page + 1)
      (acc ++ pageFound R token query page)
      (fetched R token query [page] w) r w' ->
    SearchRun R token query page acc w r w'.


(** Every page the client gets to is answered with JSON it can read. *)
Definition allReadable (R : Runtime) (token query : string) : Prop :=
  forall p, 1 <= p <= 5 ->
            (forall q, 1 <= q < p -> readsOn R token query q) ->
            pageReadable R token query p = true.

(** * SlackNotifier.ts: the trigger managers *)

Definition notifierHandler : string := "sendSlackNotification"%string.

Definition deletedLine (deletedCount : Z) : string :=
  ("🗑️ " ^^ showZ deletedCount ^^ " 件の既存トリガーを削除しました。")%string.

Definition testTriggerLine : string :=
  "✅ 5分間隔トリガーを登録しました。"%string.

(** The [forEach] of [deleteTriggers], with the counter its callback
    increments. *)
Fixpoint deleteNotifierTriggers (triggers : list Trigger) (deletedCount : Z)
  : GAS Z :=
  match triggers with
  | [] => ret deletedCount
  | trigger :: rest =>
      if String.eqb (getHandlerFunction trigger) "sendSlackNotification"
      then
        ScriptApp_deleteTrigger trigger ;;
        deleteNotifierTriggers rest (deletedCount + 1)
      else deleteNotifierTriggers rest deletedCount
  end.

Definition deleteTriggers : GAS unit :=
  triggers <- ScriptApp_getProjectTriggers ;;
  deletedCount <- deleteNotifierTriggers triggers 0 ;;
  Logger_log (deletedLine deletedCount).

Definition setTestTrigger : GAS unit :=
  deleteTriggers ;;
  ScriptApp_create "sendSlackNotification" (EveryMinutes 5) ;;
  Logger_log testTriggerLine.

(** * SlackNotifier.ts: the spreadsheet digest *)

Definition WEBHOOK_PROPERTY_KEY : string := "SLACK_WEBHOOK_URL_test"%string.
Definition SPREADSHEET_ID : string := "YOUR_SPREADSHEET_ID_HERE"%string.
Definition SHEET_NAME : string := "Sheet1"%string.

(** The numbers of a sheet. IEEE doubles are not modelled: a number is a
    value of a type [N], with the operations the script applies to it. *)
Record NumberOps (N : Type) : Type :=
  { isPositive : N -> bool;
    belowOne : N -> bool;
    isInteger : N -> bool;
    times100 : N -> N;
    toFixed : N -> nat -> string;
    toLocaleString : N -> string }.

Arguments isPositive {N} _ _.
Arguments belowOne {N} _ _.
Arguments isInteger {N} _ _.
Arguments times100 {N} _ _.
Arguments toFixed {N} _ _ _.
Arguments toLocaleString {N} _ _.

(** A cell value: a number, or anything else with what [String(cell)]
    makes of it. *)
Inductive Cell (N : Type) : Type :=
| NumberCell (cell : N)
| OtherCell (shown : string).

Arguments NumberCell {N} cell.
Arguments OtherCell {N} shown.

(** The callback of [row.map]. *)
Definition formatCell {N : Type} (ops : NumberOps N) (cell : Cell N) : string :=
  match cell with
  | NumberCell c =>
      if isPositive ops c && belowOne ops c
      then (toFixed ops (times100 ops c) 1 ^^ "%")%string
      else if isInteger ops c
           then (toLocaleString ops c ^^ "人")%string
           else toFixed ops c 2
  | OtherCell shown => shown
  end.

Definition digestHeader : string :=
  ("📊 *スプレッドシート更新通知*" ^^ newline)%string.

Definition rowLine (rowNumber : Z) (formatted : string) : string :=
  ("*Row " ^^ showZ rowNumber ^^ ":* " ^^ formatted)%string.

Definition digestFooter (now : string) : string :=
  (newline ^^ "_最終更新: " ^^ now ^^ "_")%string.

(** The lines [rows.forEach((row, index) => ...)] pushes, from [index]
    on. *)
Fixpoint rowLines {N : Type} (ops : NumberOps N) (rows : list (list (Cell N)))
  (index : Z) : list string :=
  match rows with
  | [] => []
  | row :: rest =>
      let rowNumber := index + 1 in
      let formatted := String.concat " | " (map (formatCell ops) row) in
      rowLine rowNumber formatted :: rowLines ops rest (index + 1)
  end.

(** The array [lines] when [formatSlackMessage] joins it; [now] is what
    [new Date().toLocaleString('ja-JP', ...)] gives. *)
Definition digestLines {N : Type} (ops : NumberOps N) (now : string)
  (rows : list (list (Cell N))) : list string :=
  [digestHeader] ++ rowLines ops rows 0 ++ [digestFooter now].

Definition formatSlackMessage {N : Type} (ops : NumberOps N) (now : string)
  (rows : list (list (Cell N))) : string :=
  String.concat newline (digestLines ops now rows).

(** A sheet: [getValues row column numRows numColumns] is
    [getRange(row, column, numRows, numColumns).getValues()], [None] where
    the service raises (a range without columns, for one). *)
Record Sheet (N : Type) : Type :=
  { getLastRow : Z;
    getLastColumn : Z;
    getValues : Z -> Z -> Z -> Z -> option (list (list (Cell N))) }.

Arguments getLastRow {N} _.
Arguments getLastColumn {N} _.
Arguments getValues {N} _ _ _ _ _.

(** A spreadsheet: [getSheetByName name] is [null] for a name no sheet
    has. *)
Record Spreadsheet (N : Type) : Type :=
  { getSheetByName : string -> option (Sheet N) }.

Arguments getSheetByName {N} _ _.

(** What [sendSlackNotification] reads besides the script properties.
    [openById id] is [SpreadsheetApp.openById(id)], [None] where the service
    raises: no spreadsheet of that id can be opened. *)
Record SheetHost (N : Type) : Type :=
  { numberOps : NumberOps N;
    openById : string -> option (Spreadsheet N);
    localNow : string }.

Arguments numberOps {N} _.
Arguments openById {N} _ _.
Arguments localNow {N} _.

(** A call of a service that may raise. *)
Definition hostCall {A : Type} (x : option A) : GAS A :=
  match x with
  | Some a => ret a
  | None => throw HostError
  end.

Definition missingWebhookLine : string :=
  ("エラー: スクリプトプロパティ " ^^ String dquote WEBHOOK_PROPERTY_KEY
   ^^ String dquote " が設定されていません。"
   ^^ "GASエディタ > プロジェクトの設定 > スクリプトプロパティ から登録してください。")%string.

Definition missingSheetLine : string :=
  ("エラー: シート " ^^ String dquote SHEET_NAME
   ^^ String dquote " が見つかりません。")%string.

Definition noDataLine : string :=
  "データが存在しません（ヘッダー行のみ）。"%string.

Definition sendSlackNotification {N : Type} (R : Runtime) (H : SheetHost N)
  : GAS unit :=
  let webhookUrl := getProperty R WEBHOOK_PROPERTY_KEY in
  if negb (truthy webhookUrl) then Logger_log missingWebhookLine
  else
    spreadsheet <- hostCall (openById H SPREADSHEET_ID) ;;
    match getSheetByName spreadsheet SHEET_NAME with
    | None => Logger_log missingSheetLine
    | Some sheet =>
        let lastRow := getLastRow sheet in
        if lastRow <? 2 then Logger_log noDataLine
        else
          rows <- hostCall
                    (getValues sheet 2 1 (lastRow - 1) (getLastColumn sheet)) ;;
          let message := formatSlackMessage (numberOps H) (localNow H) rows in
          postToSlack R (showField webhookUrl) message
    end.

(** * The earlier variant of the aggregator (single page, no fallback) *)

Module Legacy.

(** [{ id, name }] where [name] is what the match carried, possibly
    [undefined]. *)
Record Summary : Type := makeSummary { id : string; name : option string }.

Definition searchUrl (query : string) : string :=
  ("https://slack.com/api/search.messages?query=" ^^ encodeURIComponent query
   ^^ "&count=100")%string.

Definition searchRequest (token query : string) : Request :=
  {| url := searchUrl query;
     method := GET;
     contentType := None;
     authorization := Some ("Bearer " ^^ token)%string;
     payload := None;
     muteHttpExceptions := true |}.

Definition apiErrorLine (err : option string) : string :=
  ("Slack API Error: " ^^ showField err)%string.

Definition searchSlackMessages (R : Runtime) (token query : string)
  : GAS (list Match.t) :=
  response <- UrlFetchApp_fetch R (searchRequest token query) ;;
  resJson <- JSON_parse response ;;
  if negb (ok resJson) then
    Logger_log (apiErrorLine (error resJson)) ;;
    ret []
  else
    msgs <- deref (messages resJson) ;;
    ret (match matches msgs with Some ms => ms | None => [] end).

(** [channelMap.set(key, value)], the value possibly [undefined]. *)
Fixpoint mapSet (key : string) (value : option string)
  (m : list (string * option string)) : list (string * option string) :=
  match m with
  | [] => [(key, value)]
  | (k, v) :: rest =>
      if String.eqb k key then (k, value) :: rest
      else (k, v) :: mapSet key value rest
  end.

Definition recordChannel (channelMap : list (string * option string))
  (msg : Match.t) : list (string * option string) :=
  match Match.channel msg with
  | Some ch =>
      match Channel.id ch with
      | Some chId =>
          if truthy (Some chId) then mapSet chId (Channel.name ch) channelMap
          else channelMap
      | None => channelMap
      end
  | None => channelMap
  end.

Definition buildChannelMap (messages : list Match.t)
  : list (string * option string) :=
  fold_left recordChannel messages [].

Definition aggregateMentions (messages : list Match.t) : list Summary :=
  map (fun entry => makeSummary (fst entry) (snd entry))
    (buildChannelMap messages).

End Legacy.

(** * Further vocabulary *)

(** The name the later variant gives an entry of the earlier one:
    [name || `private-channel-${id}`]. *)
Definition withFallback (s : Legacy.Summary) : ChannelSummary.t :=
  ChannelSummary.make (Legacy.id s)
    (if truthy (Legacy.name s) then showField (Legacy.name s)
     else ("private-channel-" ^^ Legacy.id s)%string).

Definition boundTo (handler : string) (t : Trigger) : bool :=
  String.eqb (getHandlerFunction t) handler.

(** [u] has the identity of a trigger of [ts] bound to [handler]. *)
Definition condemnedFor (handler : string) (ts : list Trigger) (u : Trigger)
  : bool :=
  existsb (fun t => boundTo handler t && Nat.eqb (getUniqueId u) (getUniqueId t))
    ts.

(** No two installed triggers share an identity. *)
Definition uniqueIds (w : World) : Prop :=
  NoDup (map getUniqueId (projectTriggers w)).

(** The trigger [setTestTrigger] creates once [kept] are left. *)
Definition testTrigger (kept : list Trigger) : Trigger :=
  {| getUniqueId := S (list_max (map getUniqueId kept));
     getHandlerFunction := notifierHandler;
     getSchedule := EveryMinutes 5 |}.






(** Integers as the numbers of a sheet, for sample sheets. *)
Definition integerOps : NumberOps Z :=
  {| isPositive := fun c => 0 <? c;
     belowOne := fun c => c <? 1;
     isInteger := fun _ => true;
     times100 := fun c => c * 100;
     toFixed := fun c _ => showZ c;
     toLocaleString := showZ |}.

Definition sampleSheet : Sheet Z :=
  {| getLastRow := 3;
     getLastColumn := 2;
     getValues := fun _ _ _ _ =>
       Some [[OtherCell "alice"; NumberCell 12];
             [OtherCell "bob"; NumberCell 7]] |}.

Definition headerOnlySheet : Sheet Z :=
  {| getLastRow := 1;
     getLastColumn := 2;
     getValues := fun _ _ _ _ => Some [] |}.

Definition hostWith (sheet : option (Sheet Z)) : SheetHost Z :=
  {| numberOps := integerOps;
     openById := fun _ => Some {| getSheetByName := fun _ => sheet |};
     localNow := "2024/1/2 9:00:00" |}.

(** A host on which no spreadsheet of the configured id opens. *)
Definition hostWithoutSpreadsheet : SheetHost Z :=
  {| numberOps := integerOps;
     openById := fun _ => None;
     localNow := "2024/1/2 9:00:00" |}.

Definition staleWorld : World :=
  {| logged := [];
     requested := [];
     projectTriggers :=
       [{| getUniqueId := 4; getHandlerFunction := targetHandler;
           getSchedule := Daily 8 1 |};
        {| getUniqueId := 7; getHandlerFunction := notifierHandler;
           getSchedule := EveryMinutes 5 |};
        {| getUniqueId := 9; getHandlerFunction := notifierHandler;
           getSchedule := EveryMinutes 5 |}] |}.

(** A host of [R] that answers the request of the earlier variant, which
    names no page, as [R] answers the request of page 1. *)
Definition defaultingToFirstPage (R : Runtime) (token query : string)
  : Runtime :=
  {| getProperty := getProperty R;
     fetch := fun req =>
       if String.eqb (url req) (Legacy.searchUrl query)
       then fetch R (searchRequest token query 1)
       else fetch R req;
     formattedYesterday := formattedYesterday R;
     formattedToday := formattedToday R;
     localeCompare := localeCompare R |}.

(** Entries of the channel map of the earlier variant, with the fallback
    name. *)
Definition entryWithFallback (entry : string * option string)
  : string * string :=
  (fst entry,
   if truthy (snd entry) then showField (snd entry)
   else ("private-channel-" ^^ fst entry)%string).

(** A page of 101 matches: one more than the [count=100] asked for. *)
Definition hundredOne : list Match.t := repeat (matchIn "C1" "general") 101.

(** Every page: [ok: true], 10 pages reported, 101 matches. *)
Definition oversized : Runtime :=
  scripted sampleProps sampleQuery
    (repeat (jsonResponse (okJson hundredOne 10 1010)) 12)
    (textResponse 200 "ok").

(** Every page: [ok: true], 10 pages reported, one match that carries no
    channel. *)
Definition channelless : Runtime :=
  scripted sampleProps sampleQuery
    (repeat
       (jsonResponse
          (okJson [Match.make None (Some "hello"%string)] 10 1000))
       12)
    (textResponse 200 "ok").

(** Every page is answered with [ok: true] and reports [pageCount] pages. *)
Definition alwaysOk (R : Runtime) (token query : string) (pageCount : Z)
  : Prop :=
  forall page, 1 <= page <= 6 ->
    exists j,
      pageJson R token query page = Some j
      /\ ok j = true
      /\ pageCountOf R token query page = pageCount.

(** * The search client *)

(** [substring(0, 30)] counts UTF-16 code units: a kana is one unit in three
    bytes, an emoji two units in four bytes, and a cut inside an emoji
    leaves its high surrogate. *)
Example substring_counts_code_units :
  substringFromStart 30 "abcdefghijklmnopqrstuvwxyz0123456789"
  = "abcdefghijklmnopqrstuvwxyz0123"%string
  /\ substringFromStart 30 "short" = "short"%string
  /\ substringFromStart 3 "あいうえお" = "あいう"%string
  /\ String.length (substringFromStart 30
                      "ああああああああああああああああああああああああああああああああ")
     = 90%nat
  /\ substringFromStart 4 "😀😀😀" = "😀😀"%string
  /\ substringFromStart 3 "a😀😀" = "a😀"%string
  /\ substringFromStart 4 "a😀😀"
     = ("a😀" ^^ String (ascii_of_nat 237)
                   (String (ascii_of_nat 160)
                      (String (ascii_of_nat 189) EmptyString)))%string
  /\ substringFromStart 0 "abc" = EmptyString.
Proof. repeat split; reflexivity. Qed.

Lemma addLog_addLog (a b : list string) (w : World) :
  addLog b (addLog a w) = addLog (a ++ b) w.
Proof. unfold addLog; simpl; now rewrite app_assoc. Qed.

Lemma addRequests_addRequests (a b : list Request) (w : World) :
  addRequests b (addRequests a w) = addRequests (a ++ b) w.
Proof. unfold addRequests; simpl; now rewrite app_assoc. Qed.

Lemma addLog_addRequests (ls : list string) (rs : list Request) (w : World) :
  addLog ls (addRequests rs w) = addRequests rs (addLog ls w).
Proof. reflexivity. Qed.

Lemma addLog_nil (w : World) : addLog [] w = w.
Proof. destruct w; unfold addLog; simpl; now rewrite app_nil_r. Qed.

Lemma addRequests_nil (w : World) : addRequests [] w = w.
Proof. destruct w; unfold addRequests; simpl; now rewrite app_nil_r. Qed.

Lemma Logger_log_run (line : string) (w : World) :
  Logger_log line w = (Returned tt, addLog [line] w).
Proof. reflexivity. Qed.

Lemma fetch_run (R : Runtime) (req : Request) (w : World) :
  UrlFetchApp_fetch R req w = (Returned (fetch R req), addRequests [req] w).
Proof. reflexivity. Qed.

Lemma fetched_nil R token query (w : World) :
  fetched R token query [] w = w.
Proof. unfold fetched; simpl; now rewrite addLog_nil, addRequests_nil. Qed.

Lemma fetched_app R token query (ps qs : list Z) (w : World) :
  fetched R token query qs (fetched R token query ps w)
  = fetched R token query (ps ++ qs) w.
Proof.
  unfold fetched, requestsFor.
  rewrite addLog_addRequests, addLog_addLog, addRequests_addRequests.
  now rewrite !map_app, concat_app.
Qed.

Lemma fetched_one R token query (page : Z) (w : World) :
  fetched R token query [page] w
  = addRequests [searchRequest token query page]
      (addLog (pageLog R token query page) w).
Proof. unfold fetched; simpl; now rewrite app_nil_r. Qed.

Ltac world_eq :=
  unfold fetched, requestsFor, addLog, addRequests; simpl;
  rewrite ?app_nil_r, <- ?app_assoc; simpl; reflexivity.

#[local] Arguments totalHitsLine : simpl never.
#[local] Arguments pageLine : simpl never.
#[local] Arguments sampleLine : simpl never.
#[local] Arguments apiErrorLine : simpl never.
#[local] Arguments searchRequest : simpl never.

Section SearchSteps.
Context (R : Runtime) (token query : string).

(** One pass over a page answered with [ok: true]. *)
Lemma searchLoop_ok_step (fuel : nat) (acc : list Match.t) (page : Z)
  (w : World) :
  pageOk R token query page = true ->
  searchLoop (S fuel) R token query acc page w =
    let w' := fetched R token query [page] w in
    let acc' := acc ++ pageFound R token query page in
    if page + 1 >? 5 then (Returned acc', addLog [pageLimitLine] w')
    else if page + 1 <=? pageCountOf R token query page
         then searchLoop fuel R token query acc' (page + 1) w'
         else (Returned acc', w').
Proof.
  cbv zeta. rewrite fetched_one.
  unfold pageOk, pageFound, pageCountOf, pageLog.
  destruct (pageJson R token query page) as [[okb err msgs]|] eqn:Hj;
    [|discriminate].
  unfold pageJson in Hj.
  cbn [searchLoop]. unfold bind at 1. rewrite fetch_run.
  unfold bind at 1, JSON_parse. rewrite Hj. unfold ret at 1.
  destruct okb; [|discriminate].
  unfold wellShaped, successLines, paginationIn, foundIn; cbn.
  destruct msgs as [[ms [pg|]]|]; try discriminate.
  destruct ms as [[|[[ch|] [txt|]] rest]|]; cbn; try discriminate;
    intros _; unfold bind, deref, ret; cbn;
    destruct (page =? 1); cbn;
    destruct (page + 1 >? 5); cbn; try (f_equal; world_eq);
    destruct (page + 1 <=? page_count pg); cbn;
    f_equal; world_eq.
Qed.

(** One pass over a page answered with [ok: false]. *)
Lemma searchLoop_error_step (fuel : nat) (acc : list Match.t) (page : Z)
  (w : World) (j : SearchJson) :
  pageJson R token query page = Some j ->
  ok j = false ->
  searchLoop (S fuel) R token query acc page w =
    (Returned acc,
     addLog (failureLines (error j))
       (addRequests [searchRequest token query page] w)).
Proof.
  unfold pageJson. intros Hj Hok.
  cbn [searchLoop]. unfold bind at 1. rewrite fetch_run.
  unfold bind at 1, JSON_parse. rewrite Hj. unfold ret at 1.
  rewrite Hok. cbn. unfold bind, failureLines.
  destruct (isInvalidAuth (error j)); cbn; f_equal; world_eq.
Qed.

(** One pass over a page whose body is not JSON. *)
Lemma searchLoop_syntax_step (fuel : nat) (acc : list Match.t) (page : Z)
  (w : World) :
  pageJson R token query page = None ->
  searchLoop (S fuel) R token query acc page w =
    (Threw SyntaxError, addRequests [searchRequest token query page] w).
Proof.
  unfold pageJson. intros Hj.
  cbn [searchLoop]. unfold bind at 1. rewrite fetch_run.
  unfold bind at 1, JSON_parse. now rewrite Hj.
Qed.

(** One pass over a page answered with [ok: true] but not of the expected
    shape. *)
Lemma searchLoop_type_step (acc : list Match.t) (page : Z) (w : World)
  (j : SearchJson) :
  pageJson R token query page = Some j ->
  ok j = true ->
  wellShaped j = false ->
  exists w',
    requested w' = requested w ++ [searchRequest token query page]
    /\ forall fuel,
        searchLoop (S fuel) R token query acc page w = (Threw TypeError, w').
Proof.
  unfold pageJson. intros Hj Hok Hshape.
  destruct j as [okb err msgs]; cbn in Hok; subst okb.
  unfold wellShaped, paginationIn, foundIn in Hshape; cbn in Hshape.
  destruct msgs as [[ms pg]|];
    [destruct pg as [pg|]; destruct ms as [[|[[ch|] [txt|]] rest]|];
     try discriminate Hshape|];
    destruct (page =? 1) eqn:Hp;
    (eexists; split;
     [|intros fuel; cbn [searchLoop]; unfold bind at 1; rewrite fetch_run;
       unfold bind at 1, JSON_parse; rewrite Hj; unfold ret at 1;
       cbn; rewrite Hp; unfold bind, deref, ret, throw; cbn;
       reflexivity]; reflexivity).
Qed.

(** Every pass either ends the loop, with a result that is not a lack of
    fuel, or hands over to the next page, which is at most page 5; either
    way it sends exactly one request. *)
Lemma searchLoop_pass (acc : list Match.t) (page : Z) (w : World) :
  (exists r w',
      r <> OutOfFuel
      /\ requested w' = requested w ++ [searchRequest token query page]
      /\ forall fuel,
          searchLoop (S fuel) R token query acc page w = (r, w'))
  \/ (page + 1 <= 5
      /\ exists acc' w',
          requested w' = requested w ++ [searchRequest token query page]
          /\ forall fuel,
              searchLoop (S fuel) R token query acc page w
              = searchLoop fuel R token query acc' (page + 1) w').
Proof.
  destruct (pageJson R token query page) as [j|] eqn:Hj.
  - destruct (ok j) eqn:Hok.
    + destruct (wellShaped j) eqn:Hshape.
      * assert (Hgood : pageOk R token query page = true)
          by (unfold pageOk; now rewrite Hj, Hok, Hshape).
        pose proof (fun fuel => searchLoop_ok_step fuel acc page w Hgood)
          as Hstep.
        cbv zeta in Hstep. rewrite fetched_one in Hstep.
        destruct (page + 1 >? 5) eqn:Hcap.
        { left. do 2 eexists. split; [|split; [|exact Hstep]];
            [discriminate | reflexivity]. }
        destruct (page + 1 <=? pageCountOf R token query page) eqn:Hmore.
        { right. split; [lia|]. do 2 eexists. split; [|exact Hstep].
          reflexivity. }
        left. do 2 eexists. split; [|split; [|exact Hstep]];
          [discriminate | reflexivity].
      * left.
        destruct (searchLoop_type_step acc page w j Hj Hok Hshape)
          as (w' & Hreq & Hrun).
        exists (Threw TypeError), w'.
        split; [discriminate|]. split; assumption.
    + left. do 2 eexists. split; [|split].
      3: { intros fuel. apply (searchLoop_error_step fuel acc page w j Hj Hok). }
      * discriminate.
      * reflexivity.
  - left. do 2 eexists. split; [|split].
    3: { intros fuel. apply (searchLoop_syntax_step fuel acc page w Hj). }
    + discriminate.
    + reflexivity.
Qed.
End SearchSteps.

Section SearchRuns.
Context (R : Runtime) (token query : string).

Lemma pagesFrom_S (s k : nat) :
  pagesFrom s (S k) = Z.of_nat s :: pagesFrom (S s) k.
Proof. reflexivity. Qed.

Lemma matchesOf_cons (p : Z) (ps : list Z) :
  matchesOf R token query (p :: ps)
  = pageFound R token query p ++ matchesOf R token query ps.
Proof. reflexivity. Qed.

(** [k] pages in a row, from page [s], are read and each reports more
    pages: the loop works through them and stands at page [s + k]. *)
Lemma searchLoop_prefix (k : nat) :
  forall (fuel : nat) (acc : list Match.t) (s : nat) (w : World),
    Z.of_nat (s + k) <= 5 ->
    (forall i, (s <= i < s + k)%nat -> readsOn R token query (Z.of_nat i)) ->
    searchLoop (k + fuel) R token query acc (Z.of_nat s) w
    = searchLoop fuel R token query
        (acc ++ matchesOf R token query (pagesFrom s k))
        (Z.of_nat (s + k))
        (fetched R token query (pagesFrom s k) w).
Proof.
  induction k as [|k IH]; intros fuel acc s w Hcap Hreads.
  - cbn [Nat.add]. unfold pagesFrom, matchesOf. cbn [seq map concat].
    now rewrite app_nil_r, fetched_nil, Nat.add_0_r.
  - destruct (Hreads s ltac:(lia)) as [Hok Hmore].
    cbn [Nat.add]. rewrite (searchLoop_ok_step R token query _ _ _ _ Hok).
    cbv zeta.
    replace (Z.of_nat s + 1 >? 5) with false by (symmetry; lia).
    replace (Z.of_nat s + 1 <=? pageCountOf R token query (Z.of_nat s))
      with true by (symmetry; lia).
    replace (Z.of_nat s + 1) with (Z.of_nat (S s)) by lia.
    rewrite IH by (try lia; intros i Hi; apply Hreads; lia).
    rewrite pagesFrom_S, matchesOf_cons, fetched_app, <- app_assoc.
    replace (S s + k)%nat with (s + S k)%nat by lia.
    reflexivity.
Qed.

(** The loop ends within [6 - page] passes, whatever the remote side
    answers; more fuel than that changes nothing. *)
Lemma searchLoop_total (fuel : nat) :
  forall (acc : list Match.t) (page : Z) (w : World),
    page <= 5 -> 6 - page <= Z.of_nat fuel ->
    fst (searchLoop fuel R token query acc page w) <> OutOfFuel
    /\ (exists rs,
           requested (snd (searchLoop fuel R token query acc page w))
           = requested w ++ rs
           /\ (length rs <= Z.to_nat (6 - page))%nat)
    /\ forall fuel', 6 - page <= Z.of_nat fuel' ->
                     searchLoop fuel' R token query acc page w
                     = searchLoop fuel R token query acc page w.
Proof.
  induction fuel as [|fuel IH]; intros acc page w Hpage Hfuel; [lia|].
  destruct (searchLoop_pass R token query acc page w)
    as [(r & w' & Hr & Hreq & Hrun) | (Hnext & acc' & w' & Hreq & Hrun)].
  - rewrite Hrun. cbn [fst snd]. split; [exact Hr|]. split.
    + eexists. split; [exact Hreq|]. cbn [length]. lia.
    + intros [|fuel'] Hfuel'; [lia|]. apply Hrun.
  - rewrite Hrun.
    destruct (IH acc' (page + 1) w' Hnext ltac:(lia))
      as (Hend & (rs & Hrs & Hlen) & Hind).
    split; [exact Hend|]. split.
    + exists (searchRequest token query page :: rs). split.
      * rewrite Hrs, Hreq, <- app_assoc. reflexivity.
      * cbn [length]. lia.
    + intros [|fuel'] Hfuel'; [lia|]. rewrite Hrun. apply Hind. lia.
Qed.

(** Where every page the loop gets to is answered with JSON the client can
    read, the loop returns. *)
Lemma searchLoop_returns (fuel : nat) :
  forall (acc : list Match.t) (page : Z) (w : World),
    page <= 5 -> 6 - page <= Z.of_nat fuel ->
    (forall p, page <= p <= 5 ->
               (forall q, page <= q < p -> readsOn R token query q) ->
               pageReadable R token query p = true) ->
    exists ms w',
      searchLoop fuel R token query acc page w = (Returned ms, w')
      /\ projectTriggers w' = projectTriggers w.
Proof.
  induction fuel as [|fuel IH]; intros acc page w Hpage Hfuel Hread; [lia|].
  pose proof (Hread page ltac:(lia) ltac:(intros q Hq; lia)) as Hp.
  unfold pageReadable in Hp.
  destruct (pageJson R token query page) as [j|] eqn:Hj; [|discriminate].
  destruct (ok j) eqn:Hok; cbn in Hp.
  - assert (Hgood : pageOk R token query page = true)
      by (unfold pageOk; now rewrite Hj, Hok, Hp).
    rewrite (searchLoop_ok_step R token query _ _ _ _ Hgood). cbv zeta.
    destruct (page + 1 >? 5) eqn:Hcap; [do 2 eexists; split; reflexivity|].
    destruct (page + 1 <=? pageCountOf R token query page) eqn:Hmore;
      [|do 2 eexists; split; reflexivity].
    destruct (IH (acc ++ pageFound R token query page) (page + 1)
                (fetched R token query [page] w))
      as (ms & w' & Hrun & Htr); try lia.
    + intros p Hrange Hbefore. apply Hread; [lia|].
      intros q Hq. destruct (Z.eq_dec q page) as [->|Hne].
      * split; [exact Hgood|lia].
      * apply Hbefore. lia.
    + exists ms, w'. split; [exact Hrun|]. rewrite Htr. reflexivity.
  - rewrite (searchLoop_error_step R token query _ _ _ _ j Hj Hok).
    do 2 eexists; split; reflexivity.
Qed.
End SearchRuns.

Section SearchOutcomes.
Context (R : Runtime) (token query : string).

Lemma searchSlackMessages_unfold (fuel : nat) (w : World) :
  searchSlackMessages fuel R token query w
  = match searchLoop fuel R token query [] 1
            (addLog [searchStartLine query] w) with
    | (Returned ms, w') => (Returned ms, addLog [completedLine ms] w')
    | (Threw e, w') => (Threw e, w')
    | (OutOfFuel, w') => (OutOfFuel, w')
    end.
Proof.
  unfold searchSlackMessages, bind. rewrite Logger_log_run.
  destruct (searchLoop fuel R token query [] 1
              (addLog [searchStartLine query] w)) as [[ms|e|] w'];
    reflexivity.
Qed.

Lemma logged_fetched (ps : list Z) (w : World) :
  logged (fetched R token query ps w)
  = logged w ++ concat (map (pageLog R token query) ps).
Proof. reflexivity. Qed.

Lemma requested_fetched (ps : list Z) (w : World) :
  requested (fetched R token query ps w)
  = requested w ++ requestsFor token query ps.
Proof. reflexivity. Qed.

(** The loop from page 1, when pages 1 to [n - 1] are read and each
    reports more pages. *)
Lemma searchLoop_from_first (n fuel : nat) (w : World) :
  (1 <= n <= 5)%nat ->
  (forall i, (1 <= i < n)%nat -> readsOn R token query (Z.of_nat i)) ->
  searchLoop ((n - 1) + fuel) R token query [] 1 w
  = searchLoop fuel R token query
      (matchesOf R token query (pagesFrom 1 (n - 1)))
      (Z.of_nat n)
      (fetched R token query (pagesFrom 1 (n - 1)) w).
Proof.
  intros Hn Hreads.
  change 1 with (Z.of_nat 1) at 1.
  rewrite searchLoop_prefix by (try lia; intros i Hi; apply Hreads; lia).
  replace (1 + (n - 1))%nat with n by lia. reflexivity.
Qed.

(** Page [n] is refused. *)
Lemma search_ends_refused (n fuel : nat) (w : World) (j : SearchJson) :
  (1 <= n <= 5)%nat -> (5 <= fuel)%nat ->
  (forall i, (1 <= i < n)%nat -> readsOn R token query (Z.of_nat i)) ->
  pageJson R token query (Z.of_nat n) = Some j ->
  ok j = false ->
  searchSlackMessages fuel R token query w
  = (Returned (matchesOf R token query (pagesFrom 1 (n - 1))),
     addLog
       (failureLines (error j)
        ++ [completedLine (matchesOf R token query (pagesFrom 1 (n - 1)))])
       (addRequests [searchRequest token query (Z.of_nat n)]
          (fetched R token query (pagesFrom 1 (n - 1))
             (addLog [searchStartLine query] w)))).
Proof.
  intros Hn Hfuel Hreads Hj Hok.
  rewrite searchSlackMessages_unfold.
  replace fuel with ((n - 1) + S (fuel - n))%nat by lia.
  rewrite searchLoop_from_first by assumption.
  rewrite (searchLoop_error_step R token query _ _ _ _ j Hj Hok).
  now rewrite addLog_addLog.
Qed.

(** Page [n] is read and is the last one the remote side reports. *)
Lemma search_ends_exhausted (n fuel : nat) (w : World) :
  (1 <= n <= 4)%nat -> (5 <= fuel)%nat ->
  (forall i, (1 <= i < n)%nat -> readsOn R token query (Z.of_nat i)) ->
  pageOk R token query (Z.of_nat n) = true ->
  pageCountOf R token query (Z.of_nat n) < Z.of_nat n + 1 ->
  searchSlackMessages fuel R token query w
  = (Returned (matchesOf R token query (pagesFrom 1 n)),
     addLog [completedLine (matchesOf R token query (pagesFrom 1 n))]
       (fetched R token query (pagesFrom 1 n)
          (addLog [searchStartLine query] w))).
Proof.
  intros Hn Hfuel Hreads Hok Hlast.
  rewrite searchSlackMessages_unfold.
  replace fuel with ((n - 1) + S (fuel - n))%nat by lia.
  rewrite searchLoop_from_first by (try lia; assumption).
  rewrite (searchLoop_ok_step R token query _ _ _ _ Hok). cbv zeta.
  replace (Z.of_nat n + 1 >? 5) with false by (symmetry; lia).
  replace (Z.of_nat n + 1 <=? pageCountOf R token query (Z.of_nat n))
    with false by (symmetry; lia).
  rewrite fetched_app.
  assert (Hpages : pagesFrom 1 (n - 1) ++ [Z.of_nat n] = pagesFrom 1 n).
  { unfold pagesFrom. replace n with ((n - 1) + 1)%nat at 3 by lia.
    rewrite seq_app, map_app. cbn [seq map].
    now replace (1 + (n - 1))%nat with n by lia. }
  rewrite Hpages.
  assert (Hms : matchesOf R token query (pagesFrom 1 (n - 1))
                ++ pageFound R token query (Z.of_nat n)
                = matchesOf R token query (pagesFrom 1 n)).
  { rewrite <- Hpages. unfold matchesOf.
    rewrite map_app, concat_app. cbn [map concat]. now rewrite app_nil_r. }
  now rewrite Hms.
Qed.

(** Pages 1 to 5 are read: the cap ends the loop, whatever page 5
    reports. *)
Lemma search_ends_capped (fuel : nat) (w : World) :
  (5 <= fuel)%nat ->
  (forall i, (1 <= i < 5)%nat -> readsOn R token query (Z.of_nat i)) ->
  pageOk R token query 5 = true ->
  searchSlackMessages fuel R token query w
  = (Returned (matchesOf R token query (pagesFrom 1 5)),
     addLog
       [pageLimitLine; completedLine (matchesOf R token query (pagesFrom 1 5))]
       (fetched R token query (pagesFrom 1 5)
          (addLog [searchStartLine query] w))).
Proof.
  intros Hfuel Hreads Hok.
  rewrite searchSlackMessages_unfold.
  replace fuel with ((5 - 1) + S (fuel - 5))%nat by lia.
  rewrite searchLoop_from_first by (try lia; assumption).
  change (Z.of_nat 5) with 5.
  rewrite (searchLoop_ok_step R token query _ _ _ _ Hok). cbv zeta.
  change (5 + 1 >? 5) with true. cbv iota.
  rewrite fetched_app, addLog_addLog.
  change (pagesFrom 1 (5 - 1) ++ [5]) with (pagesFrom 1 5).
  assert (Hms : matchesOf R token query (pagesFrom 1 (5 - 1))
                ++ pageFound R token query 5
                = matchesOf R token query (pagesFrom 1 5)).
  { unfold matchesOf, pagesFrom. cbn [Nat.sub seq map concat Z.of_nat].
    now rewrite <- !app_assoc, app_nil_r. }
  now rewrite Hms.
Qed.
End SearchOutcomes.

(** ** Requests tell pages apart *)

Lemma append_cancel_l (s a b : string) : s ^^ a = s ^^ b -> a = b.
Proof.
  induction s as [|c s IH]; cbn; intros H; [exact H|].
  injection H as H. now apply IH.
Qed.

Lemma searchRequest_page (token query : string) (p q : Z) :
  searchRequest token query p = searchRequest token query q ->
  showZ p = showZ q.
Proof.
  unfold searchRequest, searchUrl. intros H. injection H as H.
  apply append_cancel_l in H. now injection H.
Qed.

Lemma page_six_not_among_five (token query : string) :
  ~ In (searchRequest token query 6) (requestsFor token query (pagesFrom 1 5)).
Proof.
  unfold requestsFor, pagesFrom. cbn [seq map Z.of_nat Pos.of_succ_nat Pos.succ].
  intros [H|[H|[H|[H|[H|[]]]]]];
    apply searchRequest_page in H; vm_compute in H; discriminate.
Qed.

Lemma matchesOf_length_le (R : Runtime) (token query : string) (ps : list Z)
  (size : nat) :
  (forall p, In p ps -> (length (pageFound R token query p) <= size)%nat) ->
  (length (matchesOf R token query ps) <= length ps * size)%nat.
Proof.
  induction ps as [|p ps IH]; intros Hsize; [cbn; lia|].
  unfold matchesOf in *. cbn [map concat length]. rewrite length_app.
  specialize (Hsize p (or_introl eq_refl)) as Hp.
  specialize (IH (fun q Hq => Hsize q (or_intror Hq))).
  cbn [Nat.mul]. lia.
Qed.

Lemma isInvalidAuth_iff (err : option string) :
  isInvalidAuth err = true <-> err = Some "invalid_auth"%string.
Proof.
  destruct err as [e|]; cbn; [|split; discriminate].
  rewrite String.eqb_eq. split; [now intros ->|now intros [= ->]].
Qed.

(** * Properties of the search client *)

Ltac by_running :=
  vm_compute; repeat split; try reflexivity; try discriminate.

Ltac each_page p H :=
  match type of H with
  | _ <= p <= 3 =>
      assert (p = 1 \/ p = 2 \/ p = 3) as [-> | [-> | ->]] by lia
  | _ <= p <= 4 =>
      assert (p = 1 \/ p = 2 \/ p = 3 \/ p = 4)
        as [-> | [-> | [-> | ->]]] by lia
  | _ <= p <= 5 =>
      assert (p = 1 \/ p = 2 \/ p = 3 \/ p = 4 \/ p = 5)
        as [-> | [-> | [-> | [-> | ->]]]] by lia
  end.

(** C1, amended. When each of pages 1, 2 and 3 is answered with [ok: true],
    reports [page_count = 3] and is well shaped ([messages.pagination] is
    there and the first match of the page has a [channel] and a [text]), and
    the pages carry 100, 100 and 37 matches, [searchSlackMessages] sends
    exactly the requests of pages 1, 2, 3, in that order, and returns the
    237 matches in page order. *)
Theorem three_pages_of_three (R : Runtime) (token query : string)
  (fuel : nat) (w : World) :
  (5 <= fuel)%nat ->
  (forall p, 1 <= p <= 3 ->
             pageOk R token query p = true
             /\ pageCountOf R token query p = 3) ->
  length (pageFound R token query 1) = 100%nat ->
  length (pageFound R token query 2) = 100%nat ->
  length (pageFound R token query 3) = 37%nat ->
  resultOf (searchSlackMessages fuel R token query) w
  = Returned (pageFound R token query 1 ++ pageFound R token query 2
              ++ pageFound R token query 3)
  /\ requested (after (searchSlackMessages fuel R token query) w)
     = requested w
       ++ [searchRequest token query 1; searchRequest token query 2;
           searchRequest token query 3]
  /\ length (pageFound R token query 1 ++ pageFound R token query 2
             ++ pageFound R token query 3) = 237%nat.
Proof.
  intros Hfuel Hpages H1 H2 H3.
  unfold resultOf, after.
  rewrite (search_ends_exhausted R token query 3 fuel w); try lia.
  - cbn [fst snd]. split; [|split].
    + unfold matchesOf, pagesFrom. cbn [seq map concat Z.of_nat Pos.of_succ_nat Pos.succ].
      now rewrite app_nil_r.
    + reflexivity.
    + rewrite !length_app, H1, H2, H3. reflexivity.
  - intros i Hi. destruct (Hpages (Z.of_nat i) ltac:(lia)) as [Hok Hcount].
    split; [exact Hok|]. rewrite Hcount. lia.
  - apply (Hpages 3). lia.
  - destruct (Hpages 3 ltac:(lia)) as [_ Hcount].
    change (Z.of_nat 3) with 3. rewrite Hcount. lia.
Qed.

Lemma three_pages_of_three_witness :
  resultOf (searchSlackMessages 5 threePages "xoxp-1" sampleQuery) emptyWorld
  = Returned (hundred ++ hundred ++ thirtySeven)
  /\ requested (after (searchSlackMessages 5 threePages "xoxp-1" sampleQuery)
                  emptyWorld)
     = [searchRequest "xoxp-1" sampleQuery 1;
        searchRequest "xoxp-1" sampleQuery 2;
        searchRequest "xoxp-1" sampleQuery 3]
  /\ length (hundred ++ hundred ++ thirtySeven) = 237%nat.
Proof.
  apply (three_pages_of_three threePages "xoxp-1" sampleQuery 5 emptyWorld).
  - lia.
  - intros p Hp. each_page p Hp; by_running.
  - reflexivity.
  - reflexivity.
  - reflexivity.
Defined.

(** C1 as stated fails: with [ok: true] throughout, [page_count = 3] on
    page 1 and 100, 100 and 37 matches on pages 1 to 3, but [page_count = 2]
    on page 2, the client stops after two requests with 200 matches. *)
Lemma three_pages_shrinking_counterexample :
  (forall p, 1 <= p <= 3 ->
             pageOk threePagesShrinking "xoxp-1" sampleQuery p = true)
  /\ pageCountOf threePagesShrinking "xoxp-1" sampleQuery 1 = 3
  /\ length (pageFound threePagesShrinking "xoxp-1" sampleQuery 1) = 100%nat
  /\ length (pageFound threePagesShrinking "xoxp-1" sampleQuery 2) = 100%nat
  /\ length (pageFound threePagesShrinking "xoxp-1" sampleQuery 3) = 37%nat
  /\ resultOf (searchSlackMessages 5 threePagesShrinking "xoxp-1" sampleQuery)
       emptyWorld
     = Returned (hundred ++ hundred)
  /\ length (hundred ++ hundred) = 200%nat
  /\ requested
       (after (searchSlackMessages 5 threePagesShrinking "xoxp-1" sampleQuery)
          emptyWorld)
     = [searchRequest "xoxp-1" sampleQuery 1;
        searchRequest "xoxp-1" sampleQuery 2].
Proof.
  split; [intros p Hp; each_page p Hp; by_running|].
  by_running.
Qed.

(** C2, amended. Whatever the remote side answers, the pagination loop ends
    within 5 passes, each sending one request. When every page is answered
    with [ok: true], is well shaped ([messages.pagination] is there and the
    first match of the page has a [channel] and a [text]) and reports more
    than 5 pages, the client sends exactly the requests of pages 1 to 5,
    never that of page 6, logs the line
    [[WARN] Reached maximum page limit (5). Cutting off.], and returns the
    matches of these five pages: at most 500 when no page carries more than
    the 100 asked for. *)
Theorem page_cap (R : Runtime) (token query : string) (fuel : nat)
  (w : World) :
  (5 <= fuel)%nat ->
  (resultOf (searchSlackMessages fuel R token query) w <> OutOfFuel
   /\ searchSlackMessages fuel R token query w
      = searchSlackMessages 5 R token query w
   /\ exists rs,
       requested (after (searchSlackMessages fuel R token query) w)
       = requested w ++ rs
       /\ (length rs <= 5)%nat)
  /\ ((forall p, 1 <= p <= 5 ->
                 pageOk R token query p = true
                 /\ 5 < pageCountOf R token query p) ->
      resultOf (searchSlackMessages fuel R token query) w
      = Returned (matchesOf R token query (pagesFrom 1 5))
      /\ requested (after (searchSlackMessages fuel R token query) w)
         = requested w ++ requestsFor token query (pagesFrom 1 5)
      /\ ~ In (searchRequest token query 6)
              (requestsFor token query (pagesFrom 1 5))
      /\ logged (after (searchSlackMessages fuel R token query) w)
         = logged w ++ [searchStartLine query]
           ++ concat (map (pageLog R token query) (pagesFrom 1 5))
           ++ ["[WARN] Reached maximum page limit (5). Cutting off."%string;
               completedLine (matchesOf R token query (pagesFrom 1 5))]
      /\ ((forall p, 1 <= p <= 5 ->
                     (length (pageFound R token query p) <= 100)%nat) ->
          (length (matchesOf R token query (pagesFrom 1 5)) <= 500)%nat)).
Proof.
  intros Hfuel. split.
  - unfold resultOf, after. rewrite !searchSlackMessages_unfold.
    destruct (searchLoop_total R token query fuel [] 1
                (addLog [searchStartLine query] w) ltac:(lia) ltac:(lia))
      as (Hend & (rs & Hrs & Hlen) & Hind).
    rewrite (Hind 5%nat ltac:(lia)).
    destruct (searchLoop fuel R token query [] 1
                (addLog [searchStartLine query] w)) as [[ms|e|] w'];
      cbn [fst snd] in *; try congruence.
    + repeat split; try discriminate. exists rs. split; [exact Hrs|].
      change (Z.to_nat (6 - 1)) with 5%nat in Hlen. exact Hlen.
    + repeat split; try discriminate. exists rs. split; [exact Hrs|].
      change (Z.to_nat (6 - 1)) with 5%nat in Hlen. exact Hlen.
  - intros Hpages. unfold resultOf, after.
    rewrite (search_ends_capped R token query fuel w Hfuel).
    + cbn [fst snd]. split; [reflexivity|]. split; [reflexivity|].
      split; [apply page_six_not_among_five|]. split.
      * cbn [logged addLog addRequests fetched].
        now rewrite <- !app_assoc.
      * intros Hsize.
        change 500%nat with (length (pagesFrom 1 5) * 100)%nat.
        apply matchesOf_length_le. intros p Hp. apply Hsize.
        unfold pagesFrom in Hp. cbn in Hp. lia.
    + intros i Hi. destruct (Hpages (Z.of_nat i) ltac:(lia)) as [Hok Hcount].
      split; [exact Hok|lia].
    + apply (Hpages 5). lia.
Qed.

Lemma page_cap_witness :
  resultOf (searchSlackMessages 7 (endless 10) "xoxp-1" sampleQuery) emptyWorld
  = Returned (matchesOf (endless 10) "xoxp-1" sampleQuery (pagesFrom 1 5))
  /\ requested
       (after (searchSlackMessages 7 (endless 10) "xoxp-1" sampleQuery)
          emptyWorld)
     = requestsFor "xoxp-1" sampleQuery (pagesFrom 1 5).
Proof.
  destruct (page_cap (endless 10) "xoxp-1" sampleQuery 7 emptyWorld)
    as [_ Hcap]; [lia|].
  destruct Hcap as (Hres & Hreq & _).
  - intros p Hp. each_page p Hp; by_running.
  - split; [exact Hres | exact Hreq].
Defined.

(** C2 as stated fails twice. A remote side that always answers [ok: true]
    with [page_count = 10] and 101 matches a page makes the client return
    505 matches after its five requests: the cap is on pages, and the client
    never counts matches. And one whose pages carry a match without
    [channel] makes the client throw at the sample line of page 1: one
    request, no warning, nothing returned. *)
Lemma page_cap_counterexample :
  (alwaysOk oversized "xoxp-1" sampleQuery 10
   /\ (exists found,
          resultOf (searchSlackMessages 5 oversized "xoxp-1" sampleQuery)
            emptyWorld
          = Returned found
          /\ length found = 505%nat)
   /\ requested
        (after (searchSlackMessages 5 oversized "xoxp-1" sampleQuery)
           emptyWorld)
      = requestsFor "xoxp-1" sampleQuery (pagesFrom 1 5))
  /\ (alwaysOk channelless "xoxp-1" sampleQuery 10
      /\ resultOf (searchSlackMessages 5 channelless "xoxp-1" sampleQuery)
           emptyWorld
         = Threw TypeError
      /\ requested
           (after (searchSlackMessages 5 channelless "xoxp-1" sampleQuery)
              emptyWorld)
         = [searchRequest "xoxp-1" sampleQuery 1]
      /\ ~ In "[WARN] Reached maximum page limit (5). Cutting off."%string
              (logged
                 (after
                    (searchSlackMessages 5 channelless "xoxp-1" sampleQuery)
                    emptyWorld))).
Proof.
  split.
  - split; [|split].
    + intros page Hpage.
      assert (page = 1 \/ page = 2 \/ page = 3 \/ page = 4 \/ page = 5
              \/ page = 6) as [->|[->|[->|[->|[->| ->]]]]] by lia;
        eexists; (split; [reflexivity|split; reflexivity]).
    + eexists. split; [vm_compute; reflexivity|reflexivity].
    + vm_compute. reflexivity.
  - split; [|split; [|split]].
    + intros page Hpage.
      assert (page = 1 \/ page = 2 \/ page = 3 \/ page = 4 \/ page = 5
              \/ page = 6) as [->|[->|[->|[->|[->| ->]]]]] by lia;
        eexists; (split; [reflexivity|split; reflexivity]).
    + vm_compute. reflexivity.
    + vm_compute. reflexivity.
    + vm_compute. intros [H|[H|[H|[]]]]; discriminate H.
Qed.

(** C3. When page [n] is the first one answered with [ok: false] (pages 1
    to [n - 1] were read and each reported more pages), the client logs
    [[ERROR] Slack API Error: ] followed by the provider's error text
    ([undefined] when the body carries none), logs
    [[ERROR] Token may be invalid or expired.] after it exactly when the
    error is ['invalid_auth'], sends no request after that of page [n], and
    returns, without throwing, the matches of pages 1 to [n - 1]: none when
    [n = 1]. *)
Theorem refused_page (R : Runtime) (token query : string) (fuel : nat)
  (w : World) (n : nat) (j : SearchJson) :
  (5 <= fuel)%nat ->
  (1 <= n <= 5)%nat ->
  (forall p, 1 <= p < Z.of_nat n -> readsOn R token query p) ->
  pageJson R token query (Z.of_nat n) = Some j ->
  ok j = false ->
  resultOf (searchSlackMessages fuel R token query) w
  = Returned (matchesOf R token query (pagesFrom 1 (n - 1)))
  /\ (n = 1%nat ->
      resultOf (searchSlackMessages fuel R token query) w = Returned [])
  /\ logged (after (searchSlackMessages fuel R token query) w)
     = logged w ++ [searchStartLine query]
       ++ concat (map (pageLog R token query) (pagesFrom 1 (n - 1)))
       ++ [("[ERROR] Slack API Error: "
            ^^ match error j with
               | Some text => text
               | None => "undefined"
               end)%string]
       ++ (if isInvalidAuth (error j)
           then ["[ERROR] Token may be invalid or expired."%string]
           else [])
       ++ [completedLine (matchesOf R token query (pagesFrom 1 (n - 1)))]
  /\ (isInvalidAuth (error j) = true <-> error j = Some "invalid_auth"%string)
  /\ requested (after (searchSlackMessages fuel R token query) w)
     = requested w ++ requestsFor token query (pagesFrom 1 (n - 1))
       ++ [searchRequest token query (Z.of_nat n)].
Proof.
  intros Hfuel Hn Hreads Hj Hok.
  unfold resultOf, after.
  rewrite (search_ends_refused R token query n fuel w j Hn Hfuel); try assumption.
  - cbn [fst snd]. split; [reflexivity|]. split.
    + intros ->. reflexivity.
    + split; [|split; [apply isInvalidAuth_iff|]].
      * cbn [logged addLog addRequests fetched]. unfold failureLines.
        rewrite <- !app_assoc. reflexivity.
      * cbn [requested addLog addRequests fetched].
        rewrite <- !app_assoc. reflexivity.
  - intros i Hi. apply Hreads. lia.
Qed.

Lemma refused_page_witness :
  resultOf
    (searchSlackMessages 5 (refusedLater "invalid_auth") "xoxp-1" sampleQuery)
    emptyWorld
  = Returned twoMatches
  /\ logged
       (after
          (searchSlackMessages 5 (refusedLater "invalid_auth") "xoxp-1"
             sampleQuery) emptyWorld)
     = [searchStartLine sampleQuery;
        totalHitsLine 5;
        pageLine 1 twoMatches;
        sampleLine (Channel.make (Some "C1") (Some "general")) "hello";
        "[ERROR] Slack API Error: invalid_auth";
        "[ERROR] Token may be invalid or expired.";
        completedLine twoMatches]%string.
Proof.
  destruct (refused_page (refusedLater "invalid_auth") "xoxp-1" sampleQuery 5
              emptyWorld 2 (errorJson "invalid_auth"))
    as (Hres & _ & Hlog & _).
  - lia.
  - lia.
  - intros p Hp. assert (p = 1) as -> by lia. by_running.
  - reflexivity.
  - reflexivity.
  - split; [exact Hres | exact Hlog].
Defined.

(** C10. Whenever pages 1 to 5 are read successfully, the loop leaves
    through the cap: the line
    [[WARN] Reached maximum page limit (5). Cutting off.] is logged after
    the lines of page 5, no sixth request is sent, and the five pages'
    matches are returned, whatever page 5 reports as [page_count], 5
    included, where nothing was left out. *)
Theorem cap_warning_after_five_pages (R : Runtime) (token query : string)
  (fuel : nat) (w : World) :
  (5 <= fuel)%nat ->
  (forall p, 1 <= p <= 4 -> readsOn R token query p) ->
  pageOk R token query 5 = true ->
  resultOf (searchSlackMessages fuel R token query) w
  = Returned (matchesOf R token query (pagesFrom 1 5))
  /\ requested (after (searchSlackMessages fuel R token query) w)
     = requested w ++ requestsFor token query (pagesFrom 1 5)
  /\ logged (after (searchSlackMessages fuel R token query) w)
     = logged w ++ [searchStartLine query]
       ++ concat (map (pageLog R token query) (pagesFrom 1 5))
       ++ ["[WARN] Reached maximum page limit (5). Cutting off."%string;
           completedLine (matchesOf R token query (pagesFrom 1 5))].
Proof.
  intros Hfuel Hreads Hfifth.
  unfold resultOf, after.
  rewrite (search_ends_capped R token query fuel w Hfuel).
  - cbn [fst snd]. split; [reflexivity|]. split; [reflexivity|].
    cbn [logged addLog addRequests fetched]. now rewrite <- !app_assoc.
  - intros i Hi. apply Hreads. lia.
  - exact Hfifth.
Qed.

Lemma cap_warning_after_five_pages_witness :
  pageCountOf (endless 5) "xoxp-1" sampleQuery 5 = 5
  /\ resultOf (searchSlackMessages 5 (endless 5) "xoxp-1" sampleQuery)
       emptyWorld
     = Returned (matchesOf (endless 5) "xoxp-1" sampleQuery (pagesFrom 1 5))
  /\ logged
       (after (searchSlackMessages 5 (endless 5) "xoxp-1" sampleQuery)
          emptyWorld)
     = [searchStartLine sampleQuery]
       ++ concat (map (pageLog (endless 5) "xoxp-1" sampleQuery)
                    (pagesFrom 1 5))
       ++ ["[WARN] Reached maximum page limit (5). Cutting off."%string;
           completedLine
             (matchesOf (endless 5) "xoxp-1" sampleQuery (pagesFrom 1 5))].
Proof.
  split; [reflexivity|].
  destruct (cap_warning_after_five_pages (endless 5) "xoxp-1" sampleQuery 5
              emptyWorld) as (Hres & _ & Hlog).
  - lia.
  - intros p Hp. each_page p Hp; by_running.
  - reflexivity.
  - split; [exact Hres | exact Hlog].
Defined.

(** * The channel map *)

Lemma mapSet_keys_in (key value x : string) (m : list (string * string)) :
  In x (map fst (mapSet key value m)) <-> x = key \/ In x (map fst m).
Proof.
  induction m as [|[k v] rest IH]; cbn.
  - intuition congruence.
  - destruct (String.eqb_spec k key) as [->|Hne]; cbn.
    + intuition congruence.
    + rewrite IH. intuition congruence.
Qed.

Lemma mapSet_NoDup (key value : string) (m : list (string * string)) :
  NoDup (map fst m) -> NoDup (map fst (mapSet key value m)).
Proof.
  induction m as [|[k v] rest IH]; cbn; intros Hnd.
  - constructor; [intros []|constructor].
  - inversion Hnd as [|? ? Hnotin Hrest]; subst.
    destruct (String.eqb_spec k key) as [->|Hne]; cbn.
    + now constructor.
    + constructor; [|now apply IH].
      rewrite mapSet_keys_in. intros [->|Hin]; [now apply Hne|now apply Hnotin].
Qed.

Lemma mapGet_mapSet (key value x : string) (m : list (string * string)) :
  mapGet x (mapSet key value m)
  = if String.eqb key x then Some value else mapGet x m.
Proof.
  induction m as [|[k v] rest IH]; cbn.
  - reflexivity.
  - destruct (String.eqb_spec k key) as [->|Hne]; cbn.
    + destruct (String.eqb key x); reflexivity.
    + rewrite IH. destruct (String.eqb_spec k x) as [->|Hkx];
        destruct (String.eqb_spec key x) as [->|Hkeyx]; congruence.
Qed.

Lemma mapGet_In (key value : string) (m : list (string * string)) :
  NoDup (map fst m) ->
  (In (key, value) m <-> mapGet key m = Some value).
Proof.
  induction m as [|[k v] rest IH]; cbn; intros Hnd.
  - split; [intros []|discriminate].
  - inversion Hnd as [|? ? Hnotin Hrest]; subst.
    destruct (String.eqb_spec k key) as [->|Hne].
    + split.
      * intros [[= ->]|Hin]; [reflexivity|].
        exfalso. apply Hnotin. now apply (in_map fst) in Hin.
      * intros [= ->]. now left.
    + rewrite <- (IH Hrest). split.
      * intros [[= -> _]|Hin]; [now destruct Hne|exact Hin].
      * intros Hin. now right.
Qed.

Lemma mapGet_key (key : string) (m : list (string * string)) :
  In key (map fst m) -> exists value, mapGet key m = Some value.
Proof.
  induction m as [|[k v] rest IH]; cbn; [intros []|].
  destruct (String.eqb_spec k key) as [->|Hne].
  - intros _. now exists v.
  - intros [Heq|Hin]; [now destruct Hne|now apply IH].
Qed.

Lemma mapSet_In_inv (key value k v : string) (m : list (string * string)) :
  In (k, v) (mapSet key value m) -> (k, v) = (key, value) \/ In (k, v) m.
Proof.
  induction m as [|[k0 v0] rest IH]; cbn.
  - intros [[= -> ->]|[]]. now left.
  - destruct (String.eqb_spec k0 key) as [->|Hne]; cbn.
    + intros [[= -> ->]|Hin]; [now left|now right; right].
    + intros [Heq|Hin]; [now right; left|].
      destruct (IH Hin) as [Hnew|Hold]; [now left|now right; right].
Qed.

(** The body of the [forEach], read through [summaryOf]. *)
Lemma recordChannel_summary (m : list (string * string)) (msg : Match.t) :
  recordChannel m msg
  = match summaryOf msg with
    | Some s => mapSet (ChannelSummary.id s) (ChannelSummary.name s) m
    | None => m
    end.
Proof.
  unfold recordChannel, summaryOf, channelIdOf.
  destruct (Match.channel msg) as [[[[|c i]|] nm]|]; reflexivity.
Qed.

Lemma channelIdOf_summary (msg : Match.t) :
  channelIdOf msg = option_map ChannelSummary.id (summaryOf msg).
Proof.
  unfold summaryOf. destruct (Match.channel msg) as [ch|] eqn:Hch.
  - destruct (channelIdOf msg); reflexivity.
  - unfold channelIdOf. now rewrite Hch.
Qed.

Lemma idsOf_cons (msg : Match.t) (rest : list Match.t) :
  idsOf (msg :: rest)
  = match summaryOf msg with
    | Some s => ChannelSummary.id s :: idsOf rest
    | None => idsOf rest
    end.
Proof.
  unfold idsOf. cbn [flat_map]. rewrite channelIdOf_summary.
  destruct (summaryOf msg); reflexivity.
Qed.

Lemma idsOf_app (xs ys : list Match.t) :
  idsOf (xs ++ ys) = idsOf xs ++ idsOf ys.
Proof. unfold idsOf. apply flat_map_app. Qed.

Lemma idsOf_In (i : string) (messages : list Match.t) :
  In i (idsOf messages)
  <-> exists m s, In m messages /\ summaryOf m = Some s
                  /\ ChannelSummary.id s = i.
Proof.
  induction messages as [|msg rest IH]; [cbn; firstorder|].
  rewrite idsOf_cons. destruct (summaryOf msg) as [s|] eqn:Hs.
  - cbn [In]. rewrite IH. split.
    + intros [<-|(m & s' & Hin & Hsum & Hid)].
      * exists msg, s. auto.
      * exists m, s'. auto.
    + intros (m & s' & [<-|Hin] & Hsum & Hid).
      * left. congruence.
      * right. exists m, s'. auto.
  - rewrite IH. split.
    + intros (m & s' & Hin & Hsum & Hid). exists m, s'. cbn. auto.
    + intros (m & s' & [<-|Hin] & Hsum & Hid); [congruence|].
      exists m, s'. auto.
Qed.

Section ChannelMap.
Context (messages : list Match.t).

Lemma fold_keys (x : string) :
  forall acc,
    In x (map fst (fold_left recordChannel messages acc))
    <-> In x (map fst acc) \/ In x (idsOf messages).
Proof.
  induction messages as [|msg rest IH]; intros acc; [cbn; tauto|].
  cbn [fold_left]. rewrite IH, idsOf_cons, recordChannel_summary.
  destruct (summaryOf msg) as [s|]; [|tauto].
  rewrite mapSet_keys_in. cbn [In]. intuition congruence.
Qed.

Lemma fold_NoDup :
  forall acc,
    NoDup (map fst acc) ->
    NoDup (map fst (fold_left recordChannel messages acc)).
Proof.
  induction messages as [|msg rest IH]; intros acc Hnd; [exact Hnd|].
  cbn [fold_left]. apply IH. rewrite recordChannel_summary.
  destruct (summaryOf msg); [now apply mapSet_NoDup|exact Hnd].
Qed.

Lemma fold_untouched (i : string) :
  forall acc,
    ~ In i (idsOf messages) ->
    mapGet i (fold_left recordChannel messages acc) = mapGet i acc.
Proof.
  induction messages as [|msg rest IH]; intros acc Hnotin; [reflexivity|].
  cbn [fold_left]. rewrite idsOf_cons in Hnotin.
  rewrite recordChannel_summary.
  destruct (summaryOf msg) as [s|].
  - rewrite IH by (intros Hin; apply Hnotin; now right).
    rewrite mapGet_mapSet.
    destruct (String.eqb_spec (ChannelSummary.id s) i) as [Heq|]; [|reflexivity].
    exfalso. apply Hnotin. now left.
  - now apply IH.
Qed.

Lemma fold_origin (k v : string) :
  forall acc,
    In (k, v) (fold_left recordChannel messages acc) ->
    In (k, v) acc
    \/ exists m, In m messages /\ summaryOf m = Some (ChannelSummary.make k v).
Proof.
  induction messages as [|msg rest IH]; intros acc Hin; [now left|].
  cbn [fold_left] in Hin. destruct (IH _ Hin) as [Hacc|(m & Hm & Hsum)].
  - rewrite recordChannel_summary in Hacc.
    destruct (summaryOf msg) as [[i n]|] eqn:Hs.
    + cbn in Hacc. destruct (mapSet_In_inv _ _ _ _ _ Hacc) as [[= -> ->]|Hold].
      * right. exists msg. split; [now left|exact Hs].
      * now left.
    + now left.
  - right. exists m. split; [now right|exact Hsum].
Qed.
End ChannelMap.

(** * Sorting *)

Section SortFacts.
Context {A : Type} (cmp : A -> A -> Z).

Lemma insertSorted_perm (x : A) (l : list A) :
  Permutation (insertSorted cmp x l) (x :: l).
Proof.
  induction l as [|y rest IH]; cbn; [reflexivity|].
  destruct (cmp x y <=? 0); [reflexivity|].
  rewrite IH. apply perm_swap.
Qed.

Lemma arraySort_perm (l : list A) : Permutation (arraySort cmp l) l.
Proof.
  induction l as [|x rest IH]; cbn; [reflexivity|].
  rewrite insertSorted_perm. now constructor.
Qed.

Lemma arraySort_singleton (x : A) : arraySort cmp [x] = [x].
Proof. reflexivity. Qed.

Hypothesis cmp_total : forall a b, cmp a b > 0 -> cmp b a <= 0.
Hypothesis cmp_trans :
  forall a b c, cmp a b <= 0 -> cmp b c <= 0 -> cmp a c <= 0.

Lemma insertSorted_sorted (x : A) (l : list A) :
  StronglySorted (fun a b => cmp a b <= 0) l ->
  StronglySorted (fun a b => cmp a b <= 0) (insertSorted cmp x l).
Proof.
  induction l as [|y rest IH]; cbn; intros Hs.
  - constructor; constructor.
  - inversion Hs as [|? ? Hrest Hall]; subst.
    destruct (cmp x y <=? 0) eqn:Hxy.
    + constructor; [exact Hs|]. constructor; [lia|].
      eapply Forall_impl; [|exact Hall].
      intros z Hyz. apply (cmp_trans x y z); [lia|exact Hyz].
    + constructor; [now apply IH|].
      apply Forall_forall. intros z Hz.
      apply (Permutation_in _ (insertSorted_perm x rest)) in Hz.
      destruct Hz as [<-|Hz].
      * apply cmp_total. lia.
      * rewrite Forall_forall in Hall. now apply Hall.
Qed.

Lemma arraySort_sorted (l : list A) :
  StronglySorted (fun a b => cmp a b <= 0) (arraySort cmp l).
Proof.
  induction l as [|x rest IH]; cbn; [constructor|].
  now apply insertSorted_sorted.
Qed.
End SortFacts.

(** Two sorted arrangements of the same elements coincide when no two
    distinct elements tie. *)
Lemma sorted_perm_unique {A : Type} (le : A -> A -> Prop) (l1 : list A) :
  forall l2,
    StronglySorted le l1 -> StronglySorted le l2 ->
    Permutation l1 l2 ->
    (forall a b, In a l1 -> In b l1 -> le a b -> le b a -> a = b) ->
    l1 = l2.
Proof.
  induction l1 as [|a t1 IH]; intros l2 Hs1 Hs2 Hperm Hanti.
  - now apply Permutation_nil in Hperm.
  - destruct l2 as [|b t2];
      [now apply Permutation_sym, Permutation_nil in Hperm|].
    inversion Hs1 as [|? ? Ht1 Ha]; subst.
    inversion Hs2 as [|? ? Ht2 Hb]; subst.
    rewrite Forall_forall in Ha, Hb.
    assert (Hab : a = b).
    { assert (Hbin : In b (a :: t1))
        by (apply (Permutation_in _ (Permutation_sym Hperm)); now left).
      assert (Hain : In a (b :: t2))
        by (apply (Permutation_in _ Hperm); now left).
      destruct Hbin as [Heq|Hbt]; [exact Heq|].
      destruct Hain as [Heq|Hat]; [now symmetry|].
      apply Hanti; [now left|now right|now apply Ha|now apply Hb]. }
    subst b. f_equal.
    apply IH; try assumption.
    + now apply Permutation_cons_inv in Hperm.
    + intros x y Hx Hy. apply Hanti; now right.
Qed.

Lemma codeUnitCompare_consistent : Consistent codeUnitCompare.
Proof.
  split.
  - intros a b. unfold codeUnitCompare.
    rewrite (String.compare_antisym b a).
    destruct (String.compare a b); reflexivity.
  - intros a b c. unfold codeUnitCompare.
    destruct (String.compare a b) eqn:Hab; try (intros; lia);
      destruct (String.compare b c) eqn:Hbc; try (intros; lia); intros _ _.
    + apply String.compare_eq_iff in Hab, Hbc. subst.
      pose proof (String.compare_antisym c c) as Hanti.
      destruct (String.compare c c); try lia; discriminate.
    + apply String.compare_eq_iff in Hab. subst. now rewrite Hbc.
    + apply String.compare_eq_iff in Hbc. subst. now rewrite Hab.
    + change (String.compare a b) with (OrderedTypeEx.String_as_OT.cmp a b) in Hab.
      change (String.compare b c) with (OrderedTypeEx.String_as_OT.cmp b c) in Hbc.
      apply OrderedTypeEx.String_as_OT.cmp_lt in Hab, Hbc.
      pose proof (OrderedTypeEx.String_as_OT.lt_trans _ _ _ Hab Hbc) as Hac.
      apply OrderedTypeEx.String_as_OT.cmp_lt in Hac.
      unfold OrderedTypeEx.String_as_OT.cmp in Hac. now rewrite Hac.
Qed.

Section ByName.
Context (collate : string -> string -> Z) (Hc : Consistent collate).

Lemma byName_total (a b : ChannelSummary.t) :
  byName collate a b > 0 -> byName collate b a <= 0.
Proof.
  unfold byName. intros Hab.
  pose proof (collate_swap collate Hc (ChannelSummary.name a)
                (ChannelSummary.name b)) as Hswap.
  lia.
Qed.

Lemma byName_trans (a b c : ChannelSummary.t) :
  byName collate a b <= 0 -> byName collate b c <= 0 ->
  byName collate a c <= 0.
Proof. unfold byName. apply (collate_trans collate Hc). Qed.

Lemma byName_tie (a b : ChannelSummary.t) :
  nameLe collate a b -> nameLe collate b a ->
  collate (ChannelSummary.name a) (ChannelSummary.name b) = 0.
Proof.
  unfold nameLe, byName. intros Hab Hba.
  pose proof (collate_swap collate Hc (ChannelSummary.name a)
                (ChannelSummary.name b)) as Hswap.
  lia.
Qed.
End ByName.

(** * The aggregator *)

Lemma toSummary_ids (m : list (string * string)) :
  map ChannelSummary.id (map toSummary m) = map fst m.
Proof. rewrite map_map. reflexivity. Qed.

Lemma toSummary_In (s : ChannelSummary.t) (m : list (string * string)) :
  In s (map toSummary m)
  <-> In (ChannelSummary.id s, ChannelSummary.name s) m.
Proof.
  rewrite in_map_iff. split.
  - intros ([k v] & <- & Hin). exact Hin.
  - intros Hin. eexists. split; [|exact Hin]. now destruct s.
Qed.

Lemma buildChannelMap_NoDup (messages : list Match.t) :
  NoDup (map fst (buildChannelMap messages)).
Proof. apply fold_NoDup. constructor. Qed.

Lemma aggregate_perm (collate : string -> string -> Z)
  (messages : list Match.t) :
  Permutation (aggregateMentions collate messages)
    (map toSummary (buildChannelMap messages)).
Proof. apply arraySort_perm. Qed.

Lemma aggregate_In (collate : string -> string -> Z)
  (messages : list Match.t) (s : ChannelSummary.t) :
  In s (aggregateMentions collate messages)
  <-> In (ChannelSummary.id s, ChannelSummary.name s)
         (buildChannelMap messages).
Proof.
  rewrite <- toSummary_In. split; apply Permutation_in;
    [|apply Permutation_sym]; apply aggregate_perm.
Qed.

(** The last match of a channel decides its entry. *)
Lemma last_match_wins (before after : list Match.t) (m : Match.t)
  (s : ChannelSummary.t) :
  summaryOf m = Some s ->
  ~ In (ChannelSummary.id s) (idsOf after) ->
  In (ChannelSummary.id s, ChannelSummary.name s)
    (buildChannelMap (before ++ m :: after)).
Proof.
  intros Hs Hlast.
  apply mapGet_In; [apply buildChannelMap_NoDup|].
  unfold buildChannelMap. rewrite fold_left_app. cbn [fold_left].
  rewrite fold_untouched by exact Hlast.
  rewrite recordChannel_summary, Hs, mapGet_mapSet.
  now rewrite String.eqb_refl.
Qed.

(** Every entry was written by some match. *)
Lemma entry_origin (collate : string -> string -> Z)
  (messages : list Match.t) (s : ChannelSummary.t) :
  In s (aggregateMentions collate messages) ->
  exists m, In m messages /\ summaryOf m = Some s.
Proof.
  rewrite aggregate_In. intros Hin.
  destruct (fold_origin messages _ _ [] Hin) as [[]|(m & Hm & Hs)].
  exists m. split; [exact Hm|]. now destruct s.
Qed.

Lemma summaryOf_name (m : Match.t) (s : ChannelSummary.t) :
  summaryOf m = Some s -> ChannelSummary.name s <> EmptyString.
Proof.
  unfold summaryOf, channelIdOf, channelName.
  destruct (Match.channel m) as [[[[|c i]|] [[|d n]|]]|]; cbn;
    try discriminate; intros [= <-]; cbn; discriminate.
Qed.

Lemma summaryOf_unnamed (m : Match.t) (i : string) :
  unnamedIn m i ->
  summaryOf m = Some (ChannelSummary.make i ("private-channel-" ^^ i)%string).
Proof.
  intros (ch & Hch & Hid & Hname).
  unfold summaryOf, channelName. now rewrite Hch, Hid, Hname.
Qed.

(** * Properties of the aggregator *)

(** C4. [aggregateMentions] returns one [ChannelSummary] per distinct
    channel id among the matches that have one: no id twice, exactly the ids
    that occur, as many entries as distinct ids; matches without a channel
    or a channel id add nothing; and the name kept for an id is that of the
    last match carrying the id. *)
Theorem one_summary_per_channel (collate : string -> string -> Z)
  (messages : list Match.t) :
  NoDup (map ChannelSummary.id (aggregateMentions collate messages))
  /\ (forall i,
         In i (map ChannelSummary.id (aggregateMentions collate messages))
         <-> In i (idsOf messages))
  /\ length (aggregateMentions collate messages)
     = length (nodup string_dec (idsOf messages))
  /\ (forall before m after,
         messages = before ++ m :: after ->
         channelIdOf m = None ->
         aggregateMentions collate messages
         = aggregateMentions collate (before ++ after))
  /\ (forall before m after s,
         messages = before ++ m :: after ->
         summaryOf m = Some s ->
         ~ In (ChannelSummary.id s) (idsOf after) ->
         In s (aggregateMentions collate messages)).
Proof.
  assert (Hids : Permutation
                   (map ChannelSummary.id (aggregateMentions collate messages))
                   (map fst (buildChannelMap messages))).
  { rewrite <- toSummary_ids. apply Permutation_map, aggregate_perm. }
  assert (Hnd : NoDup (map ChannelSummary.id
                         (aggregateMentions collate messages))).
  { apply (Permutation_NoDup (Permutation_sym Hids)).
    apply buildChannelMap_NoDup. }
  assert (Hin : forall i,
             In i (map ChannelSummary.id (aggregateMentions collate messages))
             <-> In i (idsOf messages)).
  { intros i. split.
    - intros H. apply (Permutation_in _ Hids) in H.
      apply (fold_keys messages i []) in H. now destruct H as [[]|H].
    - intros H. apply (Permutation_in _ (Permutation_sym Hids)).
      apply (fold_keys messages i []). now right. }
  split; [exact Hnd|]. split; [exact Hin|]. split; [|split].
  - rewrite <- (length_map ChannelSummary.id).
    apply Permutation_length, NoDup_Permutation;
      [exact Hnd|apply NoDup_nodup|].
    intros i. rewrite Hin, nodup_In. reflexivity.
  - intros before m after -> Hnone.
    unfold aggregateMentions, buildChannelMap.
    rewrite !fold_left_app. cbn [fold_left]. rewrite recordChannel_summary.
    rewrite channelIdOf_summary in Hnone.
    destruct (summaryOf m); [discriminate|reflexivity].
  - intros before m after s -> Hs Hlast.
    apply aggregate_In. now apply last_match_wins.
Qed.

Lemma one_summary_per_channel_witness :
  In (ChannelSummary.make "2" "c")
    (aggregateMentions codeUnitCompare
       [matchIn "2" "b"; matchIn "1" "a"; matchIn "2" "c";
        Match.make None (Some "no channel"%string)])
  /\ length
       (aggregateMentions codeUnitCompare
          [matchIn "2" "b"; matchIn "1" "a"; matchIn "2" "c";
           Match.make None (Some "no channel"%string)]) = 2%nat.
Proof.
  destruct (one_summary_per_channel codeUnitCompare
              [matchIn "2" "b"; matchIn "1" "a"; matchIn "2" "c";
               Match.make None (Some "no channel"%string)])
    as (_ & _ & Hlen & _ & Hlast).
  split.
  - apply (Hlast [matchIn "2" "b"; matchIn "1" "a"] (matchIn "2" "c")
             [Match.make None (Some "no channel"%string)]).
    + reflexivity.
    + reflexivity.
    + intros [].
  - rewrite Hlen. reflexivity.
Defined.

(** Under [Unambiguous], the entries are exactly what the matches write. *)
Lemma entries_of_matches (collate : string -> string -> Z)
  (messages : list Match.t) (s : ChannelSummary.t) :
  Unambiguous collate messages ->
  (In s (map toSummary (buildChannelMap messages))
   <-> exists m, In m messages /\ summaryOf m = Some s).
Proof.
  intros Hun. split.
  - intros Hin. apply (entry_origin collate).
    apply (Permutation_in _ (Permutation_sym (aggregate_perm _ _))), Hin.
  - intros (m & Hm & Hs). apply toSummary_In.
    assert (Hkey : In (ChannelSummary.id s)
                     (map fst (buildChannelMap messages))).
    { apply (fold_keys messages _ []). right.
      apply idsOf_In. now exists m, s. }
    destruct (mapGet_key _ _ Hkey) as (v & Hget).
    apply mapGet_In in Hget; [|apply buildChannelMap_NoDup].
    destruct (fold_origin messages _ _ [] Hget) as [[]|(m' & Hm' & Hs')].
    rewrite (Hun m m' s _ Hm Hm' Hs Hs') by (now left).
    exact Hget.
Qed.

Lemma Unambiguous_perm (collate : string -> string -> Z)
  (ms1 ms2 : list Match.t) :
  Permutation ms1 ms2 -> Unambiguous collate ms1 -> Unambiguous collate ms2.
Proof.
  intros Hperm Hun m m' s s' Hm Hm'.
  apply Hun; eapply Permutation_in; try apply Permutation_sym; eassumption.
Qed.

(** C5, amended. For a consistent comparator the list returned by
    [aggregateMentions] is sorted ascending by name; and two inputs that are
    permutations of one another give equal lists provided the input is
    unambiguous: matches of one channel agree on its name, and no two
    channels have names the comparator ties. *)
Theorem sorted_by_name (collate : string -> string -> Z) :
  Consistent collate ->
  (forall messages,
      StronglySorted (nameLe collate) (aggregateMentions collate messages))
  /\ (forall ms1 ms2,
         Permutation ms1 ms2 ->
         Unambiguous collate ms1 ->
         aggregateMentions collate ms1 = aggregateMentions collate ms2).
Proof.
  intros Hc.
  assert (Hsorted : forall messages,
             StronglySorted (nameLe collate)
               (aggregateMentions collate messages)).
  { intros messages. unfold aggregateMentions, nameLe. cbv zeta.
    apply arraySort_sorted;
      [apply (byName_total collate Hc)|apply (byName_trans collate Hc)]. }
  split; [exact Hsorted|].
  intros ms1 ms2 Hperm Hun1.
  pose proof (Unambiguous_perm collate ms1 ms2 Hperm Hun1) as Hun2.
  apply (sorted_perm_unique (nameLe collate)); try apply Hsorted.
  - rewrite (aggregate_perm collate ms1), (aggregate_perm collate ms2).
    apply NoDup_Permutation.
    + apply (NoDup_map_inv ChannelSummary.id). rewrite toSummary_ids.
      apply buildChannelMap_NoDup.
    + apply (NoDup_map_inv ChannelSummary.id). rewrite toSummary_ids.
      apply buildChannelMap_NoDup.
    + intros s.
      rewrite (entries_of_matches collate ms1 s Hun1).
      rewrite (entries_of_matches collate ms2 s Hun2).
      split; intros (m & Hm & Hs); exists m; (split; [|exact Hs]).
      * now apply (Permutation_in _ Hperm).
      * now apply (Permutation_in _ (Permutation_sym Hperm)).
  - intros a b Ha Hb Hab Hba.
    destruct (entry_origin collate ms1 a Ha) as (m & Hm & Hs).
    destruct (entry_origin collate ms1 b Hb) as (m' & Hm' & Hs').
    apply (Hun1 m m' a b Hm Hm' Hs Hs'). right.
    now apply (byName_tie collate Hc).
Qed.

Lemma sorted_by_name_witness :
  aggregateMentions codeUnitCompare [matchIn "2" "b"; matchIn "1" "a"]
  = aggregateMentions codeUnitCompare [matchIn "1" "a"; matchIn "2" "b"].
Proof.
  destruct (sorted_by_name codeUnitCompare codeUnitCompare_consistent)
    as [_ Hsame].
  apply Hsame.
  - apply perm_swap.
  - intros m m' s s' Hm Hm' Hs Hs' Hclash.
    destruct Hm as [<-|[<-|[]]]; destruct Hm' as [<-|[<-|[]]];
      injection Hs as <-; injection Hs' as <-;
      try reflexivity;
      destruct Hclash as [Hclash|Hclash]; vm_compute in Hclash;
      discriminate.
Defined.

(** C5 as stated fails: the order of the input shows in the output when two
    matches of one channel carry different names (the last one wins), and
    when two channels carry the same name (they keep their order of first
    appearance). *)
Lemma input_order_counterexample :
  Permutation [matchIn "1" "a"; matchIn "1" "b"]
    [matchIn "1" "b"; matchIn "1" "a"]
  /\ (forall collate,
         aggregateMentions collate [matchIn "1" "a"; matchIn "1" "b"]
         = [ChannelSummary.make "1" "b"]
         /\ aggregateMentions collate [matchIn "1" "b"; matchIn "1" "a"]
            = [ChannelSummary.make "1" "a"])
  /\ Permutation [matchIn "1" "a"; matchIn "2" "a"]
       [matchIn "2" "a"; matchIn "1" "a"]
  /\ aggregateMentions codeUnitCompare [matchIn "1" "a"; matchIn "2" "a"]
     = [ChannelSummary.make "1" "a"; ChannelSummary.make "2" "a"]
  /\ aggregateMentions codeUnitCompare [matchIn "2" "a"; matchIn "1" "a"]
     = [ChannelSummary.make "2" "a"; ChannelSummary.make "1" "a"]
  /\ aggregateMentions codeUnitCompare [matchIn "1" "a"; matchIn "2" "a"]
     <> aggregateMentions codeUnitCompare [matchIn "2" "a"; matchIn "1" "a"].
Proof.
  split; [apply perm_swap|]. split; [intros collate; split; reflexivity|].
  split; [apply perm_swap|]. split; [reflexivity|]. split; [reflexivity|].
  vm_compute. discriminate.
Qed.

(** C6, amended. A match with a channel id but no resolvable channel name
    that is the last match of its channel in the input yields the
    [ChannelSummary] named [private-channel-<id>]; and every
    [ChannelSummary] in the output has a non-empty name. *)
Theorem placeholder_name (collate : string -> string -> Z)
  (messages : list Match.t) :
  (forall before m after i,
      messages = before ++ m :: after ->
      unnamedIn m i ->
      ~ In i (idsOf after) ->
      In (ChannelSummary.make i ("private-channel-" ^^ i)%string)
        (aggregateMentions collate messages))
  /\ (forall s,
         In s (aggregateMentions collate messages) ->
         ChannelSummary.name s <> EmptyString).
Proof.
  split.
  - intros before m after i -> Hunnamed Hlast.
    apply aggregate_In.
    apply (last_match_wins before after m
             (ChannelSummary.make i ("private-channel-" ^^ i)%string)).
    + now apply summaryOf_unnamed.
    + exact Hlast.
  - intros s Hin. destruct (entry_origin collate messages s Hin) as (m & _ & Hs).
    now apply (summaryOf_name m).
Qed.

Lemma placeholder_name_witness :
  In (ChannelSummary.make "G7" "private-channel-G7")
    (aggregateMentions codeUnitCompare [matchIn "C1" "general"; matchUnnamed "G7"]).
Proof.
  destruct (placeholder_name codeUnitCompare
              [matchIn "C1" "general"; matchUnnamed "G7"]) as [Hplace _].
  apply (Hplace [matchIn "C1" "general"] (matchUnnamed "G7") [] "G7"%string).
  - reflexivity.
  - exists (Channel.make (Some "G7"%string) None). repeat split.
  - intros [].
Defined.

(** C6 as stated fails: a match with a channel id and no name leaves no
    [private-channel-<id>] entry when a later match of the same channel
    carries a name. *)
Lemma placeholder_overwritten_counterexample :
  unnamedIn (matchUnnamed "C1") "C1"
  /\ In (matchUnnamed "C1") [matchUnnamed "C1"; matchIn "C1" "general"]
  /\ forall collate,
      aggregateMentions collate [matchUnnamed "C1"; matchIn "C1" "general"]
      = [ChannelSummary.make "C1" "general"]
      /\ ~ In (ChannelSummary.make "C1" "private-channel-C1")
             (aggregateMentions collate
                [matchUnnamed "C1"; matchIn "C1" "general"]).
Proof.
  split; [exists (Channel.make (Some "C1"%string) None); repeat split|].
  split; [now left|]. intros collate. split; [reflexivity|].
  intros [H|[]]. discriminate H.
Qed.

(** * The webhook poster *)

(** C8. [postToSlack] sends one POST and returns, for every url, text and
    response: it logs the success line when the status code is 200 and
    otherwise the failure line, which carries the status code and the body
    text; nothing but the status code decides between the two, the two
    lines differ, and nothing is thrown or handed back. For status 403 the
    failure line reads [... ステータスコード: 403, レスポンス: <body>]. *)
Theorem postToSlack_by_status (R : Runtime) (webhookUrl text : string)
  (w : World) :
  resultOf (postToSlack R webhookUrl text) w = Returned tt
  /\ requested (after (postToSlack R webhookUrl text) w)
     = requested w ++ [postRequest webhookUrl text]
  /\ logged (after (postToSlack R webhookUrl text) w)
     = logged w
       ++ [if getResponseCode (fetch R (postRequest webhookUrl text)) =? 200
           then "✅ Slack通知の送信に成功しました。"%string
           else
             ("❌ Slack通知の送信に失敗しました。ステータスコード: "
              ^^ showZ (getResponseCode (fetch R (postRequest webhookUrl text)))
              ^^ ", レスポンス: "
              ^^ getContentText (fetch R (postRequest webhookUrl text)))%string]
  /\ projectTriggers (after (postToSlack R webhookUrl text) w)
     = projectTriggers w
  /\ (forall statusCode body,
         postFailureLine statusCode body <> postSuccessLine)
  /\ (forall body,
         postFailureLine 403 body
         = ("❌ Slack通知の送信に失敗しました。ステータスコード: 403, レスポンス: "
            ^^ body)%string).
Proof.
  unfold resultOf, after, postToSlack, bind. rewrite fetch_run.
  split; [|split; [|split; [|split; [|split]]]].
  - destruct (getResponseCode (fetch R (postRequest webhookUrl text)) =? 200);
      now rewrite Logger_log_run.
  - destruct (getResponseCode (fetch R (postRequest webhookUrl text)) =? 200);
      now rewrite Logger_log_run.
  - destruct (getResponseCode (fetch R (postRequest webhookUrl text)) =? 200);
      now rewrite Logger_log_run.
  - destruct (getResponseCode (fetch R (postRequest webhookUrl text)) =? 200);
      now rewrite Logger_log_run.
  - intros statusCode body. unfold postFailureLine, postSuccessLine. cbn.
    discriminate.
  - intros body. reflexivity.
Qed.

Example postToSlack_forbidden :
  postToSlack webhookForbidden "https://hooks.slack.com/services/T/B/X" "hi"
    emptyWorld
  = (Returned tt,
     {| logged := [postFailureLine 403 "invalid_token"];
        requested :=
          [postRequest "https://hooks.slack.com/services/T/B/X" "hi"];
        projectTriggers := [] |}).
Proof. reflexivity. Qed.

Example postToSlack_accepted :
  postToSlack threePages "https://hooks.slack.com/services/T/B/X" "hi"
    emptyWorld
  = (Returned tt,
     {| logged := [postSuccessLine];
        requested :=
          [postRequest "https://hooks.slack.com/services/T/B/X" "hi"];
        projectTriggers := [] |}).
Proof. reflexivity. Qed.

Lemma postToSlack_returns (R : Runtime) (webhookUrl text : string)
  (w : World) :
  exists w',
    postToSlack R webhookUrl text w = (Returned tt, w')
    /\ projectTriggers w' = projectTriggers w
    /\ requested w' = requested w ++ [postRequest webhookUrl text].
Proof.
  unfold postToSlack, bind. rewrite fetch_run.
  destruct (getResponseCode (fetch R (postRequest webhookUrl text)) =? 200);
    rewrite Logger_log_run; eexists; repeat split.
Qed.

(** * The entry function *)

Lemma report_without_secrets (fuel : nat) (R : Runtime) (w : World) :
  secretsPresent R = false ->
  reportYesterdayMentions fuel R w
  = (Returned tt, addLog [missingSettingsLine] w).
Proof.
  unfold secretsPresent, reportYesterdayMentions. intros Hmissing.
  destruct (truthy (getProperty R SLACK_USER_TOKEN_KEY));
    destruct (truthy (getProperty R SLACK_USER_ID_KEY));
    destruct (truthy (getProperty R "SLACK_WEBHOOK_URL_test"%string));
    try discriminate; reflexivity.
Qed.

Lemma report_with_secrets (fuel : nat) (R : Runtime) (w : World) :
  secretsPresent R = true ->
  reportYesterdayMentions fuel R w
  = match searchSlackMessages fuel R (reportToken R) (reportQuery R)
            (addLog [queryLine (reportQuery R)] w) with
    | (Returned [], w') =>
        (Logger_log noMessagesLine ;;
         postToSlack R (reportWebhook R) (notFoundText (formattedYesterday R)))
          w'
    | (Returned (m :: ms), w') =>
        postToSlack R (reportWebhook R)
          (reportText (formattedYesterday R) (m :: ms)
             (aggregateMentions (localeCompare R) (m :: ms))) w'
    | (Threw e, w') => (Threw e, w')
    | (OutOfFuel, w') => (OutOfFuel, w')
    end.
Proof.
  unfold secretsPresent, reportYesterdayMentions. intros Hpresent.
  destruct (truthy (getProperty R SLACK_USER_TOKEN_KEY));
    destruct (truthy (getProperty R SLACK_USER_ID_KEY));
    destruct (truthy (getProperty R "SLACK_WEBHOOK_URL_test"%string));
    try discriminate.
  cbn [negb orb]. unfold bind at 1. rewrite Logger_log_run.
  unfold bind at 1. fold (reportToken R) (reportQuery R) (reportWebhook R).
  destruct (searchSlackMessages fuel R (reportToken R) (reportQuery R)
              (addLog [queryLine (reportQuery R)] w)) as [[[|m ms]|e|] w'];
    reflexivity.
Qed.

(** C7, amended. A run of [reportYesterdayMentions] with a secret missing
    logs one line, sends nothing and returns. A run with the three secrets
    set returns without an exception, whatever the status codes and whatever
    the webhook answers, when each search page the client gets to (the pages
    before it were read and reported more pages) is answered with JSON the
    client can read: a body of the documented shape with [ok: false], or
    with [ok: true], [messages.pagination] and, where the page has matches,
    a [channel] and a [text] on the first. Such a run is not confined to the
    log: also after a refused search it ends with a post to the webhook. *)
Theorem report_outcomes (R : Runtime) (fuel : nat) (w : World) :
  (5 <= fuel)%nat ->
  (secretsPresent R = false ->
   reportYesterdayMentions fuel R w
   = (Returned tt, addLog [missingSettingsLine] w))
  /\ (secretsPresent R = true ->
      (forall p, 1 <= p <= 5 ->
                 (forall q, 1 <= q < p ->
                            readsOn R (reportToken R) (reportQuery R) q) ->
                 pageReadable R (reportToken R) (reportQuery R) p = true) ->
      resultOf (reportYesterdayMentions fuel R) w = Returned tt
      /\ projectTriggers (after (reportYesterdayMentions fuel R) w)
         = projectTriggers w
      /\ exists searches text,
          requested (after (reportYesterdayMentions fuel R) w)
          = requested w ++ searches
            ++ [postRequest (reportWebhook R) text]).
Proof.
  intros Hfuel. split; [apply report_without_secrets|].
  intros Hpresent Hread. unfold resultOf, after.
  rewrite (report_with_secrets fuel R w Hpresent).
  rewrite searchSlackMessages_unfold.
  destruct (searchLoop_total R (reportToken R) (reportQuery R) fuel [] 1
              (addLog [searchStartLine (reportQuery R)]
                 (addLog [queryLine (reportQuery R)] w))
              ltac:(lia) ltac:(lia))
    as (_ & (searches & Hsearches & _) & _).
  destruct (searchLoop_returns R (reportToken R) (reportQuery R) fuel [] 1
              (addLog [searchStartLine (reportQuery R)]
                 (addLog [queryLine (reportQuery R)] w)))
    as (ms & w' & Hrun & Htr); try lia; [exact Hread|].
  rewrite Hrun in Hsearches |- *. cbn [snd] in Hsearches.
  destruct ms as [|m ms].
  - unfold bind. rewrite Logger_log_run.
    destruct (postToSlack_returns R (reportWebhook R)
                (notFoundText (formattedYesterday R))
                (addLog [noMessagesLine] (addLog [completedLine []] w')))
      as (w'' & Hpost & Htr' & Hreq).
    rewrite Hpost. cbn [fst snd]. split; [reflexivity|]. split.
    + rewrite Htr'. cbn. exact Htr.
    + exists searches, (notFoundText (formattedYesterday R)).
      rewrite Hreq. cbn [requested addLog]. rewrite Hsearches.
      now rewrite <- app_assoc.
  - destruct (postToSlack_returns R (reportWebhook R)
                (reportText (formattedYesterday R) (m :: ms)
                   (aggregateMentions (localeCompare R) (m :: ms)))
                (addLog [completedLine (m :: ms)] w'))
      as (w'' & Hpost & Htr' & Hreq).
    rewrite Hpost. cbn [fst snd]. split; [reflexivity|]. split.
    + rewrite Htr'. cbn. exact Htr.
    + eexists searches, _.
      rewrite Hreq. cbn [requested addLog]. rewrite Hsearches.
      now rewrite <- app_assoc.
Qed.

Lemma report_outcomes_witness :
  reportYesterdayMentions 5 unconfigured emptyWorld
  = (Returned tt, addLog [missingSettingsLine] emptyWorld)
  /\ resultOf (reportYesterdayMentions 5 webhookForbidden) emptyWorld
     = Returned tt
  /\ resultOf (reportYesterdayMentions 5 (refused "invalid_auth")) emptyWorld
     = Returned tt.
Proof.
  split; [|split].
  - destruct (report_outcomes unconfigured 5 emptyWorld)
      as [Hmissing _]; [lia|].
    apply Hmissing. reflexivity.
  - destruct (report_outcomes webhookForbidden 5 emptyWorld)
      as [_ Hreturns]; [lia|].
    apply Hreturns; [reflexivity|].
    intros p Hp Hbefore. destruct (Z.eq_dec p 1) as [->|Hne]; [reflexivity|].
    destruct (Hbefore 1 ltac:(lia)) as [_ Hmore].
    vm_compute in Hmore. now destruct Hmore.
  - destruct (report_outcomes (refused "invalid_auth") 5 emptyWorld)
      as [_ Hreturns]; [lia|].
    apply Hreturns; [reflexivity|].
    intros p Hp Hbefore. destruct (Z.eq_dec p 1) as [->|Hne]; [reflexivity|].
    destruct (Hbefore 1 ltac:(lia)) as [Hok _].
    vm_compute in Hok. discriminate Hok.
Defined.

(** C7 as stated fails. A search answered with an HTML error page makes
    [JSON.parse] throw, and the [SyntaxError] leaves the entry function. And
    a failure is not always confined to the log: a search refused with
    ['invalid_auth'] ends in the not-found text being posted to the
    webhook. *)
Lemma report_throws_counterexample :
  secretsPresent gatewayError = true
  /\ fetch gatewayError (searchRequest "xoxp-1" sampleQuery 1)
     = textResponse 502 "<html><body>502 Bad Gateway</body></html>"
  /\ resultOf (reportYesterdayMentions 5 gatewayError) emptyWorld
     = Threw SyntaxError
  /\ resultOf (reportYesterdayMentions 5 (refused "invalid_auth")) emptyWorld
     = Returned tt
  /\ requested
       (after (reportYesterdayMentions 5 (refused "invalid_auth")) emptyWorld)
     = [searchRequest "xoxp-1" sampleQuery 1;
        postRequest "https://hooks.slack.com/services/T/B/X"
          (notFoundText "2024-01-01")].
Proof. by_running. Qed.

(** * The schedule manager *)

Lemma filter_twice {A : Type} (f g : A -> bool) (l : list A) :
  filter f (filter g l) = filter (fun x => g x && f x) l.
Proof.
  induction l as [|x rest IH]; cbn; [reflexivity|].
  destruct (g x); cbn; [destruct (f x)|]; now rewrite IH.
Qed.

Lemma filter_all {A : Type} (f : A -> bool) (l : list A) :
  Forall (fun x => f x = true) l -> filter f l = l.
Proof.
  induction 1 as [|x rest Hx _ IH]; cbn; [reflexivity|].
  now rewrite Hx, IH.
Qed.

Lemma setTriggers_same (w : World) : setTriggers (projectTriggers w) w = w.
Proof. now destruct w. Qed.

(** The deleting [forEach] leaves the triggers that share no identity with
    a trigger of the snapshot bound to the target handler. *)
Lemma forEach_delete (ts : list Trigger) :
  forall w,
    forEach
      (fun t =>
         if String.eqb (getHandlerFunction t) targetHandler
         then ScriptApp_deleteTrigger t
         else ret tt) ts w
    = (Returned tt,
       setTriggers
         (filter (fun u => negb (condemned ts u)) (projectTriggers w)) w).
Proof.
  induction ts as [|t rest IH]; intros w.
  - cbn. rewrite filter_all, setTriggers_same; [reflexivity|].
    apply Forall_forall. reflexivity.
  - cbn [forEach]. unfold bind.
    fold (isTarget t). destruct (isTarget t) eqn:Ht.
    + unfold ScriptApp_deleteTrigger. rewrite IH. cbn.
      rewrite filter_twice. unfold setTriggers. cbn. do 2 f_equal.
      apply filter_ext. intros u. unfold condemned. cbn [existsb].
      rewrite Ht. cbn. now rewrite negb_orb.
    + unfold ret. rewrite IH. do 2 f_equal.
      apply filter_ext. intros u. unfold condemned. cbn [existsb].
      now rewrite Ht.
Qed.

(** The triggers [setDailyMentionTrigger] leaves in place. *)
Lemma setDailyMentionTrigger_run (w : World) :
  setDailyMentionTrigger w
  = (Returned tt,
     addLog [triggerInstalledLine]
       (setTriggers
          (filter (fun u => negb (condemned (projectTriggers w) u))
             (projectTriggers w)
           ++ [dailyTrigger
                 (filter (fun u => negb (condemned (projectTriggers w) u))
                    (projectTriggers w))]) w)).
Proof.
  unfold setDailyMentionTrigger, bind, ScriptApp_getProjectTriggers.
  rewrite forEach_delete. reflexivity.
Qed.

Lemma kept_not_target (ts : list Trigger) :
  Forall (fun u => isTarget u = false)
    (filter (fun u => negb (condemned ts u)) ts).
Proof.
  apply Forall_forall. intros u Hu. apply filter_In in Hu as [Hin Hkeep].
  destruct (isTarget u) eqn:Htarget; [|reflexivity].
  assert (Hc : condemned ts u = true).
  { apply existsb_exists. exists u. split; [exact Hin|].
    now rewrite Htarget, Nat.eqb_refl. }
  now rewrite Hc in Hkeep.
Qed.

Lemma condemned_none (ts : list Trigger) (u : Trigger) :
  Forall (fun t => isTarget t = false) ts -> condemned ts u = false.
Proof.
  induction 1 as [|t rest Ht _ IH]; [reflexivity|].
  unfold condemned in *. cbn [existsb]. now rewrite Ht, IH.
Qed.

Lemma filter_target_none (ts : list Trigger) :
  Forall (fun t => isTarget t = false) ts -> filter isTarget ts = [].
Proof.
  induction 1 as [|t rest Ht _ IH]; cbn; [reflexivity|]. now rewrite Ht.
Qed.

(** Installing again over what an installation left changes nothing. *)
Lemma reinstall_keeps (kept : list Trigger) :
  Forall (fun t => isTarget t = false) kept ->
  filter (fun u => negb (condemned (kept ++ [dailyTrigger kept]) u))
    (kept ++ [dailyTrigger kept])
  = kept.
Proof.
  intros Hkept. rewrite filter_app.
  assert (Hc : forall u,
             condemned (kept ++ [dailyTrigger kept]) u
             = Nat.eqb (getUniqueId u) (getUniqueId (dailyTrigger kept))).
  { intros u. unfold condemned. rewrite existsb_app.
    fold (condemned kept u). rewrite (condemned_none kept u Hkept).
    cbn. now rewrite orb_false_r. }
  rewrite (filter_all _ kept).
  - cbn [filter]. rewrite Hc, Nat.eqb_refl. cbn. apply app_nil_r.
  - apply Forall_forall. intros u Hu. rewrite Hc.
    apply negb_true_iff, Nat.eqb_neq. cbn.
    assert (getUniqueId u <= list_max (map getUniqueId kept))%nat; [|lia].
    pose proof (proj1 (list_max_le (map getUniqueId kept)
                         (list_max (map getUniqueId kept)))
                  (Nat.le_refl _)) as Hall.
    rewrite Forall_forall in Hall. apply Hall. now apply in_map.
Qed.

Lemma installTimes_S (n : nat) (w : World) :
  installTimes (S n) w = after setDailyMentionTrigger (installTimes n w).
Proof. reflexivity. Qed.

(** C9. [setDailyMentionTrigger] leaves none of the installed triggers
    whose handler is named "reportYesterdayMentions" and adds one trigger
    for the handler of that name, daily at hour 8: from every starting
    list, after one call and after any further number of calls, exactly one
    trigger has that handler name, and a further call leaves the list of
    triggers (handlers and schedules) as it is. *)
Theorem one_daily_trigger (w : World) (n : nat) :
  resultOf setDailyMentionTrigger w = Returned tt
  /\ (exists kept,
         projectTriggers (after setDailyMentionTrigger w)
         = kept
           ++ [{| getUniqueId := S (list_max (map getUniqueId kept));
                  getHandlerFunction := "reportYesterdayMentions";
                  getSchedule := Daily 8 1 |}]
         /\ incl kept (projectTriggers w)
         /\ Forall
              (fun t =>
                 String.eqb (getHandlerFunction t) "reportYesterdayMentions"
                 = false)
              kept)
  /\ (exists t,
         filter
           (fun u =>
              String.eqb (getHandlerFunction u) "reportYesterdayMentions")
           (projectTriggers (installTimes (S n) w))
         = [t]
         /\ getHandlerFunction t = "reportYesterdayMentions"%string
         /\ getSchedule t = Daily 8 1)
  /\ length
       (filter
          (fun u =>
             String.eqb (getHandlerFunction u) "reportYesterdayMentions")
          (projectTriggers (installTimes (S n) w)))
     = 1%nat
  /\ map shape (projectTriggers (installTimes (S (S n)) w))
     = map shape (projectTriggers (installTimes (S n) w)).
Proof.
  assert (Hone : forall v,
             exists kept,
               projectTriggers (after setDailyMentionTrigger v)
               = kept ++ [dailyTrigger kept]
               /\ incl kept (projectTriggers v)
               /\ Forall (fun t => isTarget t = false) kept).
  { intros v. unfold after. rewrite setDailyMentionTrigger_run. cbn.
    eexists. split; [reflexivity|]. split; [|apply kept_not_target].
    intros u Hu. now apply filter_In in Hu. }
  split; [unfold resultOf; now rewrite setDailyMentionTrigger_run|].
  split; [exact (Hone w)|].
  rewrite !installTimes_S.
  destruct (Hone (installTimes n w)) as (kept & Hkept & _ & Hnone).
  assert (Htargets : targetTriggers
                       (after setDailyMentionTrigger (installTimes n w))
                     = [dailyTrigger kept]).
  { unfold targetTriggers. rewrite Hkept, filter_app.
    now rewrite (filter_target_none kept Hnone). }
  split; [|split].
  - exists (dailyTrigger kept).
    split; [exact Htargets|split; reflexivity].
  - exact (f_equal (@length Trigger) Htargets).
  - f_equal. unfold after at 1. rewrite setDailyMentionTrigger_run. cbn.
    rewrite Hkept, (reinstall_keeps kept Hnone). reflexivity.
Qed.

Example install_over_stale_triggers :
  let stale :=
    {| logged := [];
       requested := [];
       projectTriggers :=
         [{| getUniqueId := 4; getHandlerFunction := targetHandler;
             getSchedule := Daily 8 1 |};
          {| getUniqueId := 7; getHandlerFunction := "sendSlackNotification";
             getSchedule := EveryMinutes 5 |};
          {| getUniqueId := 9; getHandlerFunction := targetHandler;
             getSchedule := Daily 8 1 |}] |} in
  map shape (projectTriggers (installTimes 1 stale))
  = [("sendSlackNotification"%string, EveryMinutes 5);
     ("reportYesterdayMentions"%string, Daily 8 1)]
  /\ projectTriggers (installTimes 2 stale)
     = projectTriggers (installTimes 1 stale).
Proof. split; reflexivity. Qed.

(** * The runs of the search loop *)

Ltac shape_side :=
  first
    [ lia
    | discriminate
    | reflexivity
    | cbn; rewrite ?Z.add_0_r, ?app_nil_r, <- ?app_assoc; reflexivity ].

Section SearchRunFacts.
Context (R : Runtime) (token query : string).

(** One pass over a page answered with [ok: true] but not of the expected
    shape, with what it logs before it throws. *)
Lemma searchLoop_misshapen_step (fuel : nat) (acc : list Match.t) (page : Z)
  (w : World) (j : SearchJson) :
  pageJson R token query page = Some j ->
  ok j = true ->
  wellShaped j = false ->
  searchLoop (S fuel) R token query acc page w
  = (Threw TypeError,
     addLog (partialLines page j)
       (addRequests [searchRequest token query page] w)).
Proof.
  unfold pageJson. intros Hj Hok Hshape.
  destruct j as [okb err msgs]; cbn in Hok; subst okb.
  unfold wellShaped, paginationIn, foundIn in Hshape; cbn in Hshape.
  cbn [searchLoop]. unfold bind at 1. rewrite fetch_run.
  unfold bind at 1, JSON_parse. rewrite Hj. unfold ret at 1.
  unfold partialLines, sampleLines, foundIn. cbn.
  destruct msgs as [[ms pg]|];
    [destruct pg as [pg|]; destruct ms as [[|[[ch|] [txt|]] rest]|];
     try discriminate Hshape|];
    destruct (page =? 1); unfold bind, deref, ret, throw; cbn;
    f_equal; world_eq.
Qed.

(** The loop ends in one of the ways of [SearchRun]. *)
Lemma searchLoop_run (fuel : nat) :
  forall (acc : list Match.t) (page : Z) (w : World),
    page <= 5 -> 6 - page <= Z.of_nat fuel ->
    SearchRun R token query page acc w
      (fst (searchLoop fuel R token query acc page w))
      (snd (searchLoop fuel R token query acc page w)).
Proof.
  induction fuel as [|fuel IH]; intros acc page w Hpage Hfuel; [lia|].
  destruct (pageJson R token query page) as [j|] eqn:Hj.
  - destruct (ok j) eqn:Hok.
    + destruct (wellShaped j) eqn:Hshape.
      * assert (Hgood : pageOk R token query page = true)
          by (unfold pageOk; now rewrite Hj, Hok, Hshape).
        rewrite (searchLoop_ok_step R token query _ _ _ _ Hgood). cbv zeta.
        destruct (page + 1 >? 5) eqn:Hcap;
          [apply RunCapped; [exact Hgood|lia]|].
        destruct (page + 1 <=? pageCountOf R token query page) eqn:Hmore.
        -- apply RunNext; [exact Hgood|lia|lia|]. apply IH; lia.
        -- apply RunExhausted; [exact Hgood|lia|lia].
      * rewrite (searchLoop_misshapen_step _ _ _ _ j Hj Hok Hshape).
        now apply RunMisshapen.
    + rewrite (searchLoop_error_step R token query _ _ _ _ j Hj Hok).
      now apply RunRefused.
  - rewrite (searchLoop_syntax_step R token query _ _ _ _ Hj).
    now apply RunNotJson.
Qed.

Lemma pageOk_json (page : Z) :
  pageOk R token query page = true ->
  exists j, pageJson R token query page = Some j
            /\ ok j = true /\ wellShaped j = true.
Proof.
  unfold pageOk. destruct (pageJson R token query page) as [j|];
    [|discriminate].
  intros H. apply andb_true_iff in H. now exists j.
Qed.

Lemma pageOk_readable (page : Z) :
  pageOk R token query page = true -> pageReadable R token query page = true.
Proof.
  intros H. destruct (pageOk_json page H) as (j & Hj & Hok & Hshape).
  unfold pageReadable. rewrite Hj, Hshape. apply orb_true_r.
Qed.

Lemma pageRange_S (page : Z) (k : nat) :
  pageRange page (S k) = page :: pageRange (page + 1) k.
Proof.
  unfold pageRange. cbn [seq map]. f_equal; [lia|].
  rewrite <- seq_shift, map_map. apply map_ext. intros i. lia.
Qed.

Lemma pageRange_first (k : nat) : pageRange 1 k = pagesFrom 1 k.
Proof.
  unfold pageRange, pagesFrom. rewrite <- seq_shift, map_map.
  apply map_ext. intros i. lia.
Qed.

Lemma pageRange_In (page p : Z) (k : nat) :
  In p (pageRange page k) <-> page <= p < page + Z.of_nat k.
Proof.
  unfold pageRange. rewrite in_map_iff. split.
  - intros (i & <- & Hi). apply in_seq in Hi. lia.
  - intros Hp. exists (Z.to_nat (p - page)). split; [lia|].
    apply in_seq. lia.
Qed.

(** What every run has: the requests it sent are those of [k] pages in a
    row, from [page] on, and its log only grew. Where it returned, it
    returned what was collected, followed by the matches of the pages
    answered with [ok: true]. *)
Lemma SearchRun_shape (page : Z) (acc : list Match.t) (w : World)
  (r : Result (list Match.t)) (w' : World) :
  SearchRun R token query page acc w r w' ->
  page <= 5 ->
  exists (k : nat) (ls : list string),
    (1 <= k)%nat /\ page + Z.of_nat k <= 6
    /\ requested w' = requested w ++ requestsFor token query (pageRange page k)
    /\ logged w' = logged w ++ ls
    /\ projectTriggers w' = projectTriggers w
    /\ r <> OutOfFuel
    /\ forall ms,
        r = Returned ms ->
        exists n : nat,
          (n <= k)%nat
          /\ ms = acc ++ matchesOf R token query (pageRange page n)
          /\ forall p, In p (pageRange page n) ->
                       pageOk R token query p = true.
Proof.
  induction 1 as [page acc w Hj | page acc w j Hj Hok
                 | page acc w j Hj Hok Hshape | page acc w Hgood Hcap
                 | page acc w Hgood Hcap Hlast
                 | page acc w r w' Hgood Hcap Hmore Hrun IH]; intros Hpage.
  - exists 1%nat, []. repeat split; try solve [shape_side].
  - exists 1%nat, (failureLines (error j)).
    repeat split; try solve [shape_side].
    intros ms [= <-]. exists 0%nat. repeat split; [lia| |intros p []].
    cbn. now rewrite app_nil_r.
  - exists 1%nat, (partialLines page j).
    repeat split; try solve [shape_side].
  - exists 1%nat, (pageLog R token query page ++ [pageLimitLine]).
    repeat split; try solve [shape_side].
    intros ms [= <-]. exists 1%nat. repeat split; [lia| |].
    + unfold matchesOf. cbn. now rewrite Z.add_0_r, app_nil_r.
    + intros p Hp. apply pageRange_In in Hp.
      now replace p with page by lia.
  - exists 1%nat, (pageLog R token query page).
    repeat split; try solve [shape_side].
    intros ms [= <-]. exists 1%nat. repeat split; [lia| |].
    + unfold matchesOf. cbn. now rewrite Z.add_0_r, app_nil_r.
    + intros p Hp. apply pageRange_In in Hp.
      now replace p with page by lia.
  - destruct (IH ltac:(lia))
      as (k & ls & Hk & Hbound & Hreq & Hlog & Htr & Hfuel & Hres).
    exists (S k), (pageLog R token query page ++ ls).
    rewrite pageRange_S. split; [lia|]. split; [lia|].
    split; [rewrite Hreq; cbn; now rewrite <- app_assoc|].
    split; [rewrite Hlog; cbn; now rewrite app_nil_r, <- app_assoc|].
    split; [exact Htr|]. split; [exact Hfuel|].
    intros ms Hms. destruct (Hres ms Hms) as (n & Hn & Hacc & Hall).
    exists (S n). rewrite pageRange_S. repeat split; [lia| |].
    + rewrite Hacc, matchesOf_cons, <- app_assoc. reflexivity.
    + intros p [<-|Hp]; [exact Hgood|now apply Hall].
Qed.
End SearchRunFacts.




Section SearchRunWarnings.
Context (R : Runtime) (token query : string).



(** A run that returns got JSON it could read on every page it came to. *)
Lemma SearchRun_returned_readable (page : Z) (acc : list Match.t) (w : World)
  (r : Result (list Match.t)) (w' : World) :
  SearchRun R token query page acc w r w' ->
  (exists ms, r = Returned ms) ->
  forall p, page <= p <= 5 ->
            (forall q, page <= q < p -> readsOn R token query q) ->
            pageReadable R token query p = true.
Proof.
  induction 1 as [page acc w Hj | page acc w j Hj Hok
                 | page acc w j Hj Hok Hshape | page acc w Hgood Hcap
                 | page acc w Hgood Hcap Hlast
                 | page acc w r w' Hgood Hcap Hmore Hrun IH];
    intros [ms Hms] p Hp Hbefore; try discriminate Hms.
  - destruct (Z.eq_dec p page) as [->|Hne].
    + unfold pageReadable. now rewrite Hj, Hok.
    + destruct (Hbefore page ltac:(lia)) as [Hgood _].
      destruct (pageOk_json R token query page Hgood) as (j' & Hj' & Hok' & _).
      congruence.
  - assert (p = page) as -> by lia. now apply pageOk_readable.
  - destruct (Z.eq_dec p page) as [->|Hne]; [now apply pageOk_readable|].
    destruct (Hbefore page ltac:(lia)) as [_ Hmore]. lia.
  - destruct (Z.eq_dec p page) as [->|Hne]; [now apply pageOk_readable|].
    apply IH; [now exists ms|lia|]. intros q Hq. apply Hbefore. lia.
Qed.
End SearchRunWarnings.

(** Requests of different pages differ. *)
Lemma searchRequest_distinct (token query : string) (p q : Z) :
  1 <= p <= 5 -> 1 <= q <= 5 ->
  searchRequest token query p = searchRequest token query q -> p = q.
Proof.
  intros Hp Hq H. apply searchRequest_page in H.
  each_page p Hp; each_page q Hq; vm_compute in H;
    first [reflexivity | discriminate H].
Qed.

Lemma requests_NoDup (token query : string) (k : nat) :
  (k <= 5)%nat -> NoDup (requestsFor token query (pagesFrom 1 k)).
Proof.
  intros Hk. unfold requestsFor, pagesFrom.
  apply NoDup_map_NoDup_ForallPairs.
  - intros p q Hp Hq. apply in_map_iff in Hp as (i & <- & Hi).
    apply in_map_iff in Hq as (i' & <- & Hi').
    apply in_seq in Hi, Hi'. apply searchRequest_distinct; lia.
  - apply NoDup_map_NoDup_ForallPairs; [|apply seq_NoDup].
    intros a b _ _. apply Nat2Z.inj.
Qed.

(** * Further properties of the search client *)

Lemma search_top_run (R : Runtime) (token query : string) (fuel : nat)
  (w : World) :
  (5 <= fuel)%nat ->
  SearchRun R token query 1 [] (addLog [searchStartLine query] w)
    (fst (searchLoop fuel R token query [] 1
            (addLog [searchStartLine query] w)))
    (snd (searchLoop fuel R token query [] 1
            (addLog [searchStartLine query] w))).
Proof. intros Hfuel. apply searchLoop_run; lia. Qed.

(** X1. Whatever the remote side answers, the requests [searchSlackMessages]
    sends are those of pages 1, 2, ..., k in this order, for some k between
    1 and 5: at least one request, no page skipped, no request sent
    twice. *)
Theorem search_requests_consecutive (R : Runtime) (token query : string)
  (fuel : nat) (w : World) :
  (5 <= fuel)%nat ->
  exists k : nat,
    (1 <= k <= 5)%nat
    /\ requested (after (searchSlackMessages fuel R token query) w)
       = requested w ++ requestsFor token query (pagesFrom 1 k)
    /\ NoDup (requestsFor token query (pagesFrom 1 k)).
Proof.
  intros Hfuel. unfold after. rewrite searchSlackMessages_unfold.
  destruct (SearchRun_shape R token query _ _ _ _ _
              (search_top_run R token query fuel w Hfuel) ltac:(lia))
    as (k & ls & Hk & Hbound & Hreq & _).
  rewrite pageRange_first in Hreq.
  exists k. split; [lia|]. split; [|apply requests_NoDup; lia].
  destruct (searchLoop fuel R token query [] 1
              (addLog [searchStartLine query] w)) as [[ms|e|] w'];
    cbn [fst snd] in *; exact Hreq.
Qed.

Lemma search_requests_consecutive_witness :
  exists k : nat,
    (1 <= k <= 5)%nat
    /\ requested
         (after (searchSlackMessages 5 gatewayError "xoxp-1" sampleQuery)
            emptyWorld)
       = requested emptyWorld
         ++ requestsFor "xoxp-1" sampleQuery (pagesFrom 1 k)
    /\ NoDup (requestsFor "xoxp-1" sampleQuery (pagesFrom 1 k)).
Proof.
  apply (search_requests_consecutive gatewayError "xoxp-1" sampleQuery 5
           emptyWorld).
  lia.
Defined.





(** X4. Over bodies that are no JSON or JSON of the documented shape,
    [searchSlackMessages] returns, rather than throws, exactly when every
    page it gets to is answered with JSON it can read: [ok: false], or
    [ok: true] with [messages.pagination] and, where the page has matches,
    a [channel] and a [text] on the first. *)
Theorem search_returns_iff_readable (R : Runtime) (token query : string)
  (fuel : nat) (w : World) :
  (5 <= fuel)%nat ->
  ((exists ms,
       resultOf (searchSlackMessages fuel R token query) w = Returned ms)
   <-> allReadable R token query).
Proof.
  intros Hfuel. unfold resultOf. rewrite searchSlackMessages_unfold. split.
  - intros [ms Hms].
    pose proof (search_top_run R token query fuel w Hfuel) as Hrun.
    destruct (searchLoop fuel R token query [] 1
                (addLog [searchStartLine query] w)) as [[ms'|e|] w'];
      cbn [fst snd] in *; try discriminate.
    intros p Hp Hbefore.
    apply (SearchRun_returned_readable R token query _ _ _ _ _ Hrun);
      [now exists ms'|lia|exact Hbefore].
  - intros Hread.
    destruct (searchLoop_returns R token query fuel [] 1
                (addLog [searchStartLine query] w))
      as (ms & w' & Hrun & _); try lia; [exact Hread|].
    rewrite Hrun. now exists ms.
Qed.

Lemma search_returns_iff_readable_witness :
  allReadable threePages "xoxp-1" sampleQuery.
Proof.
  apply (search_returns_iff_readable threePages "xoxp-1" sampleQuery 5
           emptyWorld); [lia|].
  eexists. reflexivity.
Defined.



Section TokenBlind.
Context (R : Runtime) (token token' query : string).
Hypothesis same_answers :
  forall p, fetch R (searchRequest token query p)
            = fetch R (searchRequest token' query p).

Lemma token_blind_json (p : Z) :
  pageJson R token' query p = pageJson R token query p.
Proof. unfold pageJson. now rewrite same_answers. Qed.

Lemma token_blind_pages (p : Z) :
  pageOk R token' query p = pageOk R token query p
  /\ pageFound R token' query p = pageFound R token query p
  /\ pageCountOf R token' query p = pageCountOf R token query p
  /\ pageLog R token' query p = pageLog R token query p.
Proof.
  unfold pageOk, pageFound, pageCountOf, pageLog.
  now rewrite token_blind_json.
Qed.

Lemma searchLoop_token_blind (fuel : nat) :
  forall (acc : list Match.t) (page : Z) (w v : World),
    logged w = logged v ->
    fst (searchLoop fuel R token query acc page w)
    = fst (searchLoop fuel R token' query acc page v)
    /\ logged (snd (searchLoop fuel R token query acc page w))
       = logged (snd (searchLoop fuel R token' query acc page v)).
Proof.
  induction fuel as [|fuel IH]; intros acc page w v Hlog;
    [split; [reflexivity|exact Hlog]|].
  destruct (token_blind_pages page) as (Hok' & Hfound' & Hcount' & Hlog').
  pose proof (token_blind_json page) as Hjson'.
  destruct (pageJson R token query page) as [j|] eqn:Hj.
  - destruct (ok j) eqn:Hok.
    + destruct (wellShaped j) eqn:Hshape.
      * assert (Hgood : pageOk R token query page = true)
          by (unfold pageOk; now rewrite Hj, Hok, Hshape).
        rewrite (searchLoop_ok_step R token query _ _ _ _ Hgood).
        rewrite (searchLoop_ok_step R token' query fuel acc page v)
          by congruence.
        cbv zeta. rewrite Hfound', Hcount'.
        assert (Hnext : logged (fetched R token query [page] w)
                        = logged (fetched R token' query [page] v))
          by (cbn; now rewrite Hlog, Hlog').
        destruct (page + 1 >? 5);
          [split; [reflexivity|cbn; now rewrite Hlog, Hlog']|].
        destruct (page + 1 <=? pageCountOf R token query page);
          [now apply IH|split; [reflexivity|exact Hnext]].
      * rewrite (searchLoop_misshapen_step R token query _ _ _ _ j Hj Hok
                   Hshape).
        rewrite (searchLoop_misshapen_step R token' query fuel acc page v j)
          by congruence.
        split; [reflexivity|cbn; now rewrite Hlog].
    + rewrite (searchLoop_error_step R token query _ _ _ _ j Hj Hok).
      rewrite (searchLoop_error_step R token' query fuel acc page v j)
        by congruence.
      split; [reflexivity|cbn; now rewrite Hlog].
  - rewrite (searchLoop_syntax_step R token query _ _ _ _ Hj).
    rewrite (searchLoop_syntax_step R token' query fuel acc page v)
      by congruence.
    split; [reflexivity|exact Hlog].
Qed.
End TokenBlind.

(** X6. The client itself puts the credential nowhere but into the
    requests it sends: two calls of [searchSlackMessages] that differ in the
    token and are given the same answers return the same and log the same
    lines. What is returned and logged depends on the token only through
    what the remote side answers. *)
Theorem token_only_through_answers (R : Runtime)
  (token token' query : string) (fuel : nat) (w : World) :
  (forall p, fetch R (searchRequest token query p)
             = fetch R (searchRequest token' query p)) ->
  resultOf (searchSlackMessages fuel R token query) w
  = resultOf (searchSlackMessages fuel R token' query) w
  /\ logged (after (searchSlackMessages fuel R token query) w)
     = logged (after (searchSlackMessages fuel R token' query) w).
Proof.
  intros Hsame. unfold resultOf, after. rewrite !searchSlackMessages_unfold.
  destruct (searchLoop_token_blind R token token' query Hsame fuel [] 1
              (addLog [searchStartLine query] w)
              (addLog [searchStartLine query] w) eq_refl) as [Hres Hlog].
  destruct (searchLoop fuel R token query [] 1
              (addLog [searchStartLine query] w)) as [r1 w1].
  destruct (searchLoop fuel R token' query [] 1
              (addLog [searchStartLine query] w)) as [r2 w2].
  cbn [fst snd] in *. subst r2.
  destruct r1 as [ms|e|]; cbn; rewrite ?Hlog; split; reflexivity.
Qed.

Lemma token_only_through_answers_witness :
  logged (after (searchSlackMessages 5 threePages "xoxp-1" sampleQuery)
            emptyWorld)
  = logged (after (searchSlackMessages 5 threePages "xoxp-other" sampleQuery)
              emptyWorld).
Proof.
  apply (token_only_through_answers threePages "xoxp-1" "xoxp-other"
           sampleQuery 5 emptyWorld).
  intros p. reflexivity.
Defined.

(** * Further properties of the aggregator *)

Lemma idsOf_length (messages : list Match.t) :
  (length (idsOf messages) <= length messages)%nat.
Proof.
  induction messages as [|m rest IH]; [reflexivity|].
  rewrite idsOf_cons. destruct (summaryOf m); cbn [length]; lia.
Qed.

Lemma idsOf_perm_In (ms1 ms2 : list Match.t) (i : string) :
  Permutation ms1 ms2 -> In i (idsOf ms1) -> In i (idsOf ms2).
Proof.
  intros Hperm Hin. apply idsOf_In in Hin as (m & s & Hm & Hs & Hid).
  apply idsOf_In. exists m, s. split; [|now split].
  now apply (Permutation_in _ Hperm).
Qed.

Lemma aggregate_ids (collate : string -> string -> Z)
  (messages : list Match.t) :
  NoDup (map ChannelSummary.id (aggregateMentions collate messages))
  /\ forall i,
      In i (map ChannelSummary.id (aggregateMentions collate messages))
      <-> In i (idsOf messages).
Proof.
  assert (Hids : Permutation
                   (map ChannelSummary.id (aggregateMentions collate messages))
                   (map fst (buildChannelMap messages))).
  { rewrite <- toSummary_ids. apply Permutation_map, aggregate_perm. }
  split.
  - apply (Permutation_NoDup (Permutation_sym Hids)).
    apply buildChannelMap_NoDup.
  - intros i. split.
    + intros H. apply (Permutation_in _ Hids) in H.
      apply (fold_keys messages i []) in H. now destruct H as [[]|H].
    + intros H. apply (Permutation_in _ (Permutation_sym Hids)).
      apply (fold_keys messages i []). now right.
Qed.

(** X7. Which channels are reported, and how many, does not depend on the
    order of the matches: for inputs that are permutations of one another
    the outputs list the same channel ids, each once. (The names and the
    order of the entries may differ.) *)
Theorem channels_independent_of_order (collate : string -> string -> Z)
  (ms1 ms2 : list Match.t) :
  Permutation ms1 ms2 ->
  Permutation (map ChannelSummary.id (aggregateMentions collate ms1))
    (map ChannelSummary.id (aggregateMentions collate ms2))
  /\ length (aggregateMentions collate ms1)
     = length (aggregateMentions collate ms2).
Proof.
  intros Hperm.
  destruct (aggregate_ids collate ms1) as [Hnd1 Hin1].
  destruct (aggregate_ids collate ms2) as [Hnd2 Hin2].
  assert (Hids : Permutation
                   (map ChannelSummary.id (aggregateMentions collate ms1))
                   (map ChannelSummary.id (aggregateMentions collate ms2))).
  { apply NoDup_Permutation; [exact Hnd1|exact Hnd2|].
    intros i. rewrite Hin1, Hin2. split; apply idsOf_perm_In;
      [exact Hperm|now apply Permutation_sym]. }
  split; [exact Hids|].
  apply Permutation_length in Hids. now rewrite !length_map in Hids.
Qed.

Lemma channels_independent_of_order_witness :
  Permutation
    (map ChannelSummary.id
       (aggregateMentions codeUnitCompare
          [matchIn "1" "a"; matchIn "1" "b"; matchIn "2" "a"]))
    (map ChannelSummary.id
       (aggregateMentions codeUnitCompare
          [matchIn "2" "a"; matchIn "1" "b"; matchIn "1" "a"])).
Proof.
  apply (channels_independent_of_order codeUnitCompare
           [matchIn "1" "a"; matchIn "1" "b"; matchIn "2" "a"]
           [matchIn "2" "a"; matchIn "1" "b"; matchIn "1" "a"]).
  apply (Permutation_rev [matchIn "1" "a"; matchIn "1" "b"; matchIn "2" "a"]).
Defined.

(** X8. [aggregateMentions] invents nothing: every entry of its output
    carries the channel id of some input match, which is not empty, and as
    name either the non-empty channel name of that match or
    [private-channel-<id>]; and the output has at most as many entries as
    the input has matches. *)
Theorem entries_come_from_matches (collate : string -> string -> Z)
  (messages : list Match.t) :
  (forall s,
      In s (aggregateMentions collate messages) ->
      exists m ch,
        In m messages
        /\ Match.channel m = Some ch
        /\ Channel.id ch = Some (ChannelSummary.id s)
        /\ ChannelSummary.id s <> EmptyString
        /\ (Channel.name ch = Some (ChannelSummary.name s)
            \/ ChannelSummary.name s
               = ("private-channel-" ^^ ChannelSummary.id s)%string))
  /\ (length (aggregateMentions collate messages) <= length messages)%nat.
Proof.
  split.
  - intros s Hin. destruct (entry_origin collate messages s Hin) as (m & Hm & Hs).
    unfold summaryOf, channelIdOf, channelName in Hs.
    destruct (Match.channel m) as [ch|] eqn:Hch; [|discriminate].
    exists m, ch. split; [exact Hm|]. split; [exact Hch|]. clear Hch.
    destruct ch as [[[|c i]|] [[|d n]|]]; cbn in Hs; try discriminate;
      injection Hs as <-; cbn; repeat split; try discriminate; auto.
  - destruct (aggregate_ids collate messages) as [Hnd Hin].
    rewrite <- (length_map ChannelSummary.id).
    etransitivity; [|apply idsOf_length].
    apply NoDup_incl_length; [exact Hnd|].
    intros i Hi. now apply Hin.
Qed.

Lemma entries_come_from_matches_witness :
  exists m ch,
    In m [matchIn "C2" "random"; matchUnnamed "G7"]
    /\ Match.channel m = Some ch
    /\ Channel.id ch = Some "G7"%string
    /\ "G7"%string <> EmptyString
    /\ (Channel.name ch = Some "private-channel-G7"%string
        \/ "private-channel-G7"%string = "private-channel-G7"%string).
Proof.
  destruct (entries_come_from_matches codeUnitCompare
              [matchIn "C2" "random"; matchUnnamed "G7"]) as [Hfrom _].
  apply (Hfrom (ChannelSummary.make "G7" "private-channel-G7")).
  left. reflexivity.
Defined.

Lemma mapSet_same (key value : string) (m : list (string * string)) :
  mapGet key m = Some value -> mapSet key value m = m.
Proof.
  induction m as [|[k v] rest IH]; cbn; [discriminate|].
  destruct (String.eqb_spec k key) as [->|Hne].
  - now intros [= ->].
  - intros H. now rewrite IH.
Qed.

(** X9. One more match of a channel that is already listed under the name
    the match carries changes nothing: the output for the input with that
    match added at the end is the output for the input without it. *)
Theorem repeated_mention_changes_nothing (collate : string -> string -> Z)
  (messages : list Match.t) (m : Match.t) (s : ChannelSummary.t) :
  summaryOf m = Some s ->
  In s (aggregateMentions collate messages) ->
  aggregateMentions collate (messages ++ [m])
  = aggregateMentions collate messages.
Proof.
  intros Hs Hin. apply aggregate_In in Hin.
  apply mapGet_In in Hin; [|apply buildChannelMap_NoDup].
  unfold aggregateMentions, buildChannelMap in *.
  rewrite fold_left_app. cbn [fold_left].
  rewrite recordChannel_summary, Hs. now rewrite (mapSet_same _ _ _ Hin).
Qed.

Lemma repeated_mention_changes_nothing_witness :
  aggregateMentions codeUnitCompare
    ([matchIn "C2" "random"; matchUnnamed "G7"] ++ [matchUnnamed "G7"])
  = aggregateMentions codeUnitCompare [matchIn "C2" "random"; matchUnnamed "G7"].
Proof.
  apply (repeated_mention_changes_nothing codeUnitCompare
           [matchIn "C2" "random"; matchUnnamed "G7"] (matchUnnamed "G7")
           (ChannelSummary.make "G7" "private-channel-G7")).
  - reflexivity.
  - left. reflexivity.
Defined.

(** * Further properties of the entry function *)

(** X10. A refused search cannot be told from a day without mentions at the
    webhook: when page 1 is answered with [ok: false], and likewise when it
    is answered with [ok: true], no match and no further page, the run
    sends the request of page 1 and then posts the not-found text, and
    returns. *)
Theorem refusal_posts_not_found (R : Runtime) (fuel : nat) (w : World) :
  (5 <= fuel)%nat ->
  secretsPresent R = true ->
  (exists j, pageJson R (reportToken R) (reportQuery R) 1 = Some j
             /\ ok j = false)
  \/ (pageOk R (reportToken R) (reportQuery R) 1 = true
      /\ pageFound R (reportToken R) (reportQuery R) 1 = []
      /\ pageCountOf R (reportToken R) (reportQuery R) 1 <= 1) ->
  resultOf (reportYesterdayMentions fuel R) w = Returned tt
  /\ requested (after (reportYesterdayMentions fuel R) w)
     = requested w
       ++ [searchRequest (reportToken R) (reportQuery R) 1;
           postRequest (reportWebhook R)
             (notFoundText (formattedYesterday R))].
Proof.
  intros Hfuel Hpresent Hcase. unfold resultOf, after.
  rewrite (report_with_secrets fuel R w Hpresent).
  assert (Hsearch : exists w',
             searchSlackMessages fuel R (reportToken R) (reportQuery R)
               (addLog [queryLine (reportQuery R)] w) = (Returned [], w')
             /\ requested w'
                = requested w
                  ++ [searchRequest (reportToken R) (reportQuery R) 1]).
  { destruct Hcase as [(j & Hj & Hok)|(Hok & Hfound & Hcount)].
    - rewrite (search_ends_refused R _ _ 1 fuel _ j); try lia; try assumption.
      eexists. split; [reflexivity|]. cbn. now rewrite app_nil_r.
    - rewrite (search_ends_exhausted R _ _ 1 fuel); try lia; try assumption.
      + unfold matchesOf, pagesFrom. cbn [seq map concat Z.of_nat Pos.of_succ_nat].
        rewrite Hfound. eexists. split; [reflexivity|]. cbn. reflexivity.
      + change (Z.of_nat 1) with 1. lia. }
  destruct Hsearch as (w' & -> & Hreq).
  unfold bind. rewrite Logger_log_run.
  destruct (postToSlack_returns R (reportWebhook R)
              (notFoundText (formattedYesterday R))
              (addLog [noMessagesLine] w')) as (w'' & -> & _ & Hpost).
  cbn [fst snd]. split; [reflexivity|].
  rewrite Hpost. cbn [requested addLog]. rewrite Hreq.
  now rewrite <- app_assoc.
Qed.

Lemma refusal_posts_not_found_witness :
  requested
    (after (reportYesterdayMentions 5 (refused "invalid_auth")) emptyWorld)
  = requested
      (after (reportYesterdayMentions 5
                (scripted sampleProps sampleQuery
                   [jsonResponse (okJson [] 0 0)] (textResponse 200 "ok")))
         emptyWorld).
Proof.
  destruct (refusal_posts_not_found (refused "invalid_auth") 5 emptyWorld)
    as [_ Hrefused].
  - lia.
  - reflexivity.
  - left. exists (errorJson "invalid_auth"). split; reflexivity.
  - destruct (refusal_posts_not_found
                (scripted sampleProps sampleQuery
                   [jsonResponse (okJson [] 0 0)] (textResponse 200 "ok"))
                5 emptyWorld) as [_ Hempty].
    + lia.
    + reflexivity.
    + right. split; [reflexivity|]. split; [reflexivity|].
      vm_compute. discriminate.
    + rewrite Hrefused, Hempty. reflexivity.
Defined.

(** * Further properties of the trigger managers *)

Lemma condemnedFor_absent (handler : string) (ts : list Trigger) (u : Trigger) :
  ~ In (getUniqueId u) (map getUniqueId ts) ->
  condemnedFor handler ts u = false.
Proof.
  induction ts as [|t rest IH]; [reflexivity|]. cbn [map In]. intros Hnotin.
  unfold condemnedFor in *. cbn [existsb].
  rewrite IH by tauto.
  destruct (Nat.eqb_spec (getUniqueId u) (getUniqueId t)) as [Heq|_];
    [exfalso; apply Hnotin; now left|].
  now rewrite andb_false_r.
Qed.

(** Where identities are unique, the triggers the deleting loop removes are
    those bound to the handler, no other. *)
Lemma condemnedFor_unique (handler : string) (ts : list Trigger) (u : Trigger) :
  NoDup (map getUniqueId ts) -> In u ts ->
  condemnedFor handler ts u = boundTo handler u.
Proof.
  induction ts as [|t rest IH]; [intros _ []|].
  cbn [map]. intros Hnd Hin. inversion Hnd as [|? ? Hfresh Hrest]; subst.
  unfold condemnedFor. cbn [existsb]. fold (condemnedFor handler rest u).
  destruct Hin as [->|Hin].
  - rewrite Nat.eqb_refl, andb_true_r.
    rewrite (condemnedFor_absent handler rest u Hfresh). apply orb_false_r.
  - rewrite (IH Hrest Hin).
    destruct (Nat.eqb_spec (getUniqueId u) (getUniqueId t)) as [Heq|_].
    + exfalso. apply Hfresh. rewrite <- Heq. now apply in_map.
    + now rewrite andb_false_r.
Qed.

Lemma kept_when_unique (handler : string) (ts : list Trigger) :
  NoDup (map getUniqueId ts) ->
  filter (fun u => negb (condemnedFor handler ts u)) ts
  = filter (fun u => negb (boundTo handler u)) ts.
Proof.
  intros Hnd. apply filter_ext_in. intros u Hu.
  now rewrite (condemnedFor_unique handler ts u Hnd Hu).
Qed.

Lemma kept_not_bound (handler : string) (ts : list Trigger) :
  Forall (fun u => boundTo handler u = false)
    (filter (fun u => negb (condemnedFor handler ts u)) ts).
Proof.
  apply Forall_forall. intros u Hu. apply filter_In in Hu as [Hin Hkeep].
  destruct (boundTo handler u) eqn:Hbound; [|reflexivity].
  assert (Hc : condemnedFor handler ts u = true).
  { apply existsb_exists. exists u. split; [exact Hin|].
    now rewrite Hbound, Nat.eqb_refl. }
  now rewrite Hc in Hkeep.
Qed.

Lemma filter_none {A : Type} (f : A -> bool) (l : list A) :
  Forall (fun x => f x = false) l -> filter f l = [].
Proof.
  induction 1 as [|x rest Hx _ IH]; cbn; [reflexivity|]. now rewrite Hx.
Qed.

Lemma NoDup_ids_filter (f : Trigger -> bool) (ts : list Trigger) :
  NoDup (map getUniqueId ts) -> NoDup (map getUniqueId (filter f ts)).
Proof.
  induction ts as [|t rest IH]; cbn; intros Hnd; [constructor|].
  inversion Hnd as [|? ? Hfresh Hrest]; subst.
  destruct (f t); cbn; [|now apply IH].
  constructor; [|now apply IH].
  intros Hin. apply Hfresh. apply in_map_iff in Hin as (u & Hid & Hu).
  apply filter_In in Hu as [Hu _]. rewrite <- Hid. now apply in_map.
Qed.

Lemma NoDup_ids_fresh (kept : list Trigger) (handler : string)
  (s : Schedule) :
  NoDup (map getUniqueId kept) ->
  NoDup
    (map getUniqueId
       (kept
        ++ [{| getUniqueId := S (list_max (map getUniqueId kept));
               getHandlerFunction := handler;
               getSchedule := s |}])).
Proof.
  intros Hnd. rewrite map_app. cbn [map getUniqueId].
  apply NoDup_app; [exact Hnd|constructor; [intros []|constructor]|].
  intros i Hi [<-|[]].
  pose proof (proj1 (list_max_le (map getUniqueId kept)
                       (list_max (map getUniqueId kept)))
                (Nat.le_refl _)) as Hall.
  rewrite Forall_forall in Hall. specialize (Hall _ Hi). lia.
Qed.

Lemma handlers_differ (t : Trigger) :
  boundTo notifierHandler t = true -> isTarget t = false.
Proof.
  unfold boundTo, isTarget. intros H. apply String.eqb_eq in H. now rewrite H.
Qed.

Lemma daily_kept_when_unique (w : World) :
  uniqueIds w ->
  projectTriggers (after setDailyMentionTrigger w)
  = filter (fun t => negb (isTarget t)) (projectTriggers w)
    ++ [dailyTrigger (filter (fun t => negb (isTarget t)) (projectTriggers w))].
Proof.
  intros Hnd. unfold uniqueIds, after in *. rewrite setDailyMentionTrigger_run.
  cbn [snd projectTriggers addLog setTriggers].
  change (fun u => negb (condemned (projectTriggers w) u))
    with (fun u => negb (condemnedFor targetHandler (projectTriggers w) u)).
  now rewrite (kept_when_unique targetHandler _ Hnd).
Qed.

(** X11. Where the installed triggers have distinct identities,
    [setDailyMentionTrigger] leaves every trigger of another handler in
    place and in order, removes those of [reportYesterdayMentions], adds
    the new daily trigger at the end, and identities stay distinct. *)
Theorem install_spares_other_triggers (w : World) :
  uniqueIds w ->
  projectTriggers (after setDailyMentionTrigger w)
  = filter (fun t => negb (isTarget t)) (projectTriggers w)
    ++ [dailyTrigger (filter (fun t => negb (isTarget t)) (projectTriggers w))]
  /\ uniqueIds (after setDailyMentionTrigger w).
Proof.
  intros Hnd. split; [now apply daily_kept_when_unique|].
  unfold uniqueIds. rewrite (daily_kept_when_unique w Hnd).
  apply NoDup_ids_fresh. now apply NoDup_ids_filter.
Qed.

Lemma install_spares_other_triggers_witness :
  map shape (projectTriggers (after setDailyMentionTrigger staleWorld))
  = [(notifierHandler, EveryMinutes 5); (notifierHandler, EveryMinutes 5);
     (targetHandler, Daily 8 1)].
Proof.
  destruct (install_spares_other_triggers staleWorld) as [Hkept _].
  - unfold uniqueIds. cbn. repeat constructor; cbn; intuition lia.
  - rewrite Hkept. reflexivity.
Defined.

Lemma deleteNotifierTriggers_run (ts : list Trigger) :
  forall (deletedCount : Z) (w : World),
    deleteNotifierTriggers ts deletedCount w
    = (Returned
         (deletedCount
          + Z.of_nat (length (filter (boundTo notifierHandler) ts))),
       setTriggers
         (filter (fun u => negb (condemnedFor notifierHandler ts u))
            (projectTriggers w)) w).
Proof.
  induction ts as [|t rest IH]; intros deletedCount w.
  - cbn. rewrite filter_all, setTriggers_same, Z.add_0_r; [reflexivity|].
    apply Forall_forall. reflexivity.
  - cbn [deleteNotifierTriggers filter].
    change (String.eqb (getHandlerFunction t) "sendSlackNotification")
      with (boundTo notifierHandler t).
    destruct (boundTo notifierHandler t) eqn:Ht.
    + unfold bind, ScriptApp_deleteTrigger. rewrite IH. cbn.
      rewrite filter_twice. unfold setTriggers. cbn. f_equal; [f_equal; lia|].
      f_equal. apply filter_ext. intros u. unfold condemnedFor.
      cbn [existsb]. rewrite Ht. cbn. now rewrite negb_orb.
    + rewrite IH. do 2 f_equal.
      apply filter_ext. intros u. unfold condemnedFor. cbn [existsb].
      now rewrite Ht.
Qed.

Lemma deleteTriggers_run (w : World) :
  deleteTriggers w
  = (Returned tt,
     addLog
       [deletedLine
          (Z.of_nat
             (length (filter (boundTo notifierHandler) (projectTriggers w))))]
       (setTriggers
          (filter
             (fun u => negb (condemnedFor notifierHandler (projectTriggers w) u))
             (projectTriggers w)) w)).
Proof.
  unfold deleteTriggers, bind, ScriptApp_getProjectTriggers.
  rewrite deleteNotifierTriggers_run. reflexivity.
Qed.



Lemma setTestTrigger_run (w : World) :
  setTestTrigger w
  = (Returned tt,
     addLog
       [deletedLine
          (Z.of_nat
             (length (filter (boundTo notifierHandler) (projectTriggers w))));
        testTriggerLine]
       (setTriggers
          (filter
             (fun u => negb (condemnedFor notifierHandler (projectTriggers w) u))
             (projectTriggers w)
           ++ [testTrigger
                 (filter
                    (fun u =>
                       negb (condemnedFor notifierHandler (projectTriggers w) u))
                    (projectTriggers w))]) w)).
Proof.
  unfold setTestTrigger, bind. rewrite deleteTriggers_run.
  unfold ScriptApp_create. rewrite Logger_log_run.
  unfold addLog, setTriggers, testTrigger.
  cbn [logged requested projectTriggers]. rewrite <- app_assoc.
  reflexivity.
Qed.

(** X13. After one call of [setTestTrigger], and after any number of
    further calls, exactly one trigger is bound to [sendSlackNotification],
    and it fires every 5 minutes, whatever was installed before. *)
Theorem setTestTrigger_installs_one (w : World) (n : nat) :
  resultOf setTestTrigger w = Returned tt
  /\ exists t,
      filter (boundTo notifierHandler)
        (projectTriggers (Nat.iter (S n) (after setTestTrigger) w))
      = [t]
      /\ shape t = (notifierHandler, EveryMinutes 5).
Proof.
  split; [unfold resultOf; now rewrite setTestTrigger_run|].
  change (Nat.iter (S n) (after setTestTrigger) w)
    with (after setTestTrigger (Nat.iter n (after setTestTrigger) w)).
  unfold after at 1. rewrite setTestTrigger_run.
  cbn [snd projectTriggers addLog setTriggers].
  eexists. rewrite filter_app, (filter_none _ _ (kept_not_bound _ _)).
  split; reflexivity.
Qed.

(** X14. Where identities are distinct the two installers do not touch each
    other's triggers: [setDailyMentionTrigger] leaves the triggers of
    [sendSlackNotification] as they are, [setTestTrigger] those of
    [reportYesterdayMentions], and both keep identities distinct; so after
    both, in either order, exactly one trigger of each handler is
    installed. *)
Theorem installers_do_not_interfere (w : World) :
  uniqueIds w ->
  filter (boundTo notifierHandler)
    (projectTriggers (after setDailyMentionTrigger w))
  = filter (boundTo notifierHandler) (projectTriggers w)
  /\ targetTriggers (after setTestTrigger w) = targetTriggers w
  /\ uniqueIds (after setTestTrigger w)
  /\ length (targetTriggers
               (after setTestTrigger (after setDailyMentionTrigger w)))
     = 1%nat
  /\ length (filter (boundTo notifierHandler)
               (projectTriggers
                  (after setDailyMentionTrigger (after setTestTrigger w))))
     = 1%nat.
Proof.
  intros Hnd.
  assert (Htest : forall v,
             uniqueIds v ->
             targetTriggers (after setTestTrigger v) = targetTriggers v
             /\ uniqueIds (after setTestTrigger v)
             /\ length (filter (boundTo notifierHandler)
                          (projectTriggers (after setTestTrigger v)))
                = 1%nat).
  { intros v Hv. unfold targetTriggers, uniqueIds, after in *.
    rewrite setTestTrigger_run.
    cbn [snd projectTriggers addLog setTriggers].
    rewrite (kept_when_unique notifierHandler _ Hv).
    split; [|split].
    - rewrite filter_app, filter_twice. cbn. rewrite app_nil_r.
      apply filter_ext. intros t. unfold isTarget, boundTo.
      destruct (String.eqb_spec (getHandlerFunction t) targetHandler)
        as [->|_]; [reflexivity|apply andb_false_r].
    - apply (NoDup_ids_fresh _ notifierHandler (EveryMinutes 5)).
      now apply NoDup_ids_filter.
    - rewrite filter_app, filter_twice. cbn.
      rewrite filter_none; [reflexivity|].
      apply Forall_forall. intros t _.
      destruct (boundTo notifierHandler t); reflexivity. }
  assert (Hdaily : forall v,
             uniqueIds v ->
             filter (boundTo notifierHandler)
               (projectTriggers (after setDailyMentionTrigger v))
             = filter (boundTo notifierHandler) (projectTriggers v)
             /\ length (targetTriggers (after setDailyMentionTrigger v))
                = 1%nat).
  { intros v Hv.
    unfold targetTriggers. rewrite (daily_kept_when_unique v Hv). split.
    - rewrite filter_app, filter_twice. cbn. rewrite app_nil_r.
      apply filter_ext. intros t.
      destruct (boundTo notifierHandler t) eqn:Hb;
        [now rewrite (handlers_differ t Hb)|apply andb_false_r].
    - rewrite filter_app, filter_twice. cbn.
      rewrite filter_none; [reflexivity|].
      apply Forall_forall. intros t _.
      destruct (isTarget t); reflexivity. }
  destruct (Htest w Hnd) as (Htargets & Hnd' & _).
  destruct (Hdaily w Hnd) as (Hnotifier & Hone).
  assert (Hnd'' : uniqueIds (after setDailyMentionTrigger w)).
  { unfold uniqueIds. rewrite (daily_kept_when_unique w Hnd).
    apply NoDup_ids_fresh. now apply NoDup_ids_filter. }
  split; [exact Hnotifier|]. split; [exact Htargets|]. split; [exact Hnd'|].
  split.
  - destruct (Htest _ Hnd'') as (Hsame & _). now rewrite Hsame.
  - destruct (Hdaily _ Hnd') as (Hsame & _). rewrite Hsame.
    now destruct (Htest w Hnd) as (_ & _ & Hlen).
Qed.

Lemma installers_do_not_interfere_witness :
  length (targetTriggers
            (after setTestTrigger (after setDailyMentionTrigger staleWorld)))
  = 1%nat
  /\ length (filter (boundTo notifierHandler)
               (projectTriggers
                  (after setDailyMentionTrigger
                     (after setTestTrigger staleWorld))))
     = 1%nat.
Proof.
  destruct (installers_do_not_interfere staleWorld) as (_ & _ & _ & H1 & H2).
  - unfold uniqueIds. cbn. repeat constructor; cbn; intuition lia.
  - split; [exact H1|exact H2].
Defined.

(** * Properties of the spreadsheet digest *)


Example digest_of_sample_sheet :
  requested
    (after (sendSlackNotification threePages (hostWith (Some sampleSheet)))
       emptyWorld)
  = [postRequest "https://hooks.slack.com/services/T/B/X"
       (String.concat newline
          [digestHeader;
           rowLine 1 "alice | 12人";
           rowLine 2 "bob | 7人";
           digestFooter "2024/1/2 9:00:00"])]
  /\ requested
       (after
          (sendSlackNotification threePages (hostWith (Some headerOnlySheet)))
          emptyWorld)
     = []
  /\ logged
       (after (sendSlackNotification threePages (hostWith None)) emptyWorld)
     = [missingSheetLine]
  /\ logged
       (after (sendSlackNotification unconfigured (hostWith (Some sampleSheet)))
          emptyWorld)
     = [missingWebhookLine]
  /\ sendSlackNotification threePages hostWithoutSpreadsheet emptyWorld
     = (Threw HostError, emptyWorld).
Proof. repeat split. Qed.





(** * The two variants of the aggregator *)

Lemma mapSet_with_fallback (key : string) (value : option string)
  (m : list (string * option string)) :
  mapSet key (snd (entryWithFallback (key, value))) (map entryWithFallback m)
  = map entryWithFallback (Legacy.mapSet key value m).
Proof.
  induction m as [|[k v] rest IH]; [reflexivity|].
  unfold entryWithFallback in *. cbn [fst snd map Legacy.mapSet mapSet] in *.
  destruct (String.eqb_spec k key) as [->|Hne]; cbn [map fst snd].
  - reflexivity.
  - now rewrite IH.
Qed.

Lemma recordChannel_with_fallback (m : list (string * option string))
  (msg : Match.t) :
  recordChannel (map entryWithFallback m) msg
  = map entryWithFallback (Legacy.recordChannel m msg).
Proof.
  unfold recordChannel, Legacy.recordChannel.
  destruct (Match.channel msg) as [[[i|] nm]|]; cbn; try reflexivity.
  destruct i as [|c i]; [reflexivity|]. cbn [truthy].
  apply (mapSet_with_fallback (String c i) nm m).
Qed.

Lemma buildChannelMap_with_fallback (messages : list Match.t) :
  forall acc,
    fold_left recordChannel messages (map entryWithFallback acc)
    = map entryWithFallback (fold_left Legacy.recordChannel messages acc).
Proof.
  induction messages as [|msg rest IH]; intros acc; [reflexivity|].
  cbn [fold_left]. now rewrite recordChannel_with_fallback, IH.
Qed.

(** X17. The later aggregator is the earlier one followed by the name
    fallback and the sort: both list the same channel ids, in order of
    first appearance before sorting, and where the earlier variant leaves
    a name [undefined] or empty the later one puts
    [private-channel-<id>]. *)
Theorem later_aggregator_extends_earlier (collate : string -> string -> Z)
  (messages : list Match.t) :
  aggregateMentions collate messages
  = arraySort (byName collate)
      (map withFallback (Legacy.aggregateMentions messages))
  /\ map Legacy.id (Legacy.aggregateMentions messages)
     = map fst (buildChannelMap messages).
Proof.
  unfold aggregateMentions, Legacy.aggregateMentions, buildChannelMap,
    Legacy.buildChannelMap.
  change (@nil (string * string)) with (map entryWithFallback []).
  rewrite buildChannelMap_with_fallback. rewrite !map_map. split.
  - cbv zeta. f_equal.
  - apply map_ext. now intros [k v].
Qed.

(** * The two variants of the search client *)

Lemma legacy_search_run (R : Runtime) (token query : string) (w : World)
  (j : SearchJson) :
  fetch R (Legacy.searchRequest token query)
  = fetch R (searchRequest token query 1) ->
  pageJson R token query 1 = Some j ->
  (ok j = false ->
   resultOf (Legacy.searchSlackMessages R token query) w = Returned [])
  /\ (ok j = true -> wellShaped j = true ->
      resultOf (Legacy.searchSlackMessages R token query) w
      = Returned (foundIn j)).
Proof.
  unfold pageJson, resultOf, Legacy.searchSlackMessages. intros <- Hj.
  unfold bind, UrlFetchApp_fetch, JSON_parse. rewrite Hj. unfold ret.
  split.
  - intros Hok. rewrite Hok. reflexivity.
  - intros Hok Hshape. rewrite Hok. unfold wellShaped, paginationIn in Hshape.
    unfold foundIn, deref. destruct (messages j) as [msgs|]; [reflexivity|].
    discriminate.
Qed.

(** X18. Where the remote side answers a request that names no page as it
    answers the request of page 1, the paginated client extends the
    earlier, single-page one: whenever the paginated client returns, the
    earlier one returns too, and its result is the beginning of the
    paginated result; the two results are equal when page 1 reports no
    further page. *)
Theorem paginated_extends_earlier (R : Runtime) (token query : string)
  (fuel : nat) (w : World) (ms : list Match.t) :
  (5 <= fuel)%nat ->
  fetch R (Legacy.searchRequest token query)
  = fetch R (searchRequest token query 1) ->
  resultOf (searchSlackMessages fuel R token query) w = Returned ms ->
  exists first rest,
    resultOf (Legacy.searchSlackMessages R token query) w = Returned first
    /\ ms = first ++ rest
    /\ (pageCountOf R token query 1 <= 1 -> rest = []).
Proof.
  intros Hfuel Hsame. unfold resultOf at 1.
  rewrite searchSlackMessages_unfold.
  pose proof (search_top_run R token query fuel w Hfuel) as Hrun.
  destruct (searchLoop fuel R token query [] 1
              (addLog [searchStartLine query] w)) as [[ms'|e|] w'];
    cbn [fst snd] in *; try discriminate.
  intros [= ->].
  inversion Hrun as [| page acc v j Hj Hok | | page acc v Hgood Hcap
                    | page acc v Hgood Hcap Hlast
                    | page acc v r v' Hgood Hcap Hmore Hsub]; subst.
  - destruct (legacy_search_run R token query w j Hsame Hj) as [Hrefused _].
    exists [], []. split; [now apply Hrefused|]. split; [reflexivity|auto].
  - lia.
  - destruct (pageOk_json R token query 1 Hgood) as (j & Hj & Hok & Hshape).
    destruct (legacy_search_run R token query w j Hsame Hj) as [_ Hread].
    exists (foundIn j), []. split; [now apply Hread|].
    unfold pageFound. rewrite Hj. split; [now rewrite app_nil_r|auto].
  - destruct (pageOk_json R token query 1 Hgood) as (j & Hj & Hok & Hshape).
    destruct (legacy_search_run R token query w j Hsame Hj) as [_ Hread].
    destruct (SearchRun_shape R token query _ _ _ _ _ Hsub ltac:(lia))
      as (k & ls & _ & _ & _ & _ & _ & _ & Hres).
    destruct (Hres ms eq_refl) as (n & _ & Hms & _).
    exists (foundIn j), (matchesOf R token query (pageRange (1 + 1) n)).
    split; [now apply Hread|]. split; [|lia].
    rewrite Hms. unfold pageFound. now rewrite Hj.
Qed.

Lemma paginated_extends_earlier_witness :
  exists first rest,
    resultOf
      (Legacy.searchSlackMessages
         (defaultingToFirstPage threePages "xoxp-1" sampleQuery) "xoxp-1"
         sampleQuery) emptyWorld
    = Returned first
    /\ hundred ++ hundred ++ thirtySeven = first ++ rest
    /\ (pageCountOf (defaultingToFirstPage threePages "xoxp-1" sampleQuery)
          "xoxp-1" sampleQuery 1 <= 1 ->
        rest = []).
Proof.
  apply (paginated_extends_earlier
           (defaultingToFirstPage threePages "xoxp-1" sampleQuery) "xoxp-1"
           sampleQuery 5 emptyWorld (hundred ++ hundred ++ thirtySeven)).
  - lia.
  - reflexivity.
  - reflexivity.
Defined.

(** * What a run of the entry function may change *)

Lemma postToSlack_by_parts (R : Runtime) (webhookUrl text : string)
  (w : World) :
  exists w' line,
    postToSlack R webhookUrl text w = (Returned tt, w')
    /\ projectTriggers w' = projectTriggers w
    /\ requested w' = requested w ++ [postRequest webhookUrl text]
    /\ logged w' = logged w ++ [line].
Proof.
  unfold postToSlack, bind. rewrite fetch_run.
  destruct (getResponseCode (fetch R (postRequest webhookUrl text)) =? 200);
    rewrite Logger_log_run; do 2 eexists; repeat split.
Qed.

(** X19. Whatever the script properties and the remote side are, throwing
    runs included, a run of [reportYesterdayMentions] ends, only adds lines
    to the log, sends at most six requests (at most five searches, then at
    most one post) after those already sent, and leaves the project's
    triggers alone. *)
Theorem report_only_appends (R : Runtime) (fuel : nat) (w : World) :
  (5 <= fuel)%nat ->
  resultOf (reportYesterdayMentions fuel R) w <> OutOfFuel
  /\ (exists ls,
         logged (after (reportYesterdayMentions fuel R) w) = logged w ++ ls)
  /\ (exists rs,
         requested (after (reportYesterdayMentions fuel R) w)
         = requested w ++ rs
         /\ (length rs <= 6)%nat)
  /\ projectTriggers (after (reportYesterdayMentions fuel R) w)
     = projectTriggers w.
Proof.
  intros Hfuel. unfold resultOf, after.
  destruct (secretsPresent R) eqn:Hpresent.
  - rewrite (report_with_secrets fuel R w Hpresent).
    rewrite searchSlackMessages_unfold.
    destruct (SearchRun_shape R (reportToken R) (reportQuery R) _ _ _ _ _
                (search_top_run R (reportToken R) (reportQuery R) fuel
                   (addLog [queryLine (reportQuery R)] w) Hfuel) ltac:(lia))
      as (k & ls & Hk & Hbound & Hreq & Hlog & Htr & Hend & _).
    assert (Hlen : (length (requestsFor (reportToken R) (reportQuery R)
                              (pageRange 1 k)) <= 5)%nat).
    { unfold requestsFor, pageRange. rewrite !length_map, length_seq. lia. }
    destruct (searchLoop fuel R (reportToken R) (reportQuery R) [] 1
                (addLog [searchStartLine (reportQuery R)]
                   (addLog [queryLine (reportQuery R)] w)))
      as [[[|m ms]|e|] w']; cbn [fst snd logged requested addLog] in *.
    + unfold bind. rewrite Logger_log_run.
      destruct (postToSlack_by_parts R (reportWebhook R)
                  (notFoundText (formattedYesterday R))
                  (addLog [noMessagesLine] (addLog [completedLine []] w')))
        as (w'' & line & -> & Htr' & Hreq' & Hlog').
      cbn [fst snd]. split; [discriminate|]. split; [|split].
      * eexists. rewrite Hlog'. cbn [logged addLog]. rewrite Hlog.
        rewrite <- !app_assoc. reflexivity.
      * eexists. rewrite Hreq'. cbn [requested addLog]. rewrite Hreq.
        rewrite <- !app_assoc. split; [reflexivity|].
        rewrite length_app. cbn [length]. lia.
      * rewrite Htr'. cbn. exact Htr.
    + destruct (postToSlack_by_parts R (reportWebhook R)
                  (reportText (formattedYesterday R) (m :: ms)
                     (aggregateMentions (localeCompare R) (m :: ms)))
                  (addLog [completedLine (m :: ms)] w'))
        as (w'' & line & -> & Htr' & Hreq' & Hlog').
      cbn [fst snd]. split; [discriminate|]. split; [|split].
      * eexists. rewrite Hlog'. cbn [logged addLog]. rewrite Hlog.
        rewrite <- !app_assoc. reflexivity.
      * eexists. rewrite Hreq'. cbn [requested addLog]. rewrite Hreq.
        rewrite <- !app_assoc. split; [reflexivity|].
        rewrite length_app. cbn [length]. lia.
      * rewrite Htr'. cbn. exact Htr.
    + split; [discriminate|]. split; [|split].
      * eexists. rewrite Hlog. rewrite <- !app_assoc. reflexivity.
      * eexists. rewrite Hreq. split; [rewrite <- ?app_assoc; reflexivity|lia].
      * exact Htr.
    + now destruct Hend.
  - rewrite (report_without_secrets fuel R w Hpresent).
    cbn [fst snd logged requested projectTriggers addLog].
    split; [discriminate|]. split; [now eexists|]. split; [|reflexivity].
    exists []. split; [now rewrite app_nil_r|cbn; lia].
Qed.

Lemma report_only_appends_witness :
  resultOf (reportYesterdayMentions 5 gatewayError) emptyWorld <> OutOfFuel
  /\ projectTriggers (after (reportYesterdayMentions 5 gatewayError) staleWorld)
     = projectTriggers staleWorld.
Proof.
  split.
  - apply (report_only_appends gatewayError 5 emptyWorld). lia.
  - apply (report_only_appends gatewayError 5 staleWorld). lia.
Defined.
